(** * Weekly staffing planner: occupancy grid of [main.py]

    A shallow embedding of the computational core of [main.py]
    ([time_range], [build_empty_grid], [apply_person_to_grid], the
    grid-building driver and the add/update handler of the side bar), of
    the other actions on the session state and of the display helpers
    ([pretty_time], the table of people, the labels of the displayed grid),
    followed by the properties of the specification that concern them and
    by further properties read off the code.

    Conventions of the embedding.
    - A [datetime.time] is a record of hour, minute and second (the
      micro-second field is always 0 in this program and is left out).
    - A [datetime.datetime] built by [datetime.combine(today, t)] is the
      number of seconds since today's midnight, an unbounded [Z], and one
      reference date is used throughout a call. The first and the last
      year of the calendar, beyond which Python raises [OverflowError], are
      not modelled: the embedding follows the program as long as the
      date-times it computes stay within the calendar, which they do when
      the step is between 1 and 1440 minutes (today being at least two
      days before the last day of the calendar). The properties that state
      that a call returns are stated for such steps; for a step that is
      zero or negative the properties state what happens at the first
      yield, or that no result is returned.
    - A [timedelta(minutes=m)] is the number of seconds [60 * m].
    - A [str] is the string of the bytes of its UTF-8 encoding.
    - Loops that Python runs until their condition fails take a [fuel]
      argument; running out of fuel is the outcome [OutOfFuel], distinct
      from a raised exception.
    - A generator consumed by a [for] loop is a fold: the loop body is
      run at every [yield], in the order of the source. *)

From Stdlib Require Import ZArith Lia String Ascii Permutation.
From stdpp Require Import base option list sorting.

Local Open Scope Z_scope.

(** ** Outcomes of a run *)

Inductive exn : Set := IndexError | KeyError.

Inductive outcome (A : Type) : Type :=
  | Done (a : A)
  | Raise (e : exn)
  | OutOfFuel.
Arguments Done {A} a.
Arguments Raise {A} e.
Arguments OutOfFuel {A}.

#[export] Instance outcome_ret : MRet outcome := fun _ a => Done a.
#[export] Instance outcome_bind : MBind outcome := fun _ _ k m =>
  match m with
  | Done a => k a
  | Raise e => Raise e
  | OutOfFuel => OutOfFuel
  end.

(** [for x in l: acc = body x acc], stopping at the first exception. *)
Fixpoint for_in {A B : Type} (l : list A) (body : A -> B -> outcome B) (acc : B)
  : outcome B :=
  match l with
  | [] => Done acc
  | x :: l' => acc' ← body x acc; for_in l' body acc'
  end.

(** ** Times of day and date-times *)

Record time : Set := mktime { hour : Z; minute : Z; second : Z }.

#[export] Instance time_eq_dec : EqDecision time.
Proof. solve_decision. Defined.

Definition datetime : Set := Z.

(** [datetime.combine(datetime.today().date(), t)] *)
Definition combine (t : time) : datetime :=
  3600 * hour t + 60 * minute t + second t.

(** [dt.time()]: the time-of-day part of a date-time. *)
Definition dt_time (dt : datetime) : time :=
  let s := dt mod 86400 in
  mktime (s / 3600) (s mod 3600 / 60) (s mod 60).

(** [timedelta(minutes=m)] and [timedelta(days=n)] *)
Definition timedelta_minutes (m : Z) : Z := 60 * m.
Definition timedelta_days (n : Z) : Z := 86400 * n.

(** The values the constructor [time(h, m, s)] accepts. *)
Definition valid_time (t : time) : Prop :=
  0 <= hour t < 24 /\ 0 <= minute t < 60 /\ 0 <= second t < 60.

(** ** Helpers of [main.py] *)

Definition DAYS : list string :=
  ["Monday"; "Tuesday"; "Wednesday"; "Thursday"; "Friday"; "Saturday"; "Sunday"]%string.

(** [DAY_TO_IDX = {d:i for i, d in enumerate(DAYS)}]: the dictionary as the
    list of its items. *)
Definition DAY_TO_IDX : list (string * Z) :=
  imap (fun i d => (d, Z.of_nat i)) DAYS.

(** [DAY_TO_IDX[d]], which raises [KeyError] on a missing key. *)
Fixpoint dict_get (k : string) (d : list (string * Z)) : outcome Z :=
  match d with
  | [] => Raise KeyError
  | (k', v) :: d' => if String.eqb k k' then Done v else dict_get k d'
  end.

(** [while cond(t): yield t.time(); t += step], the [for] loop that
    consumes the generator running [body] at every [yield]. *)
Fixpoint while_yield {A : Type} (fuel : nat) (cond : datetime -> bool) (step : Z)
    (t : datetime) (body : time -> A -> outcome A) (acc : A) : outcome A :=
  match fuel with
  | O => OutOfFuel
  | S fuel' =>
      if cond t then
        acc' ← body (dt_time t) acc;
        while_yield fuel' cond step (t + step) body acc'
      else Done acc
  end.

(** [for tt in time_range(start, end, step_minutes): acc = body tt acc] *)
Definition time_range {A : Type} (fuel : nat) (start end_ : time) (step_minutes : Z)
    (body : time -> A -> outcome A) (acc : A) : outcome A :=
  let t0 := combine start in
  let t1 := combine end_ in
  let step := timedelta_minutes step_minutes in
  if t1 <=? t0 then
    let t_mid := combine (mktime 23 59 59) in
    acc' ← while_yield fuel (fun t => t <=? t_mid) step t0 body acc;
    while_yield fuel (fun t => t <? t1) step (combine (mktime 0 0 0)) body acc'
  else
    while_yield fuel (fun t => t <? t1) step t0 body acc.

(** ** The occupancy grid: a [pandas.DataFrame] of integers

    A frame is its column labels and its rows, each row being its index
    label and one integer per column. *)
Record DataFrame : Type := mkframe {
  columns : list string;
  rows : list (time * list Z)
}.

Definition index (df : DataFrame) : list time := (rows df).*1.

(** [pd.DataFrame(0, index=times, columns=cols, dtype=int)] *)
Definition zero_frame (times : list time) (cols : list string) : DataFrame :=
  mkframe cols ((fun t => (t, replicate (length cols) 0)) <$> times).

(** Position of a column for [iloc]: Python counts a negative position from
    the end, and anything outside [-n, n) is an [IndexError]. *)
Definition iloc_col (ncols : nat) (c : Z) : option nat :=
  if (0 <=? c) && (c <? Z.of_nat ncols) then Some (Z.to_nat c)
  else if (- Z.of_nat ncols <=? c) && (c <? 0) then Some (Z.to_nat (c + Z.of_nat ncols))
  else None.

(** Add 1 to column [c] of every row labelled [tt]. *)
Definition bump (tt : time) (c : nat) (df : DataFrame) : DataFrame :=
  mkframe (columns df)
    ((fun row : time * list Z =>
        if decide (row.1 = tt) then (row.1, alter Z.succ c row.2) else row)
       <$> rows df).

(** [df.iloc[df.index.get_loc(tt), d_idx] += 1]: [get_loc] selects the
    rows labelled [tt] (one row when the labels are unique). *)
Definition iloc_incr (df : DataFrame) (tt : time) (d_idx : Z) : outcome DataFrame :=
  match iloc_col (length (columns df)) d_idx with
  | Some c => Done (bump tt c df)
  | None => Raise IndexError
  end.

(** [if tt in df.index: df.iloc[df.index.get_loc(tt), d_idx] += 1] *)
Definition mark (d_idx : Z) (tt : time) (df : DataFrame) : outcome DataFrame :=
  if bool_decide (tt ∈ index df) then iloc_incr df tt d_idx else Done df.

(** The [while t < end] loop of [build_empty_grid]. *)
Fixpoint build_times (fuel : nat) (t end_ step : datetime) (times : list time)
  : outcome (list time) :=
  match fuel with
  | O => OutOfFuel
  | S fuel' =>
      if t <? end_ then build_times fuel' (t + step) end_ step (times ++ [dt_time t])
      else Done times
  end.

Definition build_empty_grid (fuel : nat) (step_minutes : Z) : outcome DataFrame :=
  let t := combine (mktime 0 0 0) in
  let end_ := t + timedelta_days 1 in
  let step := timedelta_minutes step_minutes in
  times ← build_times fuel t end_ step [];
  Done (zero_frame times DAYS).

(** A person record: the dictionary with keys id, name, mode, days, start
    and end. *)
Record person : Type := mkperson {
  p_id : string;
  p_name : string;
  p_mode : string;
  p_days : list Z;
  p_start : time;
  p_end : time
}.

(** Lines 61-65: the days the shift applies to. *)
Definition day_indices (mode : string) (selected_days : list Z) : list Z :=
  if String.eqb mode "Working days" then selected_days
  else filter (fun i => i ∉ selected_days) (Z.of_nat <$> seq 0 7).

(** The body of [for d_idx in day_indices]. *)
Definition apply_day (fuel : nat) (start_t end_t : time) (step_minutes : Z)
    (d_idx : Z) (df : DataFrame) : outcome DataFrame :=
  if combine end_t >? combine start_t then
    time_range fuel start_t end_t step_minutes (mark d_idx) df
  else
    df' ← time_range fuel start_t (mktime 23 59 59) step_minutes (mark d_idx) df;
    let next_day := (d_idx + 1) mod 7 in
    time_range fuel (mktime 0 0 0) end_t step_minutes (mark next_day) df'.

Definition apply_person_to_grid (fuel : nat) (df : DataFrame) (p : person)
    (step_minutes : Z) : outcome DataFrame :=
  for_in (day_indices (p_mode p) (p_days p))
    (apply_day fuel (p_start p) (p_end p) step_minutes) df.

(** Lines 217-219: build the staffing grid. *)
Definition staffing_grid (fuel : nat) (people : list person) (interval : Z)
  : outcome DataFrame :=
  grid ← build_empty_grid fuel interval;
  for_in people (fun p grid => apply_person_to_grid fuel grid p interval) grid.

(** ** The add/update handler of the side bar (lines 130-153) *)

(** [str.strip] removes, at both ends, the characters for which
    [str.isspace] holds: the code points U+0009 to U+000D, U+001C to
    U+0020, U+0085, U+00A0, U+1680, U+2000 to U+200A, U+2028, U+2029,
    U+202F, U+205F and U+3000. In UTF-8 the first ten are one byte, U+0085
    and U+00A0 are the byte C2 followed by 85 or A0, and the others are
    three bytes: E1 9A 80, E2 80 80 to E2 80 8A, E2 80 A8, E2 80 A9,
    E2 80 AF, E2 81 9F and E3 80 80. *)
Definition is_space (c : ascii) : bool :=
  let n := nat_of_ascii c in
  ((9 <=? n) && (n <=? 13) || (28 <=? n) && (n <=? 32))%nat.

Definition is_space2 (c1 c2 : ascii) : bool :=
  let n1 := nat_of_ascii c1 in
  let n2 := nat_of_ascii c2 in
  ((n1 =? 194) && ((n2 =? 133) || (n2 =? 160)))%nat.

Definition is_space3 (c1 c2 c3 : ascii) : bool :=
  let n1 := nat_of_ascii c1 in
  let n2 := nat_of_ascii c2 in
  let n3 := nat_of_ascii c3 in
  ((n1 =? 225) && (n2 =? 154) && (n3 =? 128)
   || (n1 =? 226) && (n2 =? 128)
      && ((128 <=? n3) && (n3 <=? 138) || (n3 =? 168) || (n3 =? 169) || (n3 =? 175))
   || (n1 =? 226) && (n2 =? 129) && (n3 =? 159)
   || (n1 =? 227) && (n2 =? 128) && (n3 =? 128))%nat.

(** Drop from the start of [s] the characters that [one], [two] and
    [three] recognise on one, two and three bytes. *)
Fixpoint strip_start (one : ascii -> bool) (two : ascii -> ascii -> bool)
    (three : ascii -> ascii -> ascii -> bool) (s : string) : string :=
  match s with
  | String c1 s1 =>
      if one c1 then strip_start one two three s1
      else
        match s1 with
        | String c2 s2 =>
            if two c1 c2 then strip_start one two three s2
            else
              match s2 with
              | String c3 s3 =>
                  if three c1 c2 c3 then strip_start one two three s3 else s
              | EmptyString => s
              end
        | EmptyString => s
        end
  | EmptyString => s
  end.

Fixpoint string_rev (s : string) : string :=
  match s with
  | EmptyString => EmptyString
  | String c s' => (string_rev s' ++ String c EmptyString)%string
  end.

(** [s.lstrip()] *)
Definition lstrip (s : string) : string :=
  strip_start is_space is_space2 is_space3 s.

(** White space dropped from the start of the reversed string, where the
    bytes of a character come last byte first. *)
Definition strip_end_rev (s : string) : string :=
  strip_start is_space (fun c2 c1 => is_space2 c1 c2)
    (fun c3 c2 c1 => is_space3 c1 c2 c3) s.

(** [s.rstrip()] *)
Definition rstrip (s : string) : string :=
  string_rev (strip_end_rev (string_rev s)).

(** [s.strip()] *)
Definition strip (s : string) : string := rstrip (lstrip s).

(** The session state and the widgets the handler reads. *)
Record session : Type := mksession {
  people : list person;
  edit_id : option string
}.

Record form : Type := mkform {
  f_mode : string;
  f_name : string;
  f_days_pick : list string;
  f_start_t : time;
  f_end_t : time
}.

(** What a run of the handler leaves behind: the session state, the
    message shown by [st.sidebar.error], and whether a rerun was asked. *)
Record reply : Type := mkreply {
  r_state : session;
  r_error : option string;
  r_rerun : bool
}.

(** [[DAY_TO_IDX[d] for d in days_pick]] *)
Fixpoint day_list (days_pick : list string) : outcome (list Z) :=
  match days_pick with
  | [] => Done []
  | d :: ds => i ← dict_get d DAY_TO_IDX; l ← day_list ds; Done (i :: l)
  end.

(** The update loop: the first record with the edited id is replaced. *)
Fixpoint replace_first (id : string) (payload : person) (l : list person)
  : list person :=
  match l with
  | [] => []
  | p :: l' =>
      if String.eqb (p_id p) id then payload :: l'
      else p :: replace_first id payload l'
  end.

(** [st.session_state.edit_id or str(uuid.uuid4())]: [None] and the empty
    string are falsy. *)
Definition edit_id_or (e : option string) (uuid4 : string) : string :=
  match e with
  | Some id => if String.eqb id "" then uuid4 else id
  | None => uuid4
  end.

Definition add_update (uuid4 : string) (f : form) (s : session) : outcome reply :=
  if String.eqb (strip (f_name f)) "" then
    Done (mkreply s (Some "Please enter a name."%string) false)
  else if bool_decide (f_start_t f = f_end_t f) then
    Done (mkreply s
      (Some "Start time and end time cannot be identical (duration would be 0)."%string)
      false)
  else
    days ← day_list (f_days_pick f);
    let payload :=
      mkperson (edit_id_or (edit_id s) uuid4) (strip (f_name f)) (f_mode f) days
        (f_start_t f) (f_end_t f) in
    match edit_id s with
    | None => Done (mkreply (mksession (people s ++ [payload]) None) None true)
    | Some id =>
        Done (mkreply (mksession (replace_first id payload (people s)) None) None true)
    end.

(** ** The other actions on the session state (lines 120-127, 174-202) *)

(** The "Clear" button. *)
Definition clear_form (s : session) : session := mksession (people s) None.

(** The "Reset All" button. *)
Definition reset_all (s : session) : session := mksession [] None.

(** [l[i]] on a Python list: a negative position counts from the end, and
    [None] stands for the [IndexError] of a position out of range. *)
Definition list_item {A : Type} (l : list A) (i : Z) : option A :=
  let n := Z.of_nat (length l) in
  if (0 <=? i) && (i <? n) then l !! Z.to_nat i
  else if (- n <=? i) && (i <? 0) then l !! Z.to_nat (i + n)
  else None.

(** [next(p for p in people if p["id"] == target)]; [None] stands for the
    [StopIteration] raised when no record has the id. *)
Fixpoint next_with_id (target : string) (l : list person) : option person :=
  match l with
  | [] => None
  | p :: l' => if String.eqb (p_id p) target then Some p else next_with_id target l'
  end.

(** The dictionary stored under [__form_defaults__]. *)
Record form_defaults : Type := mkdefaults {
  d_mode : string;
  d_interval : Z;
  d_name : string;
  d_days : list string;
  d_start : time;
  d_end : time
}.

(** [[DAYS[i] for i in person["days"]]] *)
Fixpoint day_names (days : list Z) : option (list string) :=
  match days with
  | [] => Some []
  | i :: days' =>
      match list_item DAYS i with
      | Some d => cons d <$> day_names days'
      | None => None
      end
  end.

(** What a click on "Load into form" leaves behind: the session state and
    the defaults written, or the exception raised, after [edit_id] was
    set. *)
Inductive loaded : Type :=
  | Loaded (s : session) (defaults : option form_defaults)
  | LoadStopIteration (s : session)
  | LoadIndexError (s : session).

Definition load_into_form (target_edit : string) (interval : Z) (s : session)
  : loaded :=
  if String.eqb target_edit "(select)" then Loaded s None
  else
    let s' := mksession (people s) (Some target_edit) in
    match next_with_id target_edit (people s) with
    | None => LoadStopIteration s'
    | Some p =>
        match day_names (p_days p) with
        | None => LoadIndexError s'
        | Some names =>
            Loaded s'
              (Some (mkdefaults (p_mode p) interval (p_name p) names
                       (p_start p) (p_end p)))
        end
    end.

(** The "Remove" button: the records with the selected id are dropped. *)
Definition remove_person (target_del : string) (s : session) : session :=
  if String.eqb target_del "(select)" then s
  else
    mksession
      (List.filter (fun p => negb (String.eqb (p_id p) target_del)) (people s))
      (edit_id s).

(** ** Display (lines 87-88, 159-170, 221-223)

    Strings are formatted as in the C locale. [None] stands for the
    exception an expression raises ([ValueError] from [strptime],
    [IndexError] from [DAYS[i]]). *)

(** The decimal digit [d] as a character, and a field printed on two
    digits with a leading zero: [%H], [%M] and [%I]. *)
Definition digit_char (d : Z) : ascii := ascii_of_nat (48 + Z.to_nat d).

Definition two_digits (n : Z) : string :=
  String (digit_char (n / 10)) (String (digit_char (n mod 10)) EmptyString).

(** [t.strftime("%H:%M")] *)
Definition strftime_HM (t : time) : string :=
  let hh := two_digits (hour t) in
  let mm := two_digits (minute t) in
  (hh ++ ":" ++ mm)%string.

(** The value of a character that is a decimal digit. *)
Definition digit_val (c : ascii) : option Z :=
  let n := nat_of_ascii c in
  if ((48 <=? n) && (n <=? 57))%nat then Some (Z.of_nat n - 48) else None.

(** The minute of [%M], the expression [[0-5]\d|\d]: the value matched and
    the rest of the string. *)
Definition match_M (s : string) : option (Z * string) :=
  match s with
  | EmptyString => None
  | String c1 r1 =>
      match digit_val c1 with
      | None => None
      | Some a =>
          match r1 with
          | String c2 r2 =>
              match digit_val c2 with
              | Some b => if a <=? 5 then Some (10 * a + b, r2) else Some (a, r1)
              | None => Some (a, r1)
              end
          | EmptyString => Some (a, r1)
          end
      end
  end.

(** What follows the hour in [%H:%M]: a colon and the minute. *)
Definition match_colon_M (h : Z) (s : string) : option (Z * Z * string) :=
  match s with
  | String c r =>
      if Ascii.eqb c ":" then
        match match_M r with
        | Some (m, r') => Some (h, m, r')
        | None => None
        end
      else None
  | EmptyString => None
  end.

(** The three ways to match the hour of [%H], the expression
    [2[0-3]|[0-1]\d|\d], in the order in which they are tried. *)
Definition hour_2x (s : string) : option (Z * string) :=
  match s with
  | String c1 (String c2 r) =>
      match digit_val c1, digit_val c2 with
      | Some a, Some b => if (a =? 2) && (b <=? 3) then Some (20 + b, r) else None
      | _, _ => None
      end
  | _ => None
  end.

Definition hour_0x_1x (s : string) : option (Z * string) :=
  match s with
  | String c1 (String c2 r) =>
      match digit_val c1, digit_val c2 with
      | Some a, Some b => if a <=? 1 then Some (10 * a + b, r) else None
      | _, _ => None
      end
  | _ => None
  end.

Definition hour_x (s : string) : option (Z * string) :=
  match s with
  | String c1 r =>
      match digit_val c1 with
      | Some a => Some (a, r)
      | None => None
      end
  | EmptyString => None
  end.

(** The first way to match the hour after which the rest of the
    expression matches too. *)
Definition match_H_M (s : string) : option (Z * Z * string) :=
  let try (alt : string -> option (Z * string)) :=
    match alt s with
    | Some (h, r) => match_colon_M h r
    | None => None
    end in
  match try hour_2x with
  | Some res => Some res
  | None =>
      match try hour_0x_1x with
      | Some res => Some res
      | None => try hour_x
      end
  end.

(** [datetime.strptime(s, "%H:%M")]: the time of day of the result; the
    whole string has to be matched. *)
Definition strptime_HM (s : string) : option time :=
  match match_H_M s with
  | Some (h, m, EmptyString) => Some (mktime h m 0)
  | _ => None
  end.

(** [dt.strftime("%I:%M %p")]: the hour on the 12-hour clock. *)
Definition hour12 (h : Z) : Z := if h mod 12 =? 0 then 12 else h mod 12.

Definition strftime_IMp (t : time) : string :=
  let am_pm := if hour t <? 12 then "AM"%string else "PM"%string in
  let hh := two_digits (hour12 (hour t)) in
  let mm := two_digits (minute t) in
  (hh ++ ":" ++ mm ++ " " ++ am_pm)%string.

Definition pretty_time (t : time) : option string :=
  strftime_IMp <$> strptime_HM (strftime_HM t).

(** Line 223: the labels of [grid_display]. *)
Definition display_index (df : DataFrame) : option (list string) :=
  mapM pretty_time (index df).

(** [sep.join(l)] *)
Fixpoint join (sep : string) (l : list string) : string :=
  match l with
  | [] => EmptyString
  | x :: l' =>
      match l' with
      | [] => x
      | _ :: _ => (x ++ sep ++ join sep l')%string
      end
  end.

(** The elements of a string when it is iterated over: its characters. *)
Fixpoint characters (s : string) : list string :=
  match s with
  | EmptyString => []
  | String c s' => String c EmptyString :: characters s'
  end.

(** The "Days" cell of a display row:
    [", ".join([DAYS[i] for i in sorted(p["days"])] if p["days"] else "(none)")],
    where the conditional expression as a whole is the argument of [join]. *)
Definition days_cell (days : list Z) : option string :=
  match days with
  | [] => Some (join ", " (characters "(none)"))
  | _ :: _ => join ", " <$> day_names (merge_sort Z.le days)
  end.

(** A row of the table of people, and the rows of a list of people. *)
Record display_row : Type := mkrow {
  row_id : string;
  row_name : string;
  row_interpretation : string;
  row_days : string;
  row_start : string;
  row_end : string
}.

Definition display_row_of (p : person) : option display_row :=
  match days_cell (p_days p) with
  | None => None
  | Some days =>
      match pretty_time (p_start p) with
      | None => None
      | Some start =>
          match pretty_time (p_end p) with
          | None => None
          | Some end_ =>
              Some (mkrow (p_id p) (p_name p) (p_mode p) days start end_)
          end
      end
  end.

Definition display_rows (people : list person) : option (list display_row) :=
  mapM display_row_of people.

(** * Vocabulary of the properties

    Definitions used to state and prove the properties; none of them is
    part of the program. *)

(** ** Yielded times and events *)

(** The list of times a [while cond(t): yield t.time(); t += step] loop
    yields. *)
Fixpoint yields (fuel : nat) (cond : datetime -> bool) (step t : Z)
  : outcome (list time) :=
  match fuel with
  | O => OutOfFuel
  | S fuel' =>
      if cond t then l ← yields fuel' cond step (t + step); Done (dt_time t :: l)
      else Done []
  end.

(** The list of times [time_range(start, end, step_minutes)] yields. *)
Definition time_range_yields (fuel : nat) (start end_ : time) (step_minutes : Z)
  : outcome (list time) :=
  let t0 := combine start in
  let t1 := combine end_ in
  let step := timedelta_minutes step_minutes in
  if t1 <=? t0 then
    l1 ← yields fuel (fun t => t <=? combine (mktime 23 59 59)) step t0;
    l2 ← yields fuel (fun t => t <? t1) step (combine (mktime 0 0 0));
    Done (l1 ++ l2)
  else yields fuel (fun t => t <? t1) step t0.

(** ** Counts added to a frame *)

(** [add_counts f df]: the frame [df] with [f lbl c] added to the cell in
    the row labelled [lbl] and the column at position [c]. *)
Definition add_counts (f : time -> nat -> Z) (df : DataFrame) : DataFrame :=
  mkframe (columns df)
    ((fun row : time * list Z => (row.1, imap (fun c v => v + f row.1 c) row.2))
       <$> rows df).

(** 1 at the row labelled [tt] and column [c], 0 elsewhere. *)
Definition one_at (tt : time) (c : nat) : time -> nat -> Z :=
  fun lbl c' => if decide (lbl = tt /\ c' = c) then 1 else 0.

(** An event is a day index with a time of day: one run of [mark]. *)
Definition mark_event (ev : Z * time) (df : DataFrame) : outcome DataFrame :=
  mark ev.1 ev.2 df.

(** An event is harmless on a frame when its time is no row label or its
    day is a column position. *)
Definition event_ok (idx : list time) (ncols : nat) (ev : Z * time) : Prop :=
  ev.2 ∈ idx -> is_Some (iloc_col ncols ev.1).

(** How many events of [evs] land on the row labelled [lbl], column [c]. *)
Fixpoint tally (ncols : nat) (evs : list (Z * time)) (lbl : time) (c : nat) : Z :=
  match evs with
  | [] => 0
  | ev :: evs' =>
      (if decide (ev.2 = lbl /\ iloc_col ncols ev.1 = Some c) then 1 else 0)
      + tally ncols evs' lbl c
  end.

(** Collect the lists [f x] for [x] in [l], in order. *)
Fixpoint gather {A B : Type} (f : A -> outcome (list B)) (l : list A)
  : outcome (list B) :=
  match l with
  | [] => Done []
  | x :: l' => e ← f x; es ← gather f l'; Done (e ++ es)
  end.

(** The events of a day, of a person: what the loops of
    [apply_person_to_grid] pass to [mark], in order. *)
Definition on_day (d_idx : Z) (l : list time) : list (Z * time) :=
  pair d_idx <$> l.

Definition day_events (fuel : nat) (start_t end_t : time) (step_minutes : Z)
    (d_idx : Z) : outcome (list (Z * time)) :=
  if combine end_t >? combine start_t then
    l ← time_range_yields fuel start_t end_t step_minutes;
    Done (on_day d_idx l)
  else
    l1 ← time_range_yields fuel start_t (mktime 23 59 59) step_minutes;
    l2 ← time_range_yields fuel (mktime 0 0 0) end_t step_minutes;
    Done (on_day d_idx l1 ++ on_day ((d_idx + 1) mod 7) l2).

Definition person_events (fuel : nat) (step_minutes : Z) (p : person)
  : outcome (list (Z * time)) :=
  gather (day_events fuel (p_start p) (p_end p) step_minutes)
    (day_indices (p_mode p) (p_days p)).

(** ** Closed forms for a positive step *)

(** The first [n] times yielded from [t]. *)
Fixpoint ticks (n : nat) (t step : Z) : list time :=
  match n with
  | O => []
  | S n' => dt_time t :: ticks n' (t + step) step
  end.

(** The number of steps from [t] that stay below [b]. *)
Definition tick_count (t b step : Z) : nat := Z.to_nat ((b - t + step - 1) / step).

(** [lbl] is a time of day that is one of [start], [start + step],
    [start + 2 * step], ... below [stop] (all in seconds since midnight). *)
Definition stepped (start stop step : Z) (lbl : time) : bool :=
  bool_decide (valid_time lbl) && (start <=? combine lbl) && (combine lbl <? stop)
  && ((combine lbl - start) mod step =? 0).

(** The number of occurrences of [lbl] in [l]. *)
Fixpoint count_in (l : list time) (lbl : time) : Z :=
  match l with
  | [] => 0
  | t :: l' => (if decide (t = lbl) then 1 else 0) + count_in l' lbl
  end.

(** How many times [time_range(start, end, step)] yields [lbl]. *)
Definition range_count (start end_ : time) (step_minutes : Z) (lbl : time) : Z :=
  let s := timedelta_minutes step_minutes in
  if combine end_ <=? combine start then
    bool_to_Z (stepped (combine start) 86400 s lbl)
    + bool_to_Z (stepped 0 (combine end_) s lbl)
  else bool_to_Z (stepped (combine start) (combine end_) s lbl).

(** What the body of the loop over the days adds, for the day [d_idx], to
    the cell of row [lbl] and column [c]; its sum over the resolved days. *)
Definition day_count (start_t end_t : time) (step_minutes : Z) (d_idx : Z)
    (lbl : time) (c : nat) : Z :=
  if combine end_t >? combine start_t then
    (if decide (Z.of_nat c = d_idx)
     then range_count start_t end_t step_minutes lbl else 0)
  else
    (if decide (Z.of_nat c = d_idx)
     then range_count start_t (mktime 23 59 59) step_minutes lbl else 0)
    + (if decide (Z.of_nat c = (d_idx + 1) mod 7)
       then range_count (mktime 0 0 0) end_t step_minutes lbl else 0).

Fixpoint total (g : Z -> Z) (l : list Z) : Z :=
  match l with
  | [] => 0
  | d :: l' => g d + total g l'
  end.

Definition person_count (step_minutes : Z) (p : person) (lbl : time) (c : nat) : Z :=
  total (fun d => day_count (p_start p) (p_end p) step_minutes d lbl c)
    (day_indices (p_mode p) (p_days p)).

(** The number of days of [days] that satisfy [P]. *)
Fixpoint count_days (P : Z -> bool) (days : list Z) : Z :=
  match days with
  | [] => 0
  | d :: days' => bool_to_Z (P d) + count_days P days'
  end.

(** The column positions of the grid. *)
Definition weekday (d : Z) : Prop := 0 <= d < 7.

(** The people a projection is specified for: valid times of day and
    resolved days in 0..6. *)
Definition valid_person (p : person) : Prop :=
  valid_time (p_start p) /\ valid_time (p_end p) /\
  Forall weekday (day_indices (p_mode p) (p_days p)).

(** The time of day [m] minutes after midnight. *)
Definition minutes_time (m : Z) : time := mktime (m / 60) (m mod 60) 0.

(** The row labels of the grid for a positive interval: one every
    [step_minutes] from 00:00, as many as fit below 24:00. *)
Definition slot_count (step_minutes : Z) : nat :=
  Z.to_nat ((1440 + step_minutes - 1) / step_minutes).

Definition slot_times (step_minutes : Z) : list time :=
  (fun k => minutes_time (Z.of_nat k * step_minutes)) <$> seq 0 (slot_count step_minutes).

(** What a list of people adds to the cell of row [lbl] and column [c]. *)
Fixpoint people_count (step_minutes : Z) (people : list person) (lbl : time) (c : nat)
  : Z :=
  match people with
  | [] => 0
  | p :: people' =>
      person_count step_minutes p lbl c + people_count step_minutes people' lbl c
  end.

(** ** Order on frames *)

(** The sum of all the cells of a frame. *)
Definition grid_sum (df : DataFrame) : Z :=
  foldr (fun row acc => foldr Z.add 0 row.2 + acc) 0 (rows df).

(** [grew df df']: same columns, same row labels in the same order, and
    no cell of [df'] below the cell of [df]. *)
Definition grew (df df' : DataFrame) : Prop :=
  columns df' = columns df /\
  Forall2 (fun r r' : time * list Z => r'.1 = r.1 /\ Forall2 Z.le r.2 r'.2)
    (rows df) (rows df').

(** No cell is negative. *)
Definition nonneg (df : DataFrame) : Prop :=
  Forall (fun r : time * list Z => Forall (Z.le 0) r.2) (rows df).

(** Cell by cell sum of two frames with the same rows and columns. *)
Definition frame_add (g1 g2 : DataFrame) : DataFrame :=
  mkframe (columns g1)
    (zip_with (fun r1 r2 : time * list Z => (r1.1, zip_with Z.add r1.2 r2.2))
       (rows g1) (rows g2)).

(** The body that records what a generator yields, in order. *)
Definition collect (tt : time) (acc : list time) : outcome (list time) :=
  Done (acc ++ [tt]).

(** ** Records of the session *)

(** The ids of the people of a session, in order. *)
Definition ids (s : session) : list string := p_id <$> people s.

(** What the add/update handler makes sure of before it stores a record. *)
Definition stored_ok (p : person) : Prop :=
  p_name p <> ""%string /\ p_start p <> p_end p /\
  valid_time (p_start p) /\ valid_time (p_end p) /\ Forall weekday (p_days p).

(** ** White space *)

(** The code points for which [str.isspace] holds. *)
Definition WHITE_SPACE : list Z :=
  [9; 10; 11; 12; 13; 28; 29; 30; 31; 32; 133; 160; 5760;
   8192; 8193; 8194; 8195; 8196; 8197; 8198; 8199; 8200; 8201; 8202;
   8232; 8233; 8239; 8287; 12288].

Definition byte (n : Z) : ascii := ascii_of_N (Z.to_N n).

(** The UTF-8 encoding of a code point. *)
Definition utf8 (cp : Z) : string :=
  if cp <? 128 then String (byte cp) ""
  else if cp <? 2048 then
    String (byte (192 + cp / 64)) (String (byte (128 + cp mod 64)) "")
  else if cp <? 65536 then
    String (byte (224 + cp / 4096))
      (String (byte (128 + cp / 64 mod 64)) (String (byte (128 + cp mod 64)) ""))
  else
    String (byte (240 + cp / 262144))
      (String (byte (128 + cp / 4096 mod 64))
         (String (byte (128 + cp / 64 mod 64)) (String (byte (128 + cp mod 64)) ""))).

(** The white-space characters, as strings. *)
Definition white_space : list string := utf8 <$> WHITE_SPACE.

(** A string that is a sequence of the words of [W]. *)
Inductive made_of (W : list string) : string -> Prop :=
  | made_of_nil : made_of W ""
  | made_of_cons w s : w ∈ W -> made_of W s -> made_of W (w ++ s).

(** Every character of the string is white space. *)
Definition blank (s : string) : Prop := made_of white_space s.

(** ** Reading the display back *)

(** The hour and minute that a label [hh:mm AM] or [hh:mm PM] stands for. *)
Definition read_pretty (s : string) : option (Z * Z) :=
  match s with
  | String h1 (String h2 (String _ (String m1 (String m2 (String _ (String x _)))))) =>
      match digit_val h1, digit_val h2, digit_val m1, digit_val m2 with
      | Some a, Some b, Some c, Some d =>
          Some ((10 * a + b) mod 12 + (if Ascii.eqb x "P" then 12 else 0), 10 * c + d)
      | _, _, _, _ => None
      end
  | _ => None
  end.

(** For the clock time [h]:[m]: parsing what [%H:%M] prints gives the time
    back, and so does reading the 12-hour label. *)
Definition clock_ok (h m : Z) : bool :=
  bool_decide (strptime_HM (strftime_HM (mktime h m 0)) = Some (mktime h m 0))
  && bool_decide (read_pretty (strftime_IMp (mktime h m 0)) = Some (h, m)).

(** The name of the weekday [i] of 0..6. *)
Definition weekday_name (i : Z) : string := default EmptyString (DAYS !! Z.to_nat i).

(** ** Sums *)

(** The sum of [g c] for [c] below [n]. *)
Fixpoint sum_to (n : nat) (g : nat -> Z) : Z :=
  match n with
  | O => 0
  | S n' => sum_to n' g + g n'
  end.

(** The sum of [g t] for the elements [t] of [l]. *)
Fixpoint sum_over (g : time -> Z) (l : list time) : Z :=
  match l with
  | [] => 0
  | t :: l' => g t + sum_over g l'
  end.

(** * Properties *)

(** ** Outcomes and loops over lists *)

Lemma bind_Done {A B : Type} (m : outcome A) (k : A -> outcome B) (b : B) :
  m ≫= k = Done b <-> exists a, m = Done a /\ k a = Done b.
Proof.
  destruct m as [a| |]; simpl; split.
  - intros H. exists a. auto.
  - intros (a' & [= ->] & H). exact H.
  - discriminate.
  - intros (? & [=] & _).
  - discriminate.
  - intros (? & [=] & _).
Qed.

Lemma for_in_app {A B : Type} (l1 l2 : list A) (body : A -> B -> outcome B) acc :
  for_in (l1 ++ l2) body acc = for_in l1 body acc ≫= for_in l2 body.
Proof.
  revert acc. induction l1 as [|x l1 IH]; intros acc; simpl; [reflexivity|].
  destruct (body x acc) as [a| |]; simpl; auto.
Qed.

Lemma for_in_ext {A B : Type} (l : list A) (f g : A -> B -> outcome B) acc :
  (forall x a, f x a = g x a) -> for_in l f acc = for_in l g acc.
Proof.
  intros E. revert acc. induction l as [|x l IH]; intros acc; simpl; [reflexivity|].
  rewrite E. destruct (g x acc); simpl; auto.
Qed.

(** ** Times of day *)

Lemma hms_split (s : Z) :
  0 <= s < 86400 ->
  3600 * (s / 3600) + 60 * (s mod 3600 / 60) + s mod 60 = s /\
  0 <= s / 3600 < 24 /\ 0 <= s mod 3600 / 60 < 60 /\ 0 <= s mod 60 < 60.
Proof.
  intros Hs.
  assert (E : s mod 60 = (s mod 3600) mod 60).
  { symmetry. apply Z.mod_mod_divide. exists 60. lia. }
  rewrite E.
  pose proof (Z.div_mod s 3600 ltac:(lia)).
  pose proof (Z.div_mod (s mod 3600) 60 ltac:(lia)).
  pose proof (Z.mod_pos_bound s 3600 ltac:(lia)).
  pose proof (Z.mod_pos_bound (s mod 3600) 60 ltac:(lia)).
  generalize dependent (s mod 3600 mod 60). intros r0.
  generalize dependent (s mod 3600 / 60). intros q1.
  generalize dependent (s mod 3600). intros r1.
  generalize dependent (s / 3600). intros q0.
  intros. lia.
Qed.

Lemma hms_join (h m s : Z) :
  0 <= h < 24 -> 0 <= m < 60 -> 0 <= s < 60 ->
  let x := 3600 * h + 60 * m + s in
  x / 3600 = h /\ x mod 3600 / 60 = m /\ x mod 60 = s.
Proof.
  intros Hh Hm Hs x. subst x.
  assert (E1 : (3600 * h + 60 * m + s) / 3600 = h).
  { symmetry. apply (Z.div_unique _ 3600 h (60 * m + s)); lia. }
  assert (E2 : (3600 * h + 60 * m + s) mod 3600 = 60 * m + s).
  { symmetry. apply (Z.mod_unique _ 3600 h (60 * m + s)); lia. }
  assert (E3 : (3600 * h + 60 * m + s) mod 60 = s).
  { symmetry. apply (Z.mod_unique _ 60 (60 * h + m) s); lia. }
  rewrite E2. repeat split; try assumption.
  symmetry. apply (Z.div_unique _ 60 m s); lia.
Qed.

Lemma combine_dt_time (dt : datetime) : combine (dt_time dt) = dt mod 86400.
Proof.
  unfold combine, dt_time; simpl.
  apply hms_split, Z.mod_pos_bound. lia.
Qed.

Lemma valid_time_dt_time (dt : datetime) : valid_time (dt_time dt).
Proof.
  unfold valid_time, dt_time; simpl.
  apply hms_split, Z.mod_pos_bound. lia.
Qed.

Lemma combine_range (t : time) : valid_time t -> 0 <= combine t < 86400.
Proof. unfold valid_time, combine. lia. Qed.

Lemma dt_time_combine (t : time) : valid_time t -> dt_time (combine t) = t.
Proof.
  destruct t as [h m s]. unfold valid_time, combine, dt_time; simpl.
  intros (Hh & Hm & Hs). rewrite Z.mod_small by lia.
  destruct (hms_join h m s Hh Hm Hs) as (-> & -> & ->). reflexivity.
Qed.

Lemma dt_time_eq_iff (dt : datetime) (t : time) :
  0 <= dt < 86400 -> dt_time dt = t <-> valid_time t /\ combine t = dt.
Proof.
  intros R. split.
  - intros <-. split; [apply valid_time_dt_time|].
    rewrite combine_dt_time. apply Z.mod_small; lia.
  - intros [V <-]. apply dt_time_combine; assumption.
Qed.

(** ** What a stepping loop yields

    [yields] is the list of times a [while cond(t): yield ...; t += step]
    loop produces; a loop that runs a body at every yield returns exactly
    when the list exists and the body succeeds along it. *)

Lemma while_yield_Done {A : Type} fuel cond step t
    (body : time -> A -> outcome A) acc r :
  while_yield fuel cond step t body acc = Done r <->
  exists l, yields fuel cond step t = Done l /\ for_in l body acc = Done r.
Proof.
  revert t acc. induction fuel as [|fuel IH]; intros t acc; simpl.
  - split; [discriminate | intros (l & [=] & _)].
  - destruct (cond t).
    + rewrite bind_Done. split.
      * intros (a & Hb & Hw). apply IH in Hw as (l & Hy & Hf).
        exists (dt_time t :: l). rewrite Hy. simpl. rewrite Hb. auto.
      * intros (l & Hy & Hf). apply bind_Done in Hy as (l' & Hy & [= <-]).
        simpl in Hf. apply bind_Done in Hf as (a & Hb & Hf).
        exists a. split; [assumption|]. apply IH. eauto.
    + split.
      * intros [= ->]. exists []. auto.
      * intros (l & [= <-] & Hf). exact Hf.
Qed.

Lemma time_range_Done {A : Type} fuel start end_ step_minutes
    (body : time -> A -> outcome A) acc r :
  time_range fuel start end_ step_minutes body acc = Done r <->
  exists l, time_range_yields fuel start end_ step_minutes = Done l /\
            for_in l body acc = Done r.
Proof.
  unfold time_range, time_range_yields.
  destruct (combine end_ <=? combine start).
  - rewrite bind_Done. split.
    + intros (a & H1 & H2).
      apply while_yield_Done in H1 as (l1 & Hy1 & Hf1).
      apply while_yield_Done in H2 as (l2 & Hy2 & Hf2).
      exists (l1 ++ l2). rewrite Hy1, Hy2. simpl. split; [reflexivity|].
      rewrite for_in_app, Hf1. exact Hf2.
    + intros (l & Hy & Hf).
      apply bind_Done in Hy as (l1 & Hy1 & Hy).
      apply bind_Done in Hy as (l2 & Hy2 & [= <-]).
      rewrite for_in_app in Hf. apply bind_Done in Hf as (a & Hf1 & Hf2).
      exists a. split; apply while_yield_Done; eauto.
  - apply while_yield_Done.
Qed.

(** ** Adding counts to a frame *)

Lemma add_counts_columns f df : columns (add_counts f df) = columns df.
Proof. reflexivity. Qed.

Lemma add_counts_index f df : index (add_counts f df) = index df.
Proof.
  unfold index, add_counts; simpl. rewrite <- list_fmap_compose.
  apply list_fmap_ext. intros i [lbl r] _. reflexivity.
Qed.

Lemma add_counts_ext f g df :
  (forall lbl c, lbl ∈ index df -> f lbl c = g lbl c) ->
  add_counts f df = add_counts g df.
Proof.
  intros E. unfold add_counts. f_equal.
  apply list_fmap_ext. intros i [lbl r] Hi. simpl. f_equal.
  apply imap_ext. intros c v _. rewrite E; [reflexivity|].
  unfold index. apply list_elem_of_fmap. exists (lbl, r). split; [reflexivity|].
  eapply list_elem_of_lookup_2; eassumption.
Qed.

Lemma add_counts_zero df : add_counts (fun _ _ => 0) df = df.
Proof.
  destruct df as [cols rs]. unfold add_counts; simpl. f_equal.
  rewrite <- (list_fmap_id rs) at 2.
  apply list_fmap_ext. intros i [lbl r] _. simpl. f_equal.
  apply list_eq. intros c. rewrite list_lookup_imap.
  destruct (r !! c) as [v|]; simpl; [f_equal; lia | reflexivity].
Qed.

Lemma add_counts_add_counts f g df :
  add_counts f (add_counts g df) = add_counts (fun lbl c => g lbl c + f lbl c) df.
Proof.
  unfold add_counts; simpl. f_equal. rewrite <- list_fmap_compose.
  apply list_fmap_ext. intros i [lbl r] _. simpl. f_equal.
  apply list_eq. intros c. rewrite !list_lookup_imap.
  destruct (r !! c) as [v|]; simpl; [f_equal; lia | reflexivity].
Qed.

Lemma bump_add_counts tt c df : bump tt c df = add_counts (one_at tt c) df.
Proof.
  unfold bump, add_counts. f_equal.
  apply list_fmap_ext. intros i [lbl r] _. simpl. unfold one_at.
  destruct (decide (lbl = tt)) as [->|Hne].
  - f_equal. apply list_eq. intros c'.
    rewrite list_lookup_imap, list_lookup_alter.
    destruct (decide (c = c')) as [->|Hc]; destruct (r !! c') as [v|]; simpl;
      try reflexivity; f_equal.
    + rewrite decide_True by auto. lia.
    + rewrite decide_False by (intros [_ ?]; congruence). lia.
  - f_equal. apply list_eq. intros c'. rewrite list_lookup_imap.
    destruct (r !! c') as [v|]; simpl; [|reflexivity].
    rewrite decide_False by (intros [? _]; congruence). f_equal. lia.
Qed.

(** ** Running the marks of a list of (day, time) events *)

Lemma mark_Done d tt df r :
  mark d tt df = Done r <->
  event_ok (index df) (length (columns df)) (d, tt) /\
  r = add_counts (tally (length (columns df)) [(d, tt)]) df.
Proof.
  unfold mark, event_ok, iloc_incr; simpl.
  destruct (bool_decide_reflect (tt ∈ index df)) as [Hin|Hin].
  - destruct (iloc_col (length (columns df)) d) as [c|] eqn:Ec.
    + rewrite bump_add_counts. split.
      * intros [= <-]. split; [eauto|].
        apply add_counts_ext. intros lbl c' _. unfold one_at.
        destruct (decide (lbl = tt /\ c' = c)) as [[-> ->]|Hn].
        -- rewrite decide_True by auto. lia.
        -- rewrite decide_False; [lia|]. intros [-> [= ->]]. auto.
      * intros [_ ->]. f_equal.
        apply add_counts_ext. intros lbl c' _. unfold one_at.
        destruct (decide (lbl = tt /\ c' = c)) as [[-> ->]|Hn].
        -- rewrite decide_True by auto. lia.
        -- rewrite decide_False; [lia|]. intros [-> [= ->]]. auto.
    + split; [discriminate|]. intros [H _]. destruct (H Hin) as [? [=]].
  - split.
    + intros [= <-]. split; [tauto|].
      rewrite <- (add_counts_zero df) at 1.
      apply add_counts_ext. intros lbl c Hl.
      rewrite decide_False; [lia|]. intros [-> _]. auto.
    + intros [_ ->]. f_equal. rewrite <- (add_counts_zero df) at 1.
      apply add_counts_ext. intros lbl c Hl.
      rewrite decide_False; [lia|]. intros [-> _]. auto.
Qed.

Lemma marks_Done evs df r :
  for_in evs mark_event df = Done r <->
  Forall (event_ok (index df) (length (columns df))) evs /\
  r = add_counts (tally (length (columns df)) evs) df.
Proof.
  revert df. induction evs as [|[d tt] evs IH]; intros df; simpl.
  - rewrite add_counts_zero. split.
    + intros [= <-]. auto.
    + intros [_ ->]. reflexivity.
  - rewrite bind_Done. unfold mark_event at 1. simpl. split.
    + intros (df1 & H1 & H2). apply mark_Done in H1 as [Hok ->].
      apply IH in H2 as [Hoks ->].
      rewrite add_counts_index, add_counts_columns in Hoks.
      split; [constructor; assumption|].
      rewrite add_counts_columns, add_counts_add_counts.
      apply add_counts_ext. intros lbl c _. simpl. lia.
    + intros [Hoks ->]. inversion Hoks as [|? ? Hok Hoks']; subst.
      eexists. split; [apply mark_Done; split; [exact Hok | reflexivity]|].
      apply IH. rewrite add_counts_index, add_counts_columns.
      split; [assumption|].
      rewrite add_counts_add_counts.
      apply add_counts_ext. intros lbl c _. simpl. lia.
Qed.

(** ** The events of a day, of a person, of a list of people *)

Lemma for_in_fmap {A B C : Type} (f : A -> B) (l : list A)
    (body : B -> C -> outcome C) acc :
  for_in (f <$> l) body acc = for_in l (fun x => body (f x)) acc.
Proof.
  revert acc. induction l as [|x l IH]; intros acc; simpl; [reflexivity|].
  destruct (body (f x) acc); simpl; auto.
Qed.

Lemma for_in_gather {A B C : Type} (f : A -> outcome (list B))
    (body : A -> C -> outcome C) (act : B -> C -> outcome C) (l : list A) :
  (forall x acc r,
      body x acc = Done r <-> exists e, f x = Done e /\ for_in e act acc = Done r) ->
  forall acc r,
    for_in l body acc = Done r <->
    exists es, gather f l = Done es /\ for_in es act acc = Done r.
Proof.
  intros Hb. induction l as [|x l IH]; intros acc r; simpl.
  - split.
    + intros [= ->]. exists []. auto.
    + intros (es & [= <-] & H). exact H.
  - rewrite bind_Done. split.
    + intros (a & H1 & H2). apply Hb in H1 as (e & He & H1).
      apply IH in H2 as (es & Hes & H2).
      exists (e ++ es). rewrite He, Hes. simpl. split; [reflexivity|].
      rewrite for_in_app, H1. exact H2.
    + intros (es & Hg & Hf).
      apply bind_Done in Hg as (e & He & Hg).
      apply bind_Done in Hg as (es' & Hes & [= <-]).
      rewrite for_in_app in Hf. apply bind_Done in Hf as (a & H1 & H2).
      exists a. split; [apply Hb; eauto | apply IH; eauto].
Qed.

Lemma gather_Permutation {A B : Type} (f : A -> outcome (list B)) (l l' : list A) :
  Permutation l l' ->
  forall es, gather f l = Done es ->
  exists es', gather f l' = Done es' /\ Permutation es es'.
Proof.
  induction 1 as [|x l l' _ IH|x y l|l l' l'' _ IH1 _ IH2]; intros es; simpl.
  - intros [= <-]. exists []. auto.
  - intros Hg. apply bind_Done in Hg as (e & He & Hg).
    apply bind_Done in Hg as (es0 & Hes & [= <-]).
    destruct (IH _ Hes) as (es' & -> & HP). rewrite He. simpl.
    eexists. split; [reflexivity|]. apply Permutation_app_head, HP.
  - intros Hg. apply bind_Done in Hg as (ey & Hy & Hg).
    apply bind_Done in Hg as (es0 & Hg & [= <-]).
    apply bind_Done in Hg as (ex & Hx & Hg).
    apply bind_Done in Hg as (es1 & Hes & [= <-]).
    rewrite Hx, Hy, Hes. simpl. eexists. split; [reflexivity|].
    rewrite !app_assoc. apply Permutation_app_tail, Permutation_app_comm.
  - intros Hg. destruct (IH1 _ Hg) as (es' & Hg' & HP1).
    destruct (IH2 _ Hg') as (es'' & Hg'' & HP2).
    exists es''. split; [assumption|]. etransitivity; eassumption.
Qed.

Lemma for_in_on_day d_idx l df :
  for_in (on_day d_idx l) mark_event df = for_in l (mark d_idx) df.
Proof. unfold on_day. rewrite for_in_fmap. reflexivity. Qed.

Lemma apply_day_Done fuel start_t end_t step_minutes d_idx df r :
  apply_day fuel start_t end_t step_minutes d_idx df = Done r <->
  exists evs, day_events fuel start_t end_t step_minutes d_idx = Done evs /\
              for_in evs mark_event df = Done r.
Proof.
  unfold apply_day, day_events.
  destruct (combine end_t >? combine start_t).
  - rewrite time_range_Done. split.
    + intros (l & -> & Hf). simpl. eexists. split; [reflexivity|].
      rewrite for_in_on_day. exact Hf.
    + intros (evs & Hy & Hf). apply bind_Done in Hy as (l & Hy & [= <-]).
      rewrite for_in_on_day in Hf. eauto.
  - rewrite bind_Done. split.
    + intros (df' & H1 & H2).
      apply time_range_Done in H1 as (l1 & -> & Hf1).
      apply time_range_Done in H2 as (l2 & -> & Hf2).
      simpl. eexists. split; [reflexivity|].
      rewrite for_in_app, for_in_on_day, Hf1. simpl.
      rewrite for_in_on_day. exact Hf2.
    + intros (evs & Hy & Hf).
      apply bind_Done in Hy as (l1 & Hy1 & Hy).
      apply bind_Done in Hy as (l2 & Hy2 & [= <-]).
      rewrite for_in_app, for_in_on_day in Hf.
      apply bind_Done in Hf as (df' & Hf1 & Hf2).
      rewrite for_in_on_day in Hf2.
      exists df'. split; apply time_range_Done; eauto.
Qed.

Lemma apply_person_Done fuel df p step_minutes r :
  apply_person_to_grid fuel df p step_minutes = Done r <->
  exists evs, person_events fuel step_minutes p = Done evs /\
              for_in evs mark_event df = Done r.
Proof.
  unfold apply_person_to_grid, person_events.
  apply for_in_gather. intros d acc r'. apply apply_day_Done.
Qed.

(** A run of the projector returns exactly when its events exist and are
    harmless, and then each cell has grown by the tally of the events. *)
Lemma apply_person_tally fuel df p step_minutes r :
  apply_person_to_grid fuel df p step_minutes = Done r <->
  exists evs, person_events fuel step_minutes p = Done evs /\
              Forall (event_ok (index df) (length (columns df))) evs /\
              r = add_counts (tally (length (columns df)) evs) df.
Proof.
  rewrite apply_person_Done. split.
  - intros (evs & He & Hf). apply marks_Done in Hf. eauto.
  - intros (evs & He & Hok & Hr). exists evs. split; [assumption|].
    apply marks_Done. auto.
Qed.

Lemma tally_app ncols evs1 evs2 lbl c :
  tally ncols (evs1 ++ evs2) lbl c = tally ncols evs1 lbl c + tally ncols evs2 lbl c.
Proof. induction evs1 as [|ev evs1 IH]; simpl; lia. Qed.

Lemma tally_Permutation ncols evs evs' lbl c :
  Permutation evs evs' -> tally ncols evs lbl c = tally ncols evs' lbl c.
Proof. induction 1; simpl; lia. Qed.

Lemma tally_nonneg ncols evs lbl c : 0 <= tally ncols evs lbl c.
Proof. induction evs as [|ev evs IH]; simpl; [lia|]. case_decide; lia. Qed.

(** ** Stepping with a positive step *)

Lemma tick_count_done t b step : 0 < step -> b <= t -> tick_count t b step = O.
Proof.
  intros Hs Hb. unfold tick_count.
  assert ((b - t + step - 1) / step <= 0); [|lia].
  apply Z.lt_succ_r. apply Z.div_lt_upper_bound; lia.
Qed.

Lemma tick_count_step t b step :
  0 < step -> t < b -> tick_count t b step = S (tick_count (t + step) b step).
Proof.
  intros Hs Hb. unfold tick_count.
  replace (b - t + step - 1) with ((b - (t + step) + step - 1) + 1 * step) by lia.
  rewrite Z.div_add by lia.
  assert (0 <= (b - (t + step) + step - 1) / step) by (apply Z.div_pos; lia).
  lia.
Qed.

Lemma tick_count_bound t b step :
  60 <= step -> 0 <= t -> b <= 86400 -> (tick_count t b step <= 1440)%nat.
Proof.
  intros Hs Ht Hb. unfold tick_count.
  assert ((b - t + step - 1) / step < 1441); [|lia].
  apply Z.div_lt_upper_bound; lia.
Qed.

Lemma yields_positive fuel cond b step t :
  (forall x, cond x = (x <? b)) -> 0 < step ->
  (tick_count t b step < fuel)%nat ->
  yields fuel cond step t = Done (ticks (tick_count t b step) t step).
Proof.
  intros Hc Hs. revert t. induction fuel as [|fuel IH]; intros t Hf; [lia|].
  simpl. rewrite Hc. destruct (Z.ltb_spec t b) as [Hlt|Hge].
  - rewrite (tick_count_step t b step) in * by assumption.
    rewrite IH by lia. reflexivity.
  - rewrite tick_count_done by lia. reflexivity.
Qed.

(** A loop whose step is not positive never leaves a condition that holds. *)
Lemma yields_stuck fuel cond b step t :
  (forall x, cond x = (x <? b)) -> step <= 0 -> t < b ->
  yields fuel cond step t = OutOfFuel.
Proof.
  intros Hc Hs. revert t. induction fuel as [|fuel IH]; intros t Ht; [reflexivity|].
  simpl. rewrite Hc. destruct (Z.ltb_spec t b); [|lia].
  rewrite IH by lia. reflexivity.
Qed.

Lemma count_in_app l1 l2 lbl : count_in (l1 ++ l2) lbl = count_in l1 lbl + count_in l2 lbl.
Proof. induction l1 as [|t l1 IH]; simpl; lia. Qed.

Lemma stepped_unfold start stop step lbl :
  0 < step -> 0 <= start < 86400 -> start < stop ->
  bool_to_Z (stepped start stop step lbl) =
  (if decide (dt_time start = lbl) then 1 else 0)
  + bool_to_Z (stepped (start + step) stop step lbl).
Proof.
  intros Hs Hr Hlt. unfold stepped.
  destruct (decide (dt_time start = lbl)) as [E|E].
  - apply dt_time_eq_iff in E as [V E]; [|assumption].
    rewrite bool_decide_true by assumption. rewrite E.
    replace (start - start) with 0 by lia. rewrite Z.mod_0_l by lia.
    destruct (Z.leb_spec start start); [|lia].
    destruct (Z.ltb_spec start stop); [|lia].
    destruct (Z.leb_spec (start + step) start); [lia|]. reflexivity.
  - destruct (bool_decide_reflect (valid_time lbl)) as [V|V]; [|reflexivity].
    assert (Hne : combine lbl <> start).
    { intros Hc. apply E, dt_time_eq_iff; auto. }
    simpl.
    destruct (Z.ltb_spec (combine lbl) stop) as [Hb|Hb];
      [|rewrite !andb_false_r; reflexivity].
    rewrite !andb_true_r.
    destruct (Z.leb_spec start (combine lbl)) as [H1|H1];
      destruct (Z.leb_spec (start + step) (combine lbl)) as [H2|H2];
      simpl; try reflexivity; try lia.
    + replace (combine lbl - start) with (combine lbl - (start + step) + 1 * step) by lia.
      rewrite Z.mod_add by lia. reflexivity.
    + destruct (Z.eqb_spec ((combine lbl - start) mod step) 0) as [Hm|Hm];
        [|reflexivity].
      rewrite Z.mod_small in Hm by lia. lia.
Qed.

Lemma stepped_empty start stop step lbl :
  stop <= start -> stepped start stop step lbl = false.
Proof.
  intros H. unfold stepped.
  destruct (Z.leb_spec start (combine lbl)); destruct (Z.ltb_spec (combine lbl) stop);
    rewrite ?andb_false_r; simpl; try reflexivity; lia.
Qed.

Lemma count_in_ticks start stop step lbl n :
  0 < step -> 0 <= start -> stop <= 86400 -> n = tick_count start stop step ->
  count_in (ticks n start step) lbl = bool_to_Z (stepped start stop step lbl).
Proof.
  intros Hs. revert start. induction n as [|n IH]; intros start H0 Hb Hn.
  - destruct (Z.lt_ge_cases start stop) as [Hlt|Hge].
    + rewrite tick_count_step in Hn by assumption. discriminate.
    + rewrite stepped_empty by assumption. reflexivity.
  - destruct (Z.lt_ge_cases start stop) as [Hlt|Hge].
    + rewrite tick_count_step in Hn by assumption. injection Hn as Hn.
      simpl. rewrite (IH (start + step)) by lia.
      rewrite (stepped_unfold start) by lia. reflexivity.
    + rewrite tick_count_done in Hn by assumption. discriminate.
Qed.

(** ** Events on the seven weekday columns *)

Lemma iloc_col_weekday d c : weekday d -> iloc_col 7 d = Some c <-> Z.of_nat c = d.
Proof.
  unfold weekday, iloc_col. intros Hd.
  destruct (Z.leb_spec 0 d); [|lia]. destruct (Z.ltb_spec d (Z.of_nat 7)); [|lia].
  simpl. split; [intros [= <-]; lia | intros <-; f_equal; lia].
Qed.

Lemma tally_on_day d l lbl c :
  weekday d ->
  tally 7 (on_day d l) lbl c = if decide (Z.of_nat c = d) then count_in l lbl else 0.
Proof.
  intros Hd. induction l as [|t l IH]; simpl.
  - case_decide; reflexivity.
  - fold (on_day d l). rewrite IH.
    destruct (decide (Z.of_nat c = d)) as [E|E].
    + destruct (decide (t = lbl)) as [->|Hn].
      * rewrite decide_True; [reflexivity|]. split; [reflexivity|].
        apply iloc_col_weekday; assumption.
      * rewrite decide_False; [reflexivity|]. intros [? _]. auto.
    + rewrite decide_False; [reflexivity|]. intros [_ H].
      apply iloc_col_weekday in H; auto.
Qed.

Lemma Forall_on_day (P : Z -> Prop) d l : P d -> Forall (fun ev => P ev.1) (on_day d l).
Proof. intros H. unfold on_day. apply Forall_fmap, Forall_true. intros; exact H. Qed.

Lemma valid_time_last : valid_time (mktime 23 59 59).
Proof. unfold valid_time; simpl. lia. Qed.

Lemma valid_time_midnight : valid_time (mktime 0 0 0).
Proof. unfold valid_time; simpl. lia. Qed.

Lemma event_ok_weekday idx (ev : Z * time) : weekday ev.1 -> event_ok idx 7 ev.
Proof.
  intros Hd _. exists (Z.to_nat ev.1). apply iloc_col_weekday; [assumption|].
  unfold weekday in Hd. lia.
Qed.

#[local] Hint Resolve valid_time_last valid_time_midnight : core.

(** ** The empty grid: its row labels *)

Lemma build_times_positive fuel t end_ step times :
  0 < step -> (tick_count t end_ step < fuel)%nat ->
  build_times fuel t end_ step times
  = Done (times ++ ticks (tick_count t end_ step) t step).
Proof.
  intros Hs. revert t times. induction fuel as [|fuel IH]; intros t times Hf; [lia|].
  simpl. destruct (Z.ltb_spec t end_) as [Hlt|Hge].
  - rewrite (tick_count_step t end_ step) in * by assumption.
    rewrite IH by lia. simpl. rewrite <- app_assoc. reflexivity.
  - rewrite tick_count_done by lia. simpl. rewrite app_nil_r. reflexivity.
Qed.

Lemma build_times_stuck fuel t end_ step times :
  step <= 0 -> t < end_ -> build_times fuel t end_ step times = OutOfFuel.
Proof.
  intros Hs. revert t times. induction fuel as [|fuel IH]; intros t times Ht;
    [reflexivity|].
  simpl. destruct (Z.ltb_spec t end_); [|lia]. apply IH. lia.
Qed.

Lemma dt_time_minutes m : 0 <= m < 1440 -> dt_time (60 * m) = minutes_time m.
Proof.
  intros Hm. apply dt_time_eq_iff; [lia|].
  pose proof (Z.div_mod m 60 ltac:(lia)).
  pose proof (Z.mod_pos_bound m 60 ltac:(lia)).
  assert (0 <= m / 60 < 24).
  { split; [apply Z.div_pos; lia | apply Z.div_lt_upper_bound; lia]. }
  unfold valid_time, combine, minutes_time; simpl. lia.
Qed.

Lemma ticks_fmap n t step :
  ticks n t step = (fun k => dt_time (t + Z.of_nat k * step)) <$> seq 0 n.
Proof.
  revert t. induction n as [|n IH]; intros t; [reflexivity|].
  simpl. f_equal; [f_equal; lia|].
  rewrite IH, <- fmap_S_seq, <- list_fmap_compose.
  apply list_fmap_ext. intros i k _. simpl. f_equal. lia.
Qed.

Lemma tick_count_slots step_minutes :
  0 < step_minutes ->
  tick_count 0 86400 (60 * step_minutes) = slot_count step_minutes.
Proof.
  intros Hs. unfold tick_count, slot_count. f_equal.
  set (q := (1440 + step_minutes - 1) / step_minutes).
  assert (Hq : q * step_minutes <= 1440 + step_minutes - 1 < (q + 1) * step_minutes).
  { pose proof (Z.div_mod (1440 + step_minutes - 1) step_minutes ltac:(lia)).
    pose proof (Z.mod_pos_bound (1440 + step_minutes - 1) step_minutes Hs).
    fold q in H. lia. }
  symmetry.
  apply (Z.div_unique _ _ q (86400 - 0 + 60 * step_minutes - 1 - 60 * step_minutes * q));
    lia.
Qed.

Lemma slot_in_day step_minutes k :
  0 < step_minutes -> (k < slot_count step_minutes)%nat ->
  0 <= Z.of_nat k * step_minutes < 1440.
Proof.
  intros Hs Hk. unfold slot_count in Hk.
  set (q := (1440 + step_minutes - 1) / step_minutes) in *.
  assert (Hq : q * step_minutes <= 1440 + step_minutes - 1).
  { pose proof (Z.div_mod (1440 + step_minutes - 1) step_minutes ltac:(lia)).
    pose proof (Z.mod_pos_bound (1440 + step_minutes - 1) step_minutes Hs).
    fold q in H. lia. }
  split; [lia|]. assert (Z.of_nat k + 1 <= q) by lia. nia.
Qed.

Lemma build_empty_grid_stuck fuel step_minutes :
  step_minutes <= 0 -> build_empty_grid fuel step_minutes = OutOfFuel.
Proof.
  intros Hs. unfold build_empty_grid, timedelta_days, timedelta_minutes.
  rewrite build_times_stuck; [reflexivity|lia|]. reflexivity.
Qed.

(** ** Runs with a positive interval and fuel for a day of steps

    A step is at least a minute, so that no loop of the program takes more
    than 1440 turns between two midnights. With seven columns and days in
    0..6 the projector then returns, and each cell grows by
    [person_count]. *)

Section positive_interval.
Context (fuel : nat) (step_minutes : Z).
Hypothesis enough_fuel : (1440 < fuel)%nat.
Hypothesis positive_step : 0 < step_minutes.

Lemma time_range_yields_positive start end_ :
  valid_time start -> valid_time end_ ->
  exists l, time_range_yields fuel start end_ step_minutes = Done l /\
            forall lbl, count_in l lbl = range_count start end_ step_minutes lbl.
Proof.
  intros Vs Ve.
  pose proof (combine_range _ Vs) as Rs. pose proof (combine_range _ Ve) as Re.
  unfold time_range_yields, range_count, timedelta_minutes.
  change (combine (mktime 23 59 59)) with 86399.
  change (combine (mktime 0 0 0)) with 0.
  destruct (combine end_ <=? combine start).
  - rewrite (yields_positive fuel (fun t => t <=? 86399) 86400);
      [|intros x; cbv beta; destruct (Z.leb_spec x 86399), (Z.ltb_spec x 86400);
        reflexivity || lia|lia|].
    2:{ pose proof (tick_count_bound (combine start) 86400 (60 * step_minutes)). lia. }
    rewrite (yields_positive fuel (fun t => t <? combine end_) (combine end_));
      [|reflexivity|lia|].
    2:{ pose proof (tick_count_bound 0 (combine end_) (60 * step_minutes)). lia. }
    simpl. eexists. split; [reflexivity|]. intros lbl.
    rewrite count_in_app.
    rewrite (count_in_ticks _ 86400) by (reflexivity || lia).
    rewrite (count_in_ticks _ (combine end_)) by (reflexivity || lia).
    reflexivity.
  - rewrite (yields_positive fuel _ (combine end_)); [|reflexivity|lia|].
    2:{ pose proof (tick_count_bound (combine start) (combine end_) (60 * step_minutes)).
        lia. }
    eexists. split; [reflexivity|]. intros lbl.
    apply count_in_ticks; reflexivity || lia.
Qed.

Lemma day_events_positive start_t end_t d :
  valid_time start_t -> valid_time end_t ->
  weekday d ->
  exists evs,
    day_events fuel start_t end_t step_minutes d = Done evs /\
    Forall (fun ev => weekday ev.1) evs /\
    forall lbl c, tally 7 evs lbl c = day_count start_t end_t step_minutes d lbl c.
Proof.
  intros Vs Ve Hd. unfold day_events, day_count.
  destruct (combine end_t >? combine start_t).
  - destruct (time_range_yields_positive start_t end_t)
      as (l & -> & Hl); try assumption.
    simpl. eexists. split; [reflexivity|]. split.
    + apply (Forall_on_day weekday); assumption.
    + intros lbl c. rewrite tally_on_day, Hl by assumption. reflexivity.
  - destruct (time_range_yields_positive start_t (mktime 23 59 59))
      as (l1 & -> & Hl1); auto.
    destruct (time_range_yields_positive (mktime 0 0 0) end_t)
      as (l2 & -> & Hl2); auto.
    assert (Hn : weekday ((d + 1) mod 7)) by (apply Z.mod_pos_bound; lia).
    simpl. eexists. split; [reflexivity|]. split.
    + apply Forall_app. split; apply (Forall_on_day weekday); assumption.
    + intros lbl c. rewrite tally_app, !tally_on_day, Hl1, Hl2 by assumption.
      reflexivity.
Qed.

Lemma gather_day_events_positive start_t end_t days :
  valid_time start_t -> valid_time end_t ->
  Forall weekday days ->
  exists evs,
    gather (day_events fuel start_t end_t step_minutes) days = Done evs /\
    Forall (fun ev => weekday ev.1) evs /\
    forall lbl c,
      tally 7 evs lbl c
      = total (fun d => day_count start_t end_t step_minutes d lbl c) days.
Proof.
  intros Vs Ve. induction 1 as [|d days Hd _ IH]; simpl.
  - exists []. auto.
  - destruct (day_events_positive start_t end_t d)
      as (e & -> & He & Hte); try assumption.
    destruct IH as (es & -> & Hes & Htes). simpl.
    eexists. split; [reflexivity|]. split.
    + apply Forall_app. auto.
    + intros lbl c. rewrite tally_app, Hte, Htes. reflexivity.
Qed.

Lemma apply_person_positive df p :
  valid_person p ->
  length (columns df) = 7%nat ->
  apply_person_to_grid fuel df p step_minutes
  = Done (add_counts (person_count step_minutes p) df).
Proof.
  intros (Vs & Ve & Hd) Hc.
  destruct (gather_day_events_positive (p_start p) (p_end p)
              (day_indices (p_mode p) (p_days p)))
    as (evs & Hg & Hev & Ht); try assumption.
  apply apply_person_tally. exists evs. rewrite Hc. split; [exact Hg|]. split.
  - eapply Forall_impl; [exact Hev|]. intros ev. apply event_ok_weekday.
  - apply add_counts_ext. intros lbl c _. symmetry. apply Ht.
Qed.

Lemma build_empty_grid_positive :
  build_empty_grid fuel step_minutes = Done (zero_frame (slot_times step_minutes) DAYS).
Proof.
  unfold build_empty_grid, timedelta_days, timedelta_minutes.
  change (combine (mktime 0 0 0)) with 0. change (0 + 86400 * 1) with 86400.
  rewrite build_times_positive.
  2: lia.
  2:{ pose proof (tick_count_bound 0 86400 (60 * step_minutes)). lia. }
  simpl. do 2 f_equal.
  rewrite tick_count_slots, ticks_fmap by assumption. unfold slot_times.
  apply list_fmap_ext. intros i k Hk.
  apply lookup_seq in Hk as [-> Hk]. simpl.
  rewrite <- dt_time_minutes by (apply slot_in_day; assumption).
  f_equal. lia.
Qed.

Lemma for_in_people_positive people df :
  Forall valid_person people ->
  length (columns df) = 7%nat ->
  for_in people (fun p grid => apply_person_to_grid fuel grid p step_minutes) df
  = Done (add_counts (people_count step_minutes people) df).
Proof.
  intros Hv. revert df. induction Hv as [|p people Hp _ IH]; intros df Hc; simpl.
  - rewrite add_counts_zero. reflexivity.
  - rewrite apply_person_positive by assumption. simpl.
    rewrite IH by (rewrite add_counts_columns; assumption).
    rewrite add_counts_add_counts. reflexivity.
Qed.

Lemma staffing_grid_positive people :
  Forall valid_person people ->
  staffing_grid fuel people step_minutes
  = Done (add_counts (people_count step_minutes people)
            (zero_frame (slot_times step_minutes) DAYS)).
Proof.
  intros Hv. unfold staffing_grid.
  rewrite build_empty_grid_positive by assumption. simpl.
  apply for_in_people_positive; auto.
Qed.

End positive_interval.

(** ** Sums over the resolved days *)

Lemma total_count_days (P : Z -> bool) (x : Z) (days : list Z) :
  total (fun d => if P d then x else 0) days = count_days P days * x.
Proof.
  induction days as [|d days IH]; simpl; [lia|]. rewrite IH.
  destruct (P d); simpl; lia.
Qed.

Lemma total_ext (f g : Z -> Z) (l : list Z) :
  (forall d, f d = g d) -> total f l = total g l.
Proof. intros E. induction l as [|d l IH]; simpl; [reflexivity|]. rewrite E, IH. reflexivity. Qed.

Lemma total_plus (f g : Z -> Z) (l : list Z) :
  total (fun d => f d + g d) l = total f l + total g l.
Proof. induction l as [|d l IH]; simpl; lia. Qed.

(** ** Tactics for concrete data *)

(** Closes [valid_person], [valid_time] and [weekday] goals on literals. *)
Ltac valid_data :=
  repeat constructor; unfold valid_time, weekday; simpl; lia.

(** One goal for each of the seven values of a day index [d]. *)
Ltac each_weekday d :=
  let H := fresh "Hd" in
  assert (H : d = 0 \/ d = 1 \/ d = 2 \/ d = 3 \/ d = 4 \/ d = 5 \/ d = 6) by lia;
  destruct H as [->|[->|[->|[->|[->|[->| ->]]]]]].

(** * The claims *)

(** ** Grid builder *)

(** C5. For every positive interval size [i] that evenly divides 1440, the
    empty grid built for [i] (with fuel for the loop) has exactly [1440/i]
    rows, labelled 00:00, 00:00+i, 00:00+2i, ... below 24:00, the seven
    weekday columns Monday first, and 0 in every cell. *)
Theorem C5_empty_grid_shape (fuel : nat) (i : Z) :
  (1440 < fuel)%nat -> 0 < i -> (i | 1440) ->
  exists g,
    build_empty_grid fuel i = Done g /\
    length (rows g) = Z.to_nat (1440 / i) /\
    rows g = (fun k => (minutes_time (Z.of_nat k * i), [0; 0; 0; 0; 0; 0; 0]))
               <$> seq 0 (Z.to_nat (1440 / i)) /\
    columns g = ["Monday"; "Tuesday"; "Wednesday"; "Thursday"; "Friday";
                 "Saturday"; "Sunday"]%string.
Proof.
  intros Hf Hi [k Hk].
  assert (Hn : slot_count i = Z.to_nat (1440 / i)).
  { unfold slot_count. f_equal. rewrite Hk.
    replace (k * i + i - 1) with (i - 1 + k * i) by lia.
    rewrite Z.div_add, Z.div_mul by lia. rewrite Z.div_small by lia. lia. }
  exists (zero_frame (slot_times i) DAYS).
  split; [apply build_empty_grid_positive; assumption|].
  unfold zero_frame, slot_times; simpl. rewrite Hn.
  rewrite <- list_fmap_compose. split; [|split; reflexivity].
  rewrite length_fmap, length_seq. reflexivity.
Qed.

Lemma C5_empty_grid_shape_witness :
  exists g,
    build_empty_grid 1441%nat 30 = Done g /\
    length (rows g) = Z.to_nat (1440 / 30) /\
    rows g = (fun k => (minutes_time (Z.of_nat k * 30), [0; 0; 0; 0; 0; 0; 0]))
               <$> seq 0 (Z.to_nat (1440 / 30)) /\
    columns g = ["Monday"; "Tuesday"; "Wednesday"; "Thursday"; "Friday";
                 "Saturday"; "Sunday"]%string.
Proof.
  apply (C5_empty_grid_shape 1441%nat 30); [lia | lia | exists 48; reflexivity].
Defined.

(** C6, as the specification states it, fails: for the interval 7, which
    does not divide 1440, the builder raises nothing and returns a grid of
    206 rows. *)
Lemma C6_counterexample :
  ~ (7 | 1440) /\
  exists g, build_empty_grid 207 7 = Done g /\ length (rows g) = 206%nat.
Proof.
  split.
  - intros [k Hk]. lia.
  - eexists. split; [vm_compute; reflexivity|]. reflexivity.
Qed.

(** C6, amended. The builder checks nothing about the interval. For every
    positive interval size of at most 1440 minutes, dividing 1440 or not, it
    returns (with fuel for the loop) the all-zero grid whose rows are
    labelled 00:00, 00:00+i, ... below 24:00, that is [ceil(1440/i)] rows;
    for an interval size that is zero or negative it returns no grid. *)
Theorem C6_no_validation (i : Z) :
  (0 < i <= 1440 ->
   forall fuel, (1440 < fuel)%nat ->
     build_empty_grid fuel i = Done (zero_frame (slot_times i) DAYS) /\
     length (slot_times i) = Z.to_nat ((1440 + i - 1) / i)) /\
  (i <= 0 -> forall fuel g, build_empty_grid fuel i <> Done g).
Proof.
  split.
  - intros [Hi _] fuel Hf. split; [apply build_empty_grid_positive; assumption|].
    unfold slot_times. rewrite length_fmap, length_seq. reflexivity.
  - intros Hi fuel g. rewrite build_empty_grid_stuck by assumption. discriminate.
Qed.

Lemma C6_no_validation_witness :
  (build_empty_grid 1441%nat 7 = Done (zero_frame (slot_times 7) DAYS) /\
   length (slot_times 7) = Z.to_nat ((1440 + 7 - 1) / 7)) /\
  build_empty_grid 1441%nat 0 <> Done (zero_frame [] DAYS).
Proof.
  split.
  - apply (proj1 (C6_no_validation 7)); lia.
  - apply (proj2 (C6_no_validation 0)); lia.
Defined.

(** ** Day-mode resolution *)

(** C4. Day-mode resolution returns the selected days unchanged under
    "Working days" and the complement of the selected days within 0..6
    under "Days off"; hence a person with days off Saturday and Sunday
    contributes what the same shift contributes under working days Monday
    to Friday. *)
Theorem C4_day_mode_resolution :
  (forall days, day_indices "Working days" days = days) /\
  (forall days i, i ∈ day_indices "Days off" days <-> 0 <= i < 7 /\ i ∉ days) /\
  (forall days, NoDup (day_indices "Days off" days)) /\
  (forall fuel df id name id' name' start_t end_t step_minutes,
      apply_person_to_grid fuel df
        (mkperson id name "Days off" [5; 6] start_t end_t) step_minutes
      = apply_person_to_grid fuel df
          (mkperson id' name' "Working days" [0; 1; 2; 3; 4] start_t end_t)
          step_minutes).
Proof.
  assert (R : forall i : Z, i ∈ (Z.of_nat <$> seq 0 7) <-> 0 <= i < 7).
  { intros i. rewrite list_elem_of_fmap. split.
    - intros (k & -> & Hk). apply elem_of_seq in Hk. lia.
    - intros Hi. exists (Z.to_nat i). split; [lia|]. apply elem_of_seq. lia. }
  split; [reflexivity|]. split; [|split].
  - intros days i. unfold day_indices. simpl.
    rewrite list_elem_of_filter, R. tauto.
  - intros days.
    change (NoDup (filter (fun i => i ∉ days) (Z.of_nat <$> seq 0 7))).
    apply NoDup_filter, NoDup_fmap_2; [intros ? ?; lia | apply NoDup_seq].
  - reflexivity.
Qed.

(** ** Shift projection *)

Lemma person_count_same_day step_minutes p lbl c :
  combine (p_start p) < combine (p_end p) ->
  person_count step_minutes p lbl c
  = count_days (fun d => d =? Z.of_nat c) (day_indices (p_mode p) (p_days p))
    * bool_to_Z (stepped (combine (p_start p)) (combine (p_end p))
                   (60 * step_minutes) lbl).
Proof.
  intros Hlt. unfold person_count, day_count, range_count, timedelta_minutes.
  destruct (Z.gtb_spec (combine (p_end p)) (combine (p_start p))); [|lia].
  destruct (Z.leb_spec (combine (p_end p)) (combine (p_start p))); [lia|].
  rewrite <- total_count_days. apply total_ext. intros d.
  destruct (Z.eqb_spec d (Z.of_nat c)) as [->|Hn].
  - rewrite decide_True by reflexivity. reflexivity.
  - rewrite decide_False by congruence. reflexivity.
Qed.

Lemma person_count_overnight step_minutes p lbl c :
  combine (p_end p) <= combine (p_start p) ->
  person_count step_minutes p lbl c
  = count_days (fun d => d =? Z.of_nat c) (day_indices (p_mode p) (p_days p))
    * range_count (p_start p) (mktime 23 59 59) step_minutes lbl
    + count_days (fun d => (d + 1) mod 7 =? Z.of_nat c)
        (day_indices (p_mode p) (p_days p))
      * range_count (mktime 0 0 0) (p_end p) step_minutes lbl.
Proof.
  intros Hle. unfold person_count, day_count.
  destruct (Z.gtb_spec (combine (p_end p)) (combine (p_start p))); [lia|].
  rewrite total_plus, <- !total_count_days. f_equal; apply total_ext; intros d.
  - destruct (Z.eqb_spec d (Z.of_nat c)) as [->|Hn].
    + rewrite decide_True by reflexivity. reflexivity.
    + rewrite decide_False by congruence. reflexivity.
  - destruct (Z.eqb_spec ((d + 1) mod 7) (Z.of_nat c)) as [->|Hn].
    + rewrite decide_True by reflexivity. reflexivity.
    + rewrite decide_False by congruence. reflexivity.
Qed.

Lemma stepped_slot step_minutes lbl :
  0 < step_minutes -> lbl ∈ slot_times step_minutes ->
  stepped 0 86400 (60 * step_minutes) lbl = true.
Proof.
  intros Hs Hin. unfold slot_times in Hin.
  apply list_elem_of_fmap in Hin as (k & -> & Hk). apply elem_of_seq in Hk.
  pose proof (slot_in_day step_minutes k Hs ltac:(lia)) as Hd.
  pose proof (dt_time_minutes _ Hd) as E.
  apply dt_time_eq_iff in E as [V E]; [|lia].
  unfold stepped. rewrite bool_decide_true by assumption. rewrite E.
  destruct (Z.leb_spec 0 (60 * (Z.of_nat k * step_minutes))); [|lia].
  destruct (Z.ltb_spec (60 * (Z.of_nat k * step_minutes)) 86400); [|lia].
  simpl. apply Z.eqb_eq.
  replace (60 * (Z.of_nat k * step_minutes) - 0)
    with (Z.of_nat k * (60 * step_minutes)) by lia.
  apply Z.mod_mul. lia.
Qed.

(** C3. For a shift whose end is strictly later than its start, an
    interval of 1 to 1440 minutes, and resolved days in 0..6, the projector
    returns (with fuel
    for the loops) and adds to each cell, once for every resolved day equal
    to the cell's column, 1 if the row's label [t] has [start <= t < end]
    and lies a whole number of intervals after [start], and 0 otherwise.
    In particular working days Monday, 09:00 to 17:00, interval 60, gives 1
    in the Monday rows 09:00 to 16:00 and 0 everywhere else. *)
Theorem C3_same_day_projection :
  (forall fuel df p step_minutes,
      (1440 < fuel)%nat -> 0 < step_minutes <= 1440 -> valid_person p ->
      length (columns df) = 7%nat ->
      combine (p_start p) < combine (p_end p) ->
      apply_person_to_grid fuel df p step_minutes
      = Done (add_counts
                (fun lbl c =>
                   count_days (fun d => d =? Z.of_nat c)
                     (day_indices (p_mode p) (p_days p))
                   * bool_to_Z (stepped (combine (p_start p)) (combine (p_end p))
                                  (60 * step_minutes) lbl))
                df)) /\
  (forall fuel id name,
      (1440 < fuel)%nat ->
      staffing_grid fuel
        [mkperson id name "Working days" [0] (mktime 9 0 0) (mktime 17 0 0)] 60
      = Done (mkframe DAYS
                ((fun h => (mktime h 0 0,
                            [bool_to_Z ((9 <=? h) && (h <? 17)); 0; 0; 0; 0; 0; 0]))
                   <$> (Z.of_nat <$> seq 0 24)))).
Proof.
  split.
  - intros fuel df p step_minutes Hf [Hs _] Hv Hc Hlt.
    rewrite apply_person_positive by assumption. f_equal.
    apply add_counts_ext. intros lbl c _.
    apply person_count_same_day. assumption.
  - intros fuel id name Hf. rewrite staffing_grid_positive; [|assumption|lia|].
    + vm_compute. reflexivity.
    + valid_data.
Qed.

Lemma C3_same_day_projection_witness :
  apply_person_to_grid 1441%nat (zero_frame (slot_times 60) DAYS)
    (mkperson "id" "Ann" "Working days" [0] (mktime 9 0 0) (mktime 17 0 0)) 60
  = Done (add_counts
            (fun lbl c =>
               count_days (fun d => d =? Z.of_nat c) [0]
               * bool_to_Z (stepped 32400 61200 (60 * 60) lbl))
            (zero_frame (slot_times 60) DAYS)).
Proof.
  apply (proj1 C3_same_day_projection 1441%nat (zero_frame (slot_times 60) DAYS)
           (mkperson "id" "Ann" "Working days" [0] (mktime 9 0 0) (mktime 17 0 0)) 60).
  - lia.
  - lia.
  - valid_data.
  - reflexivity.
  - vm_compute. reflexivity.
Defined.

(** C2. For an overnight shift whose end is exactly 00:00 and whose start
    is after 00:00, an interval of 1 to 1440 minutes, resolved days in 0..6
    and a grid
    whose rows are slots of that interval, the projector returns and adds,
    besides what day [d] itself receives from [start] on, 1 to every row of
    column [(d+1) mod 7] for each resolved day [d]: the whole next day, not
    no slot at all. *)
Theorem C2_midnight_end_marks_whole_next_day fuel df p step_minutes :
  (1440 < fuel)%nat -> 0 < step_minutes <= 1440 -> valid_person p ->
  length (columns df) = 7%nat -> index df ⊆ slot_times step_minutes ->
  p_end p = mktime 0 0 0 -> 0 < combine (p_start p) ->
  apply_person_to_grid fuel df p step_minutes
  = Done (add_counts
            (fun lbl c =>
               count_days (fun d => d =? Z.of_nat c)
                 (day_indices (p_mode p) (p_days p))
               * range_count (p_start p) (mktime 23 59 59) step_minutes lbl
               + count_days (fun d => (d + 1) mod 7 =? Z.of_nat c)
                   (day_indices (p_mode p) (p_days p)))
            df).
Proof.
  intros Hf [Hs _] Hv Hc Hidx He H0.
  rewrite apply_person_positive by assumption. f_equal.
  apply add_counts_ext. intros lbl c Hl.
  rewrite person_count_overnight by (rewrite He; change (combine (mktime 0 0 0)) with 0; lia).
  rewrite He. unfold range_count at 2. simpl.
  change (combine (mktime 0 0 0)) with 0. unfold timedelta_minutes.
  rewrite stepped_slot by auto.
  rewrite stepped_empty by lia. simpl. lia.
Qed.

Lemma C2_midnight_end_marks_whole_next_day_witness :
  apply_person_to_grid 1441%nat (zero_frame (slot_times 60) DAYS)
    (mkperson "id" "Ann" "Working days" [0] (mktime 22 0 0) (mktime 0 0 0)) 60
  = Done (add_counts
            (fun lbl c =>
               count_days (fun d => d =? Z.of_nat c) [0]
               * range_count (mktime 22 0 0) (mktime 23 59 59) 60 lbl
               + count_days (fun d => (d + 1) mod 7 =? Z.of_nat c) [0])
            (zero_frame (slot_times 60) DAYS)).
Proof.
  apply (C2_midnight_end_marks_whole_next_day 1441%nat
           (zero_frame (slot_times 60) DAYS)
           (mkperson "id" "Ann" "Working days" [0] (mktime 22 0 0) (mktime 0 0 0)) 60).
  - lia.
  - lia.
  - valid_data.
  - reflexivity.
  - vm_compute. intros x Hx. exact Hx.
  - reflexivity.
  - vm_compute. reflexivity.
Defined.

(** X1. Away from an end of 00:00 and a start of 23:59:59, and for an
    interval of 1 to 1440 minutes, an overnight shift
    adds, for each resolved day [d], 1 to the rows of day [d] that are a
    whole number of intervals after [start] (and before 23:59:59) and 1 to
    the rows of day [(d+1) mod 7] that are a whole number of intervals after
    00:00 and before [end]. *)
Lemma overnight_projection fuel df p step_minutes :
  (1440 < fuel)%nat -> 0 < step_minutes <= 1440 -> valid_person p ->
  length (columns df) = 7%nat ->
  0 < combine (p_end p) <= combine (p_start p) -> combine (p_start p) < 86399 ->
  apply_person_to_grid fuel df p step_minutes
  = Done (add_counts
            (fun lbl c =>
               count_days (fun d => d =? Z.of_nat c)
                 (day_indices (p_mode p) (p_days p))
               * bool_to_Z (stepped (combine (p_start p)) 86399
                              (60 * step_minutes) lbl)
               + count_days (fun d => (d + 1) mod 7 =? Z.of_nat c)
                   (day_indices (p_mode p) (p_days p))
                 * bool_to_Z (stepped 0 (combine (p_end p))
                                (60 * step_minutes) lbl))
            df).
Proof.
  intros Hf [Hs _] Hv Hc He Hlast.
  rewrite apply_person_positive by assumption. f_equal.
  apply add_counts_ext. intros lbl c _.
  rewrite person_count_overnight by lia.
  unfold range_count, timedelta_minutes.
  change (combine (mktime 23 59 59)) with 86399.
  change (combine (mktime 0 0 0)) with 0.
  destruct (Z.leb_spec 86399 (combine (p_start p))); [lia|].
  destruct (Z.leb_spec (combine (p_end p)) 0); [lia|]. reflexivity.
Qed.

(** C1 at an end of 00:00. Working days Monday, 22:00 to 00:00, interval
    60: the Monday rows 22:00 and 23:00 receive 1, and so does every row of
    Tuesday, where the claim has no slot [t] with [00:00 <= t < 00:00]. *)
Theorem C1_midnight_end_fills_next_day fuel id name :
  (1440 < fuel)%nat ->
  staffing_grid fuel
    [mkperson id name "Working days" [0] (mktime 22 0 0) (mktime 0 0 0)] 60
  = Done (mkframe DAYS
            ((fun h => (mktime h 0 0, [bool_to_Z (22 <=? h); 1; 0; 0; 0; 0; 0]))
               <$> (Z.of_nat <$> seq 0 24))).
Proof.
  intros Hf. rewrite staffing_grid_positive; [|assumption|lia|].
  - vm_compute. reflexivity.
  - valid_data.
Qed.

Lemma C1_midnight_end_fills_next_day_witness :
  staffing_grid 1441%nat
    [mkperson "id" "Ann" "Working days" [0] (mktime 22 0 0) (mktime 0 0 0)] 60
  = Done (mkframe DAYS
            ((fun h => (mktime h 0 0, [bool_to_Z (22 <=? h); 1; 0; 0; 0; 0; 0]))
               <$> (Z.of_nat <$> seq 0 24))).
Proof. apply (C1_midnight_end_fills_next_day 1441%nat "id" "Ann"). lia. Defined.

(** C8. Start 23:30, end 00:30, interval 30, one resolved weekday [d]: on
    the empty grid the projector sets to 1 exactly the 23:30 cell of day
    [d] and the 00:00 cell of day [(d+1) mod 7]; the cells add up to 2. *)
Theorem C8_half_hour_over_midnight fuel d id name :
  (1440 < fuel)%nat -> 0 <= d < 7 ->
  exists g,
    staffing_grid fuel
      [mkperson id name "Working days" [d] (mktime 23 30 0) (mktime 0 30 0)] 30
    = Done g /\
    g = add_counts
          (fun lbl c =>
             if decide ((lbl = mktime 23 30 0 /\ Z.of_nat c = d) \/
                        (lbl = mktime 0 0 0 /\ Z.of_nat c = (d + 1) mod 7))
             then 1 else 0)
          (zero_frame (slot_times 30) DAYS) /\
    grid_sum g = 2.
Proof.
  intros Hf Hd. eexists. split; [|split; [reflexivity|]].
  - rewrite staffing_grid_positive; [|assumption|lia|].
    + f_equal.
      each_weekday d; vm_compute; reflexivity.
    + valid_data.
  - each_weekday d; vm_compute; reflexivity.
Qed.

Lemma C8_half_hour_over_midnight_witness :
  exists g,
    staffing_grid 1441%nat
      [mkperson "id" "Ann" "Working days" [6] (mktime 23 30 0) (mktime 0 30 0)] 30
    = Done g /\
    g = add_counts
          (fun lbl c =>
             if decide ((lbl = mktime 23 30 0 /\ Z.of_nat c = 6) \/
                        (lbl = mktime 0 0 0 /\ Z.of_nat c = (6 + 1) mod 7))
             then 1 else 0)
          (zero_frame (slot_times 30) DAYS) /\
    grid_sum g = 2.
Proof. apply (C8_half_hour_over_midnight 1441%nat 6 "id" "Ann"); lia. Defined.

(** ** Aggregation *)

Lemma staffing_grid_Done fuel people step_minutes g :
  staffing_grid fuel people step_minutes = Done g <->
  exists g0 evs,
    build_empty_grid fuel step_minutes = Done g0 /\
    gather (person_events fuel step_minutes) people = Done evs /\
    Forall (event_ok (index g0) (length (columns g0))) evs /\
    g = add_counts (tally (length (columns g0)) evs) g0.
Proof.
  unfold staffing_grid. rewrite bind_Done. split.
  - intros (g0 & Hb & Hf). exists g0.
    apply (for_in_gather (person_events fuel step_minutes) _ mark_event) in Hf.
    + destruct Hf as (evs & Hg & Hm). apply marks_Done in Hm. eauto.
    + intros p acc r. apply apply_person_Done.
  - intros (g0 & evs & Hb & Hg & Hok & ->). exists g0. split; [assumption|].
    apply (for_in_gather (person_events fuel step_minutes) _ mark_event).
    + intros p acc r. apply apply_person_Done.
    + exists evs. split; [assumption|]. apply marks_Done. auto.
Qed.

(** C7. Whatever the interval size and the list of people, if aggregating
    the list returns a grid then aggregating any permutation of it returns
    the same grid; and with an interval of 1 to 1440 minutes, valid times
    and resolved days in 0..6, both aggregations do return (with fuel for
    the loops). *)
Theorem C7_person_order_invariance people people' step_minutes :
  Permutation people people' ->
  (forall fuel g,
      staffing_grid fuel people step_minutes = Done g ->
      staffing_grid fuel people' step_minutes = Done g) /\
  (0 < step_minutes <= 1440 -> Forall valid_person people ->
   forall fuel, (1440 < fuel)%nat ->
     exists g, staffing_grid fuel people step_minutes = Done g /\
               staffing_grid fuel people' step_minutes = Done g).
Proof.
  intros HP.
  assert (H1 : forall fuel g,
             staffing_grid fuel people step_minutes = Done g ->
             staffing_grid fuel people' step_minutes = Done g).
  { intros fuel g Hg. apply staffing_grid_Done in Hg as (g0 & evs & Hb & Hg & Hok & ->).
    destruct (gather_Permutation _ _ _ HP _ Hg) as (evs' & Hg' & HPe).
    apply staffing_grid_Done. exists g0, evs'. split; [assumption|].
    split; [assumption|]. split.
    - eapply Permutation_Forall; eassumption.
    - apply add_counts_ext. intros lbl c _. apply tally_Permutation, HPe. }
  split; [exact H1|].
  intros [Hs _] Hv fuel Hf. eexists. split.
  - apply staffing_grid_positive; assumption.
  - apply H1. apply staffing_grid_positive; assumption.
Qed.

Lemma C7_person_order_invariance_witness :
  exists g,
    staffing_grid 1441%nat
      [mkperson "1" "Ann" "Working days" [0; 1] (mktime 9 0 0) (mktime 17 0 0);
       mkperson "2" "Bob" "Days off" [5; 6] (mktime 22 0 0) (mktime 6 0 0)] 30
    = Done g /\
    staffing_grid 1441%nat
      [mkperson "2" "Bob" "Days off" [5; 6] (mktime 22 0 0) (mktime 6 0 0);
       mkperson "1" "Ann" "Working days" [0; 1] (mktime 9 0 0) (mktime 17 0 0)] 30
    = Done g.
Proof.
  apply (proj2 (C7_person_order_invariance
                  [mkperson "1" "Ann" "Working days" [0; 1] (mktime 9 0 0) (mktime 17 0 0);
                   mkperson "2" "Bob" "Days off" [5; 6] (mktime 22 0 0) (mktime 6 0 0)]
                  [mkperson "2" "Bob" "Days off" [5; 6] (mktime 22 0 0) (mktime 6 0 0);
                   mkperson "1" "Ann" "Working days" [0; 1] (mktime 9 0 0) (mktime 17 0 0)]
                  30 (perm_swap _ _ _))).
  - lia.
  - valid_data.
  - lia.
Defined.

(** ** Cells only grow *)

Lemma add_counts_grew f df : (forall lbl c, 0 <= f lbl c) -> grew df (add_counts f df).
Proof.
  intros Hf. split; [reflexivity|]. unfold add_counts; simpl.
  apply Forall2_fmap_r, Forall_Forall2_diag, Forall_true.
  intros [lbl r]. simpl. split; [reflexivity|].
  apply Forall2_same_length_lookup_2; [rewrite length_imap; reflexivity|].
  intros c x y Hx Hy. rewrite list_lookup_imap, Hx in Hy. simpl in Hy.
  injection Hy as <-. specialize (Hf lbl c). lia.
Qed.

Lemma grew_nonneg df df' : grew df df' -> nonneg df -> nonneg df'.
Proof.
  intros [_ H] Hn. unfold nonneg in *.
  eapply Forall2_Forall_r; [exact H|].
  eapply Forall_impl; [exact Hn|]. intros r Hr r' [_ Hle].
  eapply Forall2_Forall_r; [exact Hle|].
  eapply Forall_impl; [exact Hr|]. intros x Hx y Hxy. simpl in *. lia.
Qed.

Lemma zero_frame_nonneg times cols : nonneg (zero_frame times cols).
Proof.
  unfold nonneg, zero_frame; simpl. apply Forall_fmap, Forall_true.
  intros t. simpl. apply Forall_replicate. lia.
Qed.

Lemma apply_person_grew fuel df p step_minutes df' :
  apply_person_to_grid fuel df p step_minutes = Done df' -> grew df df'.
Proof.
  intros H. apply apply_person_tally in H as (evs & _ & _ & ->).
  apply add_counts_grew. intros lbl c. apply tally_nonneg.
Qed.

(** C9. Whenever a projection returns, the grid it returns has the columns
    and row labels of the grid it was given and no cell below its former
    value; hence a grid returned by the aggregation has no negative cell,
    and the grid for a list of people extended by further people is, cell
    by cell, at least the grid for the list. *)
Theorem C9_cells_only_grow :
  (forall fuel df p step_minutes df',
      apply_person_to_grid fuel df p step_minutes = Done df' -> grew df df') /\
  (forall fuel people step_minutes g,
      staffing_grid fuel people step_minutes = Done g -> nonneg g) /\
  (forall fuel people more step_minutes g',
      staffing_grid fuel (people ++ more) step_minutes = Done g' ->
      exists g, staffing_grid fuel people step_minutes = Done g /\ grew g g').
Proof.
  split; [exact apply_person_grew|]. split.
  - intros fuel people step_minutes g Hg.
    apply staffing_grid_Done in Hg as (g0 & evs & Hb & _ & _ & ->).
    unfold build_empty_grid in Hb. apply bind_Done in Hb as (times & _ & [= <-]).
    eapply grew_nonneg; [|apply zero_frame_nonneg].
    apply add_counts_grew. intros lbl c. apply tally_nonneg.
  - intros fuel people more step_minutes g' Hg'. unfold staffing_grid in *.
    apply bind_Done in Hg' as (g0 & Hb & Hf). rewrite for_in_app in Hf.
    apply bind_Done in Hf as (g & Hp & Hm).
    exists g. rewrite Hb. simpl. split; [assumption|].
    apply (for_in_gather (person_events fuel step_minutes) _ mark_event) in Hm.
    + destruct Hm as (evs & _ & Hm). apply marks_Done in Hm as [_ ->].
      apply add_counts_grew. intros lbl c. apply tally_nonneg.
    + intros p acc r. apply apply_person_Done.
Qed.

Lemma C9_cells_only_grow_witness :
  exists df',
    apply_person_to_grid 30%nat (zero_frame (slot_times 60) DAYS)
      (mkperson "id" "Ann" "Working days" [0] (mktime 22 0 0) (mktime 6 0 0)) 60
    = Done df' /\
    grew (zero_frame (slot_times 60) DAYS) df'.
Proof.
  eexists. split; [vm_compute; reflexivity|].
  apply (proj1 C9_cells_only_grow 30%nat (zero_frame (slot_times 60) DAYS)
           (mkperson "id" "Ann" "Working days" [0] (mktime 22 0 0) (mktime 6 0 0)) 60).
  vm_compute. reflexivity.
Defined.

(** ** The add/update handler *)

Lemma dict_get_day d :
  d ∈ DAYS ->
  exists i, dict_get d DAY_TO_IDX = Done i /\ 0 <= i < 7 /\ DAYS !! Z.to_nat i = Some d.
Proof.
  intros H. apply list_elem_of_In in H. simpl in H.
  destruct H as [<-|[<-|[<-|[<-|[<-|[<-|[<-|[]]]]]]]];
    eexists; (split; [vm_compute; reflexivity|]); split; (lia || reflexivity).
Qed.

Lemma day_list_days days_pick :
  Forall (fun d => d ∈ DAYS) days_pick ->
  exists days,
    day_list days_pick = Done days /\
    Forall2 (fun d i => 0 <= i < 7 /\ DAYS !! Z.to_nat i = Some d) days_pick days.
Proof.
  induction 1 as [|d ds Hd _ IH]; cbn [day_list].
  - exists []. split; [reflexivity | constructor].
  - destruct (dict_get_day d Hd) as (i & -> & Hi).
    destruct IH as (days & -> & IH). simpl.
    exists (i :: days). split; [reflexivity | constructor; assumption].
Qed.

Lemma replace_first_split id payload l1 q l2 :
  p_id q = id -> Forall (fun x => p_id x <> id) l1 ->
  replace_first id payload (l1 ++ q :: l2) = l1 ++ payload :: l2.
Proof.
  intros Hq. induction 1 as [|x l1 Hx _ IH]; simpl.
  - rewrite (proj2 (String.eqb_eq _ _) Hq). reflexivity.
  - rewrite (proj2 (String.eqb_neq _ _) Hx), IH. reflexivity.
Qed.

(** When no record carries the edited id, the update loop changes nothing. *)
Lemma replace_first_absent id payload l :
  Forall (fun x => p_id x <> id) l -> replace_first id payload l = l.
Proof.
  induction 1 as [|x l Hx _ IH]; simpl; [reflexivity|].
  rewrite (proj2 (String.eqb_neq _ _) Hx), IH. reflexivity.
Qed.

Lemma filter_drops_id target (l : list person) :
  Forall (fun x => p_id x <> target)
    (List.filter (fun p => negb (String.eqb (p_id p) target)) l).
Proof.
  induction l as [|x l IH]; simpl; [constructor|].
  destruct (String.eqb_spec (p_id x) target); simpl; auto.
Qed.

Lemma load_into_form_Loaded target interval s s1 d :
  target <> "(select)"%string -> load_into_form target interval s = Loaded s1 d ->
  s1 = mksession (people s) (Some target) /\
  exists p, next_with_id target (people s) = Some p.
Proof.
  intros Ht. unfold load_into_form.
  rewrite (proj2 (String.eqb_neq _ _) Ht).
  destruct (next_with_id target (people s)) as [p|]; [|discriminate].
  destruct (day_names (p_days p)); [|discriminate].
  intros [= <- _]. eauto.
Qed.

(** C10. An add/update whose name is empty once stripped, or whose start
    and end times are equal, shows an error message and leaves the session
    state, hence the list of people, as it was. Otherwise, the days picked
    being weekday names, the record built from the form is appended when no
    edit is in progress, and takes the place of the first record with the
    edited id when there is one. But when an edit is in progress and no
    record has the edited id, the record is neither appended nor put in
    the place of another: the list of people is left as it was, and no
    message is shown. "Load into form" followed by "Remove" of the same
    person leads there, since "Remove" keeps [edit_id]. *)
Theorem C10_add_update uuid4 f s :
  (strip (f_name f) = ""%string ->
   add_update uuid4 f s
   = Done (mkreply s (Some "Please enter a name."%string) false)) /\
  (strip (f_name f) <> ""%string -> f_start_t f = f_end_t f ->
   add_update uuid4 f s
   = Done (mkreply s
             (Some "Start time and end time cannot be identical (duration would be 0)."%string)
             false)) /\
  (strip (f_name f) <> ""%string -> f_start_t f <> f_end_t f ->
   Forall (fun d => d ∈ DAYS) (f_days_pick f) ->
   exists days,
     Forall2 (fun d i => 0 <= i < 7 /\ DAYS !! Z.to_nat i = Some d)
       (f_days_pick f) days /\
     (edit_id s = None ->
      add_update uuid4 f s
      = Done (mkreply
                (mksession
                   (people s
                    ++ [mkperson uuid4 (strip (f_name f)) (f_mode f) days
                          (f_start_t f) (f_end_t f)])
                   None)
                None true)) /\
     (forall id l1 q l2,
         edit_id s = Some id -> id <> ""%string ->
         people s = l1 ++ q :: l2 -> p_id q = id ->
         Forall (fun x => p_id x <> id) l1 ->
         add_update uuid4 f s
         = Done (mkreply
                   (mksession
                      (l1 ++ mkperson id (strip (f_name f)) (f_mode f) days
                               (f_start_t f) (f_end_t f) :: l2)
                      None)
                   None true)) /\
     (forall id,
         edit_id s = Some id -> Forall (fun x => p_id x <> id) (people s) ->
         add_update uuid4 f s
         = Done (mkreply (mksession (people s) None) None true))) /\
  (forall target interval s1 d,
      target <> "(select)"%string ->
      load_into_form target interval s = Loaded s1 d ->
      edit_id (remove_person target s1) = Some target /\
      Forall (fun x => p_id x <> target) (people (remove_person target s1))).
Proof.
  split; [|split; [|split]].
  - intros Hn. unfold add_update.
    rewrite (proj2 (String.eqb_eq _ _) Hn). reflexivity.
  - intros Hn Ht. unfold add_update.
    rewrite (proj2 (String.eqb_neq _ _) Hn), bool_decide_true by assumption.
    reflexivity.
  - intros Hn Ht Hd. unfold add_update.
    rewrite (proj2 (String.eqb_neq _ _) Hn), bool_decide_false by assumption.
    destruct (day_list_days _ Hd) as (days & -> & Hdays).
    exists days. split; [assumption|]. simpl. split; [|split].
    + intros ->. reflexivity.
    + intros id l1 q l2 -> Hid -> Hq Hl1. simpl.
      rewrite (proj2 (String.eqb_neq _ _) Hid).
      rewrite replace_first_split by assumption. reflexivity.
    + intros id -> Hl. rewrite replace_first_absent by assumption. reflexivity.
  - intros target interval s1 d Hsel Hload.
    destruct (load_into_form_Loaded _ _ _ _ _ Hsel Hload) as (-> & _).
    unfold remove_person. rewrite (proj2 (String.eqb_neq _ _) Hsel). simpl.
    split; [reflexivity | apply filter_drops_id].
Qed.

Lemma C10_add_update_witness :
  add_update "u2"
    (mkform "Working days" "   " ["Monday"%string] (mktime 9 0 0) (mktime 17 0 0))
    (mksession
       [mkperson "u1" "Ann" "Days off" [5; 6] (mktime 8 0 0) (mktime 16 0 0)] None)
  = Done (mkreply
            (mksession
               [mkperson "u1" "Ann" "Days off" [5; 6] (mktime 8 0 0) (mktime 16 0 0)]
               None)
            (Some "Please enter a name."%string) false) /\
  add_update "u3"
    (mkform "Working days" "Rob" ["Friday"%string] (mktime 10 0 0) (mktime 18 0 0))
    (remove_person "u2"
       (mksession
          [mkperson "u1" "Ann" "Days off" [5; 6] (mktime 8 0 0) (mktime 16 0 0);
           mkperson "u2" "Bob" "Working days" [0] (mktime 9 0 0) (mktime 17 0 0)]
          (Some "u2"%string)))
  = Done (mkreply
            (mksession
               [mkperson "u1" "Ann" "Days off" [5; 6] (mktime 8 0 0) (mktime 16 0 0)]
               None)
            None true).
Proof.
  split.
  - apply (proj1 (C10_add_update "u2"
                    (mkform "Working days" "   " ["Monday"%string]
                       (mktime 9 0 0) (mktime 17 0 0))
                    (mksession
                       [mkperson "u1" "Ann" "Days off" [5; 6] (mktime 8 0 0) (mktime 16 0 0)]
                       None))).
    reflexivity.
  - destruct (proj1 (proj2 (proj2 (C10_add_update "u3"
                       (mkform "Working days" "Rob" ["Friday"%string]
                          (mktime 10 0 0) (mktime 18 0 0))
                       (remove_person "u2"
                          (mksession
                             [mkperson "u1" "Ann" "Days off" [5; 6]
                                (mktime 8 0 0) (mktime 16 0 0);
                              mkperson "u2" "Bob" "Working days" [0]
                                (mktime 9 0 0) (mktime 17 0 0)]
                             (Some "u2"%string)))))))
      as (days & _ & _ & _ & Hlost).
    + vm_compute. discriminate.
    + vm_compute. discriminate.
    + repeat constructor.
    + apply (Hlost "u2"%string); [reflexivity|].
      vm_compute. repeat constructor. discriminate.
Defined.

(** * Further properties of the code *)

Lemma overnight_projection_witness :
  apply_person_to_grid 1441%nat (zero_frame (slot_times 60) DAYS)
    (mkperson "id" "Ann" "Working days" [0] (mktime 22 0 0) (mktime 6 0 0)) 60
  = Done (add_counts
            (fun lbl c =>
               count_days (fun d => d =? Z.of_nat c) [0]
               * bool_to_Z (stepped 79200 86399 (60 * 60) lbl)
               + count_days (fun d => (d + 1) mod 7 =? Z.of_nat c) [0]
                 * bool_to_Z (stepped 0 21600 (60 * 60) lbl))
            (zero_frame (slot_times 60) DAYS)).
Proof.
  apply (overnight_projection 1441%nat (zero_frame (slot_times 60) DAYS)
           (mkperson "id" "Ann" "Working days" [0] (mktime 22 0 0) (mktime 6 0 0)) 60).
  - lia.
  - lia.
  - valid_data.
  - reflexivity.
  - vm_compute. split; [reflexivity | discriminate].
  - vm_compute. reflexivity.
Defined.

(** ** The generator [time_range] *)

Lemma for_in_collect (l acc : list time) : for_in l collect acc = Done (acc ++ l).
Proof.
  revert acc. induction l as [|x l IH]; intros acc; simpl.
  - rewrite app_nil_r. reflexivity.
  - rewrite IH, <- app_assoc. reflexivity.
Qed.

Lemma for_in_collect_nil (l : list time) : for_in l collect [] = Done l.
Proof. apply for_in_collect. Qed.

Lemma ticks_bounds n t b step :
  0 < step -> 0 <= t -> b <= 86400 -> n = tick_count t b step ->
  Forall (fun e => valid_time e /\ t <= combine e < b) (ticks n t step).
Proof.
  intros Hs. revert t. induction n as [|n IH]; intros t Ht Hb Hn; [constructor|].
  destruct (Z.lt_ge_cases t b) as [Hlt|Hge].
  - rewrite tick_count_step in Hn by assumption. injection Hn as Hn.
    simpl. constructor.
    + split; [apply valid_time_dt_time|].
      rewrite combine_dt_time, Z.mod_small by lia. lia.
    + eapply Forall_impl; [apply (IH (t + step)); lia|].
      simpl. intros e [V He]. split; [assumption | lia].
  - rewrite tick_count_done in Hn by assumption. discriminate.
Qed.

Lemma time_range_yields_same_day fuel start end_ step_minutes :
  (1440 < fuel)%nat -> 0 < step_minutes -> valid_time start -> valid_time end_ ->
  combine start < combine end_ ->
  time_range_yields fuel start end_ step_minutes
  = Done (ticks (tick_count (combine start) (combine end_) (60 * step_minutes))
            (combine start) (60 * step_minutes)).
Proof.
  intros Hf Hs Vs Ve Hlt.
  pose proof (combine_range _ Vs). pose proof (combine_range _ Ve).
  unfold time_range_yields, timedelta_minutes.
  destruct (Z.leb_spec (combine end_) (combine start)); [lia|].
  apply yields_positive; [reflexivity | lia |].
  pose proof (tick_count_bound (combine start) (combine end_) (60 * step_minutes)).
  lia.
Qed.

Lemma time_range_yields_wrap fuel start end_ step_minutes :
  (1440 < fuel)%nat -> 0 < step_minutes -> valid_time start -> valid_time end_ ->
  combine end_ <= combine start ->
  time_range_yields fuel start end_ step_minutes
  = Done (ticks (tick_count (combine start) 86400 (60 * step_minutes))
            (combine start) (60 * step_minutes)
          ++ ticks (tick_count 0 (combine end_) (60 * step_minutes))
               0 (60 * step_minutes)).
Proof.
  intros Hf Hs Vs Ve Hle.
  pose proof (combine_range _ Vs). pose proof (combine_range _ Ve).
  unfold time_range_yields, timedelta_minutes.
  change (combine (mktime 23 59 59)) with 86399.
  change (combine (mktime 0 0 0)) with 0.
  destruct (Z.leb_spec (combine end_) (combine start)); [|lia].
  rewrite (yields_positive fuel (fun t => t <=? 86399) 86400);
    [|intros x; cbv beta; destruct (Z.leb_spec x 86399), (Z.ltb_spec x 86400);
      reflexivity || lia|lia|].
  2:{ pose proof (tick_count_bound (combine start) 86400 (60 * step_minutes)). lia. }
  rewrite (yields_positive fuel (fun t => t <? combine end_) (combine end_));
    [|reflexivity|lia|].
  2:{ pose proof (tick_count_bound 0 (combine end_) (60 * step_minutes)). lia. }
  reflexivity.
Qed.

(** X2. With a step of 1 to 1440 minutes, [time_range(start, end, step)] is
    a finite generator. When [start < end] it yields [start], [start + step], ... as
    long as the time stays below [end], every yielded time [t] having
    [start <= t < end]; when [end <= start] it yields the times from
    [start] up to 23:59:59 and then those from 00:00 below [end]. *)
Theorem time_range_yields_in_order fuel start end_ step_minutes :
  (1440 < fuel)%nat -> 0 < step_minutes <= 1440 ->
  valid_time start -> valid_time end_ ->
  (combine start < combine end_ ->
   exists l,
     time_range fuel start end_ step_minutes collect [] = Done l /\
     l = ticks (tick_count (combine start) (combine end_) (60 * step_minutes))
           (combine start) (60 * step_minutes) /\
     Forall (fun t => valid_time t /\ combine start <= combine t < combine end_) l) /\
  (combine end_ <= combine start ->
   time_range fuel start end_ step_minutes collect []
   = Done (ticks (tick_count (combine start) 86400 (60 * step_minutes))
             (combine start) (60 * step_minutes)
           ++ ticks (tick_count 0 (combine end_) (60 * step_minutes))
                0 (60 * step_minutes))).
Proof.
  intros Hf [Hs _] Vs Ve.
  pose proof (combine_range _ Vs). pose proof (combine_range _ Ve).
  split; intros Hc.
  - eexists. split; [|split; [reflexivity|]].
    + apply time_range_Done. eexists. split.
      * apply time_range_yields_same_day; assumption.
      * apply for_in_collect_nil.
    + apply ticks_bounds; reflexivity || lia.
  - apply time_range_Done. eexists. split.
    + apply time_range_yields_wrap; assumption.
    + apply for_in_collect_nil.
Qed.

Lemma time_range_yields_in_order_witness :
  exists l,
    time_range 1441%nat (mktime 9 0 0) (mktime 11 0 0) 30 collect [] = Done l /\
    l = ticks (tick_count 32400 39600 (60 * 30)) 32400 (60 * 30) /\
    Forall (fun t => valid_time t /\ 32400 <= combine t < 39600) l.
Proof.
  apply (proj1 (time_range_yields_in_order 1441%nat (mktime 9 0 0) (mktime 11 0 0) 30
                  ltac:(lia) ltac:(lia) ltac:(valid_data) ltac:(valid_data))).
  vm_compute. reflexivity.
Defined.

Lemma time_range_yields_stuck fuel start end_ step_minutes l :
  step_minutes <= 0 -> valid_time start ->
  time_range_yields fuel start end_ step_minutes <> Done l.
Proof.
  intros Hs Vs. pose proof (combine_range _ Vs).
  unfold time_range_yields, timedelta_minutes.
  change (combine (mktime 23 59 59)) with 86399.
  destruct (Z.leb_spec (combine end_) (combine start)).
  - rewrite (yields_stuck fuel (fun t => t <=? 86399) 86400); [discriminate| |lia|lia].
    intros x; cbv beta; destruct (Z.leb_spec x 86399), (Z.ltb_spec x 86400);
      reflexivity || lia.
  - rewrite (yields_stuck fuel (fun t => t <? combine end_) (combine end_));
      [discriminate|reflexivity|lia|lia].
Qed.

(** X3. With a step that is zero or negative, [time_range] never finishes:
    whatever the loop body, a [for] loop over it does not return. Hence the
    projector does not return for a person with at least one resolved day;
    with no resolved day it returns the grid as it is, the generator being
    never started. *)
Theorem nonpositive_step_never_returns fuel step_minutes :
  step_minutes <= 0 ->
  (forall (A : Type) start end_ (body : time -> A -> outcome A) acc r,
      valid_time start ->
      time_range fuel start end_ step_minutes body acc <> Done r) /\
  (forall df p r,
      valid_time (p_start p) -> day_indices (p_mode p) (p_days p) <> [] ->
      apply_person_to_grid fuel df p step_minutes <> Done r) /\
  (forall df p,
      day_indices (p_mode p) (p_days p) = [] ->
      apply_person_to_grid fuel df p step_minutes = Done df).
Proof.
  intros Hs. split; [|split].
  - intros A start end_ body acc r Vs H.
    apply time_range_Done in H as (l & Hy & _).
    eapply time_range_yields_stuck; eassumption.
  - intros df p r Vs Hd H.
    apply apply_person_Done in H as (evs & He & _). unfold person_events in He.
    destruct (day_indices (p_mode p) (p_days p)) as [|d ds]; [contradiction|].
    simpl in He. apply bind_Done in He as (e & He & _). unfold day_events in He.
    destruct (combine (p_end p) >? combine (p_start p));
      apply bind_Done in He as (l & Hy & _);
      eapply time_range_yields_stuck; eassumption.
  - intros df p Hd. unfold apply_person_to_grid. rewrite Hd. reflexivity.
Qed.

Lemma nonpositive_step_never_returns_witness :
  apply_person_to_grid 1441%nat (zero_frame (slot_times 60) DAYS)
    (mkperson "id" "Ann" "Working days" [0] (mktime 9 0 0) (mktime 17 0 0)) 0
  <> Done (zero_frame (slot_times 60) DAYS).
Proof.
  apply (proj1 (proj2 (nonpositive_step_never_returns 1441%nat 0 ltac:(lia)))).
  - valid_data.
  - vm_compute. discriminate.
Defined.

(** ** Shifts that do not start on a slot *)

Lemma slot_label step_minutes lbl :
  0 < step_minutes -> lbl ∈ slot_times step_minutes ->
  valid_time lbl /\ exists k, combine lbl = k * (60 * step_minutes).
Proof.
  intros Hs Hin. unfold slot_times in Hin.
  apply list_elem_of_fmap in Hin as (k & -> & Hk). apply elem_of_seq in Hk.
  pose proof (slot_in_day step_minutes k Hs ltac:(lia)) as Hd.
  pose proof (dt_time_minutes _ Hd) as E.
  apply dt_time_eq_iff in E as [V E]; [|lia].
  split; [assumption|]. exists (Z.of_nat k). lia.
Qed.

Lemma stepped_misaligned start stop step_minutes lbl :
  0 < step_minutes -> lbl ∈ slot_times step_minutes ->
  start mod (60 * step_minutes) <> 0 ->
  stepped start stop (60 * step_minutes) lbl = false.
Proof.
  intros Hs Hin Hm. destruct (slot_label _ _ Hs Hin) as [_ [k Hk]].
  unfold stepped.
  destruct (Z.eqb_spec ((combine lbl - start) mod (60 * step_minutes)) 0) as [E|E];
    [|rewrite andb_false_r; reflexivity].
  exfalso. apply Hm.
  apply Z.mod_divide in E as [q Hq]; [|lia].
  replace start with ((k - q) * (60 * step_minutes)) by lia.
  apply Z.mod_mul. lia.
Qed.

(** X4. For an interval of 1 to 1440 minutes, a shift that ends later than
    it starts and whose start is not a
    whole number of intervals after 00:00 adds nothing to a grid whose rows
    are the slots of that interval: the person is not counted anywhere. *)
Theorem misaligned_same_day_adds_nothing fuel df p step_minutes :
  (1440 < fuel)%nat -> 0 < step_minutes <= 1440 -> valid_person p ->
  length (columns df) = 7%nat -> index df ⊆ slot_times step_minutes ->
  combine (p_start p) < combine (p_end p) ->
  combine (p_start p) mod (60 * step_minutes) <> 0 ->
  apply_person_to_grid fuel df p step_minutes = Done df.
Proof.
  intros Hf [Hs _] Hv Hc Hidx Hlt Hm.
  rewrite apply_person_positive by assumption. f_equal.
  rewrite <- (add_counts_zero df) at 2.
  apply add_counts_ext. intros lbl c Hl.
  rewrite person_count_same_day by assumption.
  rewrite stepped_misaligned by auto. simpl. lia.
Qed.

Lemma misaligned_same_day_adds_nothing_witness :
  apply_person_to_grid 1441%nat (zero_frame (slot_times 15) DAYS)
    (mkperson "id" "Ann" "Working days" [0] (mktime 9 5 0) (mktime 17 0 0)) 15
  = Done (zero_frame (slot_times 15) DAYS).
Proof.
  apply (misaligned_same_day_adds_nothing 1441%nat (zero_frame (slot_times 15) DAYS)
           (mkperson "id" "Ann" "Working days" [0] (mktime 9 5 0) (mktime 17 0 0)) 15).
  - lia.
  - lia.
  - valid_data.
  - reflexivity.
  - vm_compute. intros x Hx. exact Hx.
  - vm_compute. reflexivity.
  - vm_compute. discriminate.
Defined.

(** X5. For an interval of 1 to 1440 minutes, an overnight shift (end after
    00:00, start before 23:59:59) whose
    start is not a whole number of intervals after 00:00 is counted only
    after midnight: nothing is added on the day it starts, and the rows
    from 00:00 below [end] of the following day receive 1. *)
Theorem misaligned_overnight_counts_next_day_only fuel df p step_minutes :
  (1440 < fuel)%nat -> 0 < step_minutes <= 1440 -> valid_person p ->
  length (columns df) = 7%nat -> index df ⊆ slot_times step_minutes ->
  0 < combine (p_end p) <= combine (p_start p) -> combine (p_start p) < 86399 ->
  combine (p_start p) mod (60 * step_minutes) <> 0 ->
  apply_person_to_grid fuel df p step_minutes
  = Done (add_counts
            (fun lbl c =>
               count_days (fun d => (d + 1) mod 7 =? Z.of_nat c)
                 (day_indices (p_mode p) (p_days p))
               * bool_to_Z (stepped 0 (combine (p_end p)) (60 * step_minutes) lbl))
            df).
Proof.
  intros Hf [Hs _] Hv Hc Hidx He Hlast Hm.
  rewrite apply_person_positive by assumption. f_equal.
  apply add_counts_ext. intros lbl c Hl.
  rewrite person_count_overnight by lia.
  unfold range_count, timedelta_minutes.
  change (combine (mktime 23 59 59)) with 86399.
  change (combine (mktime 0 0 0)) with 0.
  destruct (Z.leb_spec 86399 (combine (p_start p))); [lia|].
  destruct (Z.leb_spec (combine (p_end p)) 0); [lia|].
  rewrite stepped_misaligned by auto. simpl. lia.
Qed.

Lemma misaligned_overnight_counts_next_day_only_witness :
  apply_person_to_grid 1441%nat (zero_frame (slot_times 30) DAYS)
    (mkperson "id" "Ann" "Working days" [0] (mktime 22 10 0) (mktime 6 0 0)) 30
  = Done (add_counts
            (fun lbl c =>
               count_days (fun d => (d + 1) mod 7 =? Z.of_nat c) [0]
               * bool_to_Z (stepped 0 21600 (60 * 30) lbl))
            (zero_frame (slot_times 30) DAYS)).
Proof.
  apply (misaligned_overnight_counts_next_day_only 1441%nat
           (zero_frame (slot_times 30) DAYS)
           (mkperson "id" "Ann" "Working days" [0] (mktime 22 10 0) (mktime 6 0 0)) 30).
  - lia.
  - lia.
  - valid_data.
  - reflexivity.
  - vm_compute. intros x Hx. exact Hx.
  - vm_compute. split; [reflexivity | discriminate].
  - vm_compute. reflexivity.
  - vm_compute. discriminate.
Defined.

(** ** Day indices out of 0..6 *)

Lemma iloc_col_out_of_range d : ~ (-7 <= d < 7) -> iloc_col 7 d = None.
Proof.
  intros Hd. unfold iloc_col.
  destruct (Z.leb_spec 0 d), (Z.ltb_spec d (Z.of_nat 7)),
    (Z.leb_spec (- Z.of_nat 7) d), (Z.ltb_spec d 0); simpl; reflexivity || lia.
Qed.

Lemma first_mark_raises fuel start end_ step_minutes d df :
  fuel <> O -> valid_time start -> start ∈ index df ->
  iloc_col (length (columns df)) d = None ->
  time_range fuel start end_ step_minutes (mark d) df = Raise IndexError.
Proof.
  intros Hf Vs Hin Hd. pose proof (combine_range _ Vs) as R.
  assert (Hm : mark d (dt_time (combine start)) df = Raise IndexError).
  { rewrite dt_time_combine by assumption. unfold mark, iloc_incr.
    rewrite bool_decide_true by assumption. rewrite Hd. reflexivity. }
  destruct fuel as [|fuel]; [contradiction|].
  unfold time_range. change (combine (mktime 23 59 59)) with 86399.
  destruct (Z.leb_spec (combine end_) (combine start)); simpl.
  - destruct (Z.leb_spec (combine start) 86399); [|lia]. rewrite Hm. reflexivity.
  - destruct (Z.ltb_spec (combine start) (combine end_)); [|lia].
    rewrite Hm. reflexivity.
Qed.

(** X6. When the first resolved day is no column position (outside -7..6)
    and the shift's start is a row label of the grid, the projector raises
    [IndexError] at its first step, whatever the end of the shift and
    whatever the interval between -1440 and 1440 minutes, zero and negative
    included. *)
Theorem out_of_range_day_raises fuel df p step_minutes d ds :
  fuel <> O -> -1440 <= step_minutes <= 1440 -> length (columns df) = 7%nat ->
  day_indices (p_mode p) (p_days p) = d :: ds -> ~ (-7 <= d < 7) ->
  valid_time (p_start p) -> p_start p ∈ index df ->
  apply_person_to_grid fuel df p step_minutes = Raise IndexError.
Proof.
  intros Hf _ Hc Hdays Hd Vs Hin.
  unfold apply_person_to_grid. rewrite Hdays. cbn [for_in]. unfold apply_day.
  assert (Hcol : iloc_col (length (columns df)) d = None).
  { rewrite Hc. apply iloc_col_out_of_range. assumption. }
  destruct (combine (p_end p) >? combine (p_start p));
    rewrite first_mark_raises by assumption; reflexivity.
Qed.

Lemma out_of_range_day_raises_witness :
  apply_person_to_grid 1%nat (zero_frame (slot_times 60) DAYS)
    (mkperson "id" "Ann" "Working days" [7; 0] (mktime 9 0 0) (mktime 17 0 0)) 0
  = Raise IndexError.
Proof.
  apply (out_of_range_day_raises 1%nat (zero_frame (slot_times 60) DAYS)
           (mkperson "id" "Ann" "Working days" [7; 0] (mktime 9 0 0) (mktime 17 0 0))
           0 7 [0]).
  - discriminate.
  - lia.
  - reflexivity.
  - reflexivity.
  - lia.
  - valid_data.
  - vm_compute. repeat constructor.
Defined.

Section loops_that_keep_an_invariant.
Context {A : Type} (I : A -> Prop) (f g : time -> A -> outcome A).
Hypothesis same_body : forall tt a, I a -> f tt a = g tt a.
Hypothesis body_keeps : forall tt a a', I a -> f tt a = Done a' -> I a'.

Lemma while_yield_ext_inv fuel cond step t acc :
  I acc ->
  while_yield fuel cond step t f acc = while_yield fuel cond step t g acc /\
  (forall r, while_yield fuel cond step t f acc = Done r -> I r).
Proof.
  revert t acc. induction fuel as [|fuel IH]; intros t acc Hacc; simpl.
  - split; [reflexivity | discriminate].
  - destruct (cond t).
    + rewrite <- same_body by assumption.
      destruct (f (dt_time t) acc) as [a'| |] eqn:Ef; simpl.
      * apply IH. eapply body_keeps; eassumption.
      * split; [reflexivity | discriminate].
      * split; [reflexivity | discriminate].
    + split; [reflexivity|]. intros r [= <-]. assumption.
Qed.

Lemma time_range_ext_inv fuel start end_ step_minutes acc :
  I acc ->
  time_range fuel start end_ step_minutes f acc
  = time_range fuel start end_ step_minutes g acc /\
  (forall r, time_range fuel start end_ step_minutes f acc = Done r -> I r).
Proof.
  intros Hacc. unfold time_range.
  destruct (combine end_ <=? combine start).
  - destruct (while_yield_ext_inv fuel
                (fun t => t <=? combine (mktime 23 59 59))
                (timedelta_minutes step_minutes) (combine start) acc Hacc)
      as [<- Hk].
    destruct (while_yield fuel _ _ (combine start) f acc) as [a'| |]; simpl.
    + apply while_yield_ext_inv. apply Hk. reflexivity.
    + split; [reflexivity | discriminate].
    + split; [reflexivity | discriminate].
  - apply while_yield_ext_inv. assumption.
Qed.

End loops_that_keep_an_invariant.

Lemma mark_keeps_columns d tt df df' :
  mark d tt df = Done df' -> length (columns df') = length (columns df).
Proof. intros H. apply mark_Done in H as [_ ->]. reflexivity. Qed.

Lemma iloc_col_mod7 d : -7 <= d < 7 -> iloc_col 7 (d mod 7) = iloc_col 7 d.
Proof.
  intros Hd. destruct (Z.lt_ge_cases d 0) as [Hn|Hp].
  - assert (E : d mod 7 = d + 7).
    { symmetry. apply (Z.mod_unique d 7 (-1)); lia. }
    rewrite E. unfold iloc_col.
    destruct (Z.leb_spec 0 (d + 7)), (Z.ltb_spec (d + 7) (Z.of_nat 7)),
      (Z.leb_spec 0 d), (Z.leb_spec (- Z.of_nat 7) d), (Z.ltb_spec d 0);
      simpl; reflexivity || lia.
  - rewrite Z.mod_small by lia. reflexivity.
Qed.

Lemma mark_mod7 d tt df :
  length (columns df) = 7%nat -> -7 <= d < 7 -> mark d tt df = mark (d mod 7) tt df.
Proof.
  intros Hc Hd. unfold mark, iloc_incr. rewrite Hc, iloc_col_mod7 by assumption.
  reflexivity.
Qed.

Lemma apply_day_mod7 fuel start_t end_t step_minutes d df :
  length (columns df) = 7%nat -> -7 <= d < 7 ->
  apply_day fuel start_t end_t step_minutes d df
  = apply_day fuel start_t end_t step_minutes (d mod 7) df /\
  (forall r, apply_day fuel start_t end_t step_minutes d df = Done r ->
             length (columns r) = 7%nat).
Proof.
  intros Hc Hd.
  assert (Hkeep : forall e tt (a a' : DataFrame),
             length (columns a) = 7%nat -> mark e tt a = Done a' ->
             length (columns a') = 7%nat).
  { intros e tt a a' Ha Hm. rewrite (mark_keeps_columns _ _ _ _ Hm). exact Ha. }
  unfold apply_day. destruct (combine end_t >? combine start_t).
  - apply (time_range_ext_inv (fun a => length (columns a) = 7%nat));
      [|apply Hkeep|assumption].
    intros tt a Ha. apply mark_mod7; assumption.
  - destruct (time_range_ext_inv (fun a => length (columns a) = 7%nat)
                (mark d) (mark (d mod 7))
                (fun tt a Ha => mark_mod7 d tt a Ha Hd) (Hkeep d)
                fuel start_t (mktime 23 59 59) step_minutes df Hc) as [<- Hk].
    destruct (time_range fuel start_t (mktime 23 59 59) step_minutes (mark d) df)
      as [df'| |]; simpl.
    + rewrite Z.add_mod_idemp_l by lia.
      split; [reflexivity|]. intros r Hr.
      eapply (time_range_ext_inv (fun a => length (columns a) = 7%nat)
                (mark ((d + 1) mod 7)) (mark ((d + 1) mod 7)));
        [reflexivity | apply Hkeep | | exact Hr].
      apply Hk. reflexivity.
    + split; [reflexivity | discriminate].
    + split; [reflexivity | discriminate].
Qed.

(** X7. On a grid of seven columns a negative day index counts from the
    end, as Python's positions do: for day indices in -7..6 the projector
    does the same (same grid, same exception, same divergence) as for the
    indices reduced modulo 7, so that -1 is Sunday. *)
Theorem negative_day_counts_from_the_end
    fuel df id name days start_t end_t step_minutes :
  length (columns df) = 7%nat -> Forall (fun d => -7 <= d < 7) days ->
  apply_person_to_grid fuel df
    (mkperson id name "Working days" days start_t end_t) step_minutes
  = apply_person_to_grid fuel df
      (mkperson id name "Working days" ((fun d => d mod 7) <$> days) start_t end_t)
      step_minutes.
Proof.
  intros Hc Hd. unfold apply_person_to_grid. cbn [p_mode p_days p_start p_end].
  change (day_indices "Working days" days) with days.
  change (day_indices "Working days" ((fun d => d mod 7) <$> days))
    with ((fun d => d mod 7) <$> days).
  revert df Hc. induction Hd as [|d days Hd _ IH]; intros df Hc; [reflexivity|].
  rewrite fmap_cons. cbn [for_in]. cbv beta.
  destruct (apply_day_mod7 fuel start_t end_t step_minutes d df Hc Hd) as [<- Hk].
  destruct (apply_day fuel start_t end_t step_minutes d df) as [df'| |];
    simpl; [|reflexivity|reflexivity].
  apply IH. apply Hk. reflexivity.
Qed.

Lemma negative_day_counts_from_the_end_witness :
  apply_person_to_grid 30%nat (zero_frame (slot_times 60) DAYS)
    (mkperson "id" "Ann" "Working days" [-1; 2] (mktime 22 0 0) (mktime 6 0 0)) 60
  = apply_person_to_grid 30%nat (zero_frame (slot_times 60) DAYS)
      (mkperson "id" "Ann" "Working days" ((fun d => d mod 7) <$> [-1; 2])
         (mktime 22 0 0) (mktime 6 0 0)) 60.
Proof.
  apply (negative_day_counts_from_the_end 30%nat (zero_frame (slot_times 60) DAYS)
           "id" "Ann" [-1; 2] (mktime 22 0 0) (mktime 6 0 0) 60).
  - reflexivity.
  - repeat constructor; lia.
Defined.

(** ** The grid that [build_empty_grid] returns *)

Lemma build_times_Done fuel t end_ step times l :
  0 < step -> build_times fuel t end_ step times = Done l ->
  l = times ++ ticks (tick_count t end_ step) t step.
Proof.
  intros Hs. revert t times. induction fuel as [|fuel IH]; intros t times;
    simpl; [discriminate|].
  destruct (Z.ltb_spec t end_) as [Hlt|Hge].
  - intros H. apply IH in H. rewrite H, (tick_count_step t end_ step) by assumption.
    simpl. rewrite <- app_assoc. reflexivity.
  - intros [= <-]. rewrite tick_count_done by lia. simpl.
    rewrite app_nil_r. reflexivity.
Qed.

Lemma ticks_slot_times step_minutes :
  0 < step_minutes ->
  ticks (tick_count 0 86400 (60 * step_minutes)) 0 (60 * step_minutes)
  = slot_times step_minutes.
Proof.
  intros Hs. rewrite tick_count_slots, ticks_fmap by assumption. unfold slot_times.
  apply list_fmap_ext. intros i k Hk.
  apply lookup_seq in Hk as [-> Hk]. simpl.
  rewrite <- dt_time_minutes by (apply slot_in_day; assumption).
  f_equal. lia.
Qed.

Lemma build_empty_grid_Done fuel step_minutes g :
  build_empty_grid fuel step_minutes = Done g ->
  0 < step_minutes /\ g = zero_frame (slot_times step_minutes) DAYS.
Proof.
  intros H. destruct (Z.lt_ge_cases 0 step_minutes) as [Hs|Hs].
  - split; [assumption|]. unfold build_empty_grid in H.
    apply bind_Done in H as (times & Ht & [= <-]).
    apply build_times_Done in Ht; [|unfold timedelta_minutes; lia].
    rewrite Ht. unfold timedelta_days, timedelta_minutes.
    change (combine (mktime 0 0 0) + 86400 * 1) with 86400.
    change (combine (mktime 0 0 0)) with 0.
    rewrite ticks_slot_times by assumption. reflexivity.
  - rewrite build_empty_grid_stuck in H by assumption. discriminate.
Qed.

Lemma combine_minutes_time m : 0 <= m < 1440 -> combine (minutes_time m) = 60 * m.
Proof.
  intros Hm. rewrite <- dt_time_minutes, combine_dt_time by assumption.
  apply Z.mod_small. lia.
Qed.

Lemma slot_times_NoDup step_minutes : 0 < step_minutes -> NoDup (slot_times step_minutes).
Proof.
  intros Hs. unfold slot_times. apply NoDup_fmap_2_strong; [|apply NoDup_seq].
  intros x y Hx Hy E. apply elem_of_seq in Hx, Hy.
  apply (f_equal combine) in E.
  rewrite !combine_minutes_time in E by (apply slot_in_day; lia || assumption).
  nia.
Qed.

Lemma slot_times_whole_minutes step_minutes :
  0 < step_minutes ->
  Forall (fun t => valid_time t /\ second t = 0) (slot_times step_minutes).
Proof.
  intros Hs. apply Forall_forall. intros t Ht.
  destruct (slot_label _ _ Hs Ht) as [V _]. split; [assumption|].
  unfold slot_times in Ht. apply list_elem_of_fmap in Ht as (k & -> & _).
  reflexivity.
Qed.

(** X8. Whenever [build_empty_grid] returns, the interval is positive and
    the grid is the same whatever the fuel: its columns are the seven
    weekdays, its row labels are pairwise distinct valid times on whole
    minutes, the first of them 00:00, and every row holds seven zeros. *)
Theorem built_grid_well_formed fuel step_minutes g :
  build_empty_grid fuel step_minutes = Done g ->
  0 < step_minutes /\
  columns g = DAYS /\
  NoDup (index g) /\
  Forall (fun t => valid_time t /\ second t = 0) (index g) /\
  index g !! 0%nat = Some (mktime 0 0 0) /\
  Forall (fun r : time * list Z => r.2 = [0; 0; 0; 0; 0; 0; 0]) (rows g).
Proof.
  intros H. apply build_empty_grid_Done in H as [Hs ->].
  assert (Hi : index (zero_frame (slot_times step_minutes) DAYS)
               = slot_times step_minutes).
  { unfold index, zero_frame; simpl. rewrite <- list_fmap_compose.
    rewrite <- (list_fmap_id (slot_times step_minutes)) at 2.
    apply list_fmap_ext. reflexivity. }
  split; [assumption|]. split; [reflexivity|]. rewrite Hi.
  split; [apply slot_times_NoDup; assumption|].
  split; [apply slot_times_whole_minutes; assumption|]. split.
  - unfold slot_times, slot_count.
    assert (Hq : 1 <= (1440 + step_minutes - 1) / step_minutes).
    { apply Z.div_le_lower_bound; lia. }
    destruct (Z.to_nat ((1440 + step_minutes - 1) / step_minutes)) as [|n] eqn:En;
      [lia|].
    reflexivity.
  - unfold zero_frame; simpl. apply Forall_fmap, Forall_true. reflexivity.
Qed.

Lemma built_grid_well_formed_witness :
  exists g,
    build_empty_grid 49%nat 30 = Done g /\
    0 < 30 /\
    columns g = DAYS /\
    NoDup (index g) /\
    Forall (fun t => valid_time t /\ second t = 0) (index g) /\
    index g !! 0%nat = Some (mktime 0 0 0) /\
    Forall (fun r : time * list Z => r.2 = [0; 0; 0; 0; 0; 0; 0]) (rows g).
Proof.
  eexists. split; [vm_compute; reflexivity|].
  apply (built_grid_well_formed 49%nat 30). vm_compute. reflexivity.
Defined.

(** ** Aggregation is additive *)

Lemma people_count_app step_minutes l1 l2 lbl c :
  people_count step_minutes (l1 ++ l2) lbl c
  = people_count step_minutes l1 lbl c + people_count step_minutes l2 lbl c.
Proof. induction l1 as [|p l1 IH]; simpl; lia. Qed.

Lemma frame_add_counts f g times cols :
  frame_add (add_counts f (zero_frame times cols)) (add_counts g (zero_frame times cols))
  = add_counts (fun lbl c => f lbl c + g lbl c) (zero_frame times cols).
Proof.
  unfold frame_add, add_counts, zero_frame; simpl. f_equal.
  induction times as [|t times IH]; [reflexivity|].
  rewrite !fmap_cons. cbn [zip_with]. rewrite IH. f_equal.
  cbn [fst snd]. f_equal.
  apply list_eq. intros c.
  rewrite lookup_zip_with, !list_lookup_imap.
  destruct (replicate (length cols) 0 !! c) as [v|] eqn:Ev; simpl; [|reflexivity].
  apply lookup_replicate in Ev as [-> _]. f_equal; lia.
Qed.

(** X9. With an interval of 1 to 1440 minutes and valid people, the grid
    aggregated for
    a list of people followed by another list is, cell by cell, the sum of
    the grids aggregated for the two lists. *)
Theorem staffing_grid_additive fuel step_minutes people1 people2 :
  (1440 < fuel)%nat -> 0 < step_minutes <= 1440 ->
  Forall valid_person people1 -> Forall valid_person people2 ->
  exists g1 g2,
    staffing_grid fuel people1 step_minutes = Done g1 /\
    staffing_grid fuel people2 step_minutes = Done g2 /\
    staffing_grid fuel (people1 ++ people2) step_minutes = Done (frame_add g1 g2).
Proof.
  intros Hf [Hs _] H1 H2. eexists. eexists.
  split; [apply staffing_grid_positive; assumption|].
  split; [apply staffing_grid_positive; assumption|].
  rewrite staffing_grid_positive; [|assumption|assumption|apply Forall_app; auto].
  f_equal. rewrite frame_add_counts.
  apply add_counts_ext. intros lbl c _. apply people_count_app.
Qed.

Lemma staffing_grid_additive_witness :
  exists g1 g2,
    staffing_grid 1441%nat
      [mkperson "1" "Ann" "Working days" [0; 1] (mktime 9 0 0) (mktime 17 0 0)] 30
    = Done g1 /\
    staffing_grid 1441%nat
      [mkperson "2" "Bob" "Days off" [5; 6] (mktime 22 0 0) (mktime 6 0 0)] 30
    = Done g2 /\
    staffing_grid 1441%nat
      ([mkperson "1" "Ann" "Working days" [0; 1] (mktime 9 0 0) (mktime 17 0 0)]
       ++ [mkperson "2" "Bob" "Days off" [5; 6] (mktime 22 0 0) (mktime 6 0 0)]) 30
    = Done (frame_add g1 g2).
Proof.
  apply (staffing_grid_additive 1441%nat 30
           [mkperson "1" "Ann" "Working days" [0; 1] (mktime 9 0 0) (mktime 17 0 0)]
           [mkperson "2" "Bob" "Days off" [5; 6] (mktime 22 0 0) (mktime 6 0 0)]).
  - lia.
  - lia.
  - valid_data.
  - valid_data.
Defined.

(** ** Editing and removing records *)

Lemma next_with_id_split target l p :
  next_with_id target l = Some p ->
  exists l1 l2,
    l = l1 ++ p :: l2 /\ p_id p = target /\ Forall (fun x => p_id x <> target) l1.
Proof.
  induction l as [|x l IH]; simpl; [discriminate|].
  destruct (String.eqb_spec (p_id x) target) as [E|E].
  - intros [= <-]. exists [], l. auto.
  - intros H. destruct (IH H) as (l1 & l2 & -> & Hp & Hl1).
    exists (x :: l1), l2. auto.
Qed.

Lemma Forall_replace_first (P : person -> Prop) id payload l :
  P payload -> Forall P l -> Forall P (replace_first id payload l).
Proof.
  intros Hp. induction 1 as [|x l Hx Hl IH]; simpl; [constructor|].
  destruct (String.eqb (p_id x) id); auto.
Qed.

Lemma ids_replace_first id payload l :
  p_id payload = id -> p_id <$> replace_first id payload l = p_id <$> l.
Proof.
  intros Hp. induction l as [|x l IH]; [reflexivity|]. cbn [replace_first].
  destruct (String.eqb_spec (p_id x) id) as [E|E]; rewrite !fmap_cons.
  - rewrite Hp, E. reflexivity.
  - rewrite IH. reflexivity.
Qed.

(** X10. Editing. After "Load into form" succeeded for the record with id
    [target], an add/update that passes validation puts the record built
    from the form, with the id [target], in the place of the first record
    with that id: the records before and after it, the order and the number
    of records are as they were, and the edit is over. *)
Theorem edit_replaces_in_place uuid4 f s target interval s1 d :
  target <> "(select)"%string -> target <> ""%string ->
  load_into_form target interval s = Loaded s1 d ->
  strip (f_name f) <> ""%string -> f_start_t f <> f_end_t f ->
  Forall (fun x => x ∈ DAYS) (f_days_pick f) ->
  exists days l1 q l2,
    day_list (f_days_pick f) = Done days /\
    people s = l1 ++ q :: l2 /\ p_id q = target /\
    Forall (fun x => p_id x <> target) l1 /\
    add_update uuid4 f s1
    = Done (mkreply
              (mksession
                 (l1 ++ mkperson target (strip (f_name f)) (f_mode f) days
                          (f_start_t f) (f_end_t f) :: l2)
                 None)
              None true).
Proof.
  intros Hsel Hne Hload Hn Ht Hd.
  destruct (load_into_form_Loaded _ _ _ _ _ Hsel Hload) as (-> & p & Hp).
  destruct (next_with_id_split _ _ _ Hp) as (l1 & l2 & Hl & Hid & Hl1).
  destruct (day_list_days _ Hd) as (days & Hdays & _).
  exists days, l1, p, l2. split; [assumption|]. split; [assumption|].
  split; [assumption|]. split; [assumption|].
  unfold add_update.
  rewrite (proj2 (String.eqb_neq _ _) Hn), bool_decide_false by assumption.
  rewrite Hdays. simpl. rewrite (proj2 (String.eqb_neq _ _) Hne), Hl.
  rewrite replace_first_split by assumption. reflexivity.
Qed.

Lemma edit_replaces_in_place_witness :
  exists days l1 q l2,
    day_list ["Friday"%string] = Done days /\
    [mkperson "u1" "Ann" "Days off" [5; 6] (mktime 8 0 0) (mktime 16 0 0);
     mkperson "u2" "Bob" "Working days" [0] (mktime 9 0 0) (mktime 17 0 0)]
    = l1 ++ q :: l2 /\
    p_id q = "u2"%string /\
    Forall (fun x => p_id x <> "u2"%string) l1 /\
    add_update "u3"
      (mkform "Working days" " Rob " ["Friday"%string] (mktime 10 0 0) (mktime 18 0 0))
      (mksession
         [mkperson "u1" "Ann" "Days off" [5; 6] (mktime 8 0 0) (mktime 16 0 0);
          mkperson "u2" "Bob" "Working days" [0] (mktime 9 0 0) (mktime 17 0 0)]
         (Some "u2"%string))
    = Done (mkreply
              (mksession
                 (l1 ++ mkperson "u2" "Rob" "Working days" days
                          (mktime 10 0 0) (mktime 18 0 0) :: l2)
                 None)
              None true).
Proof.
  apply (edit_replaces_in_place "u3"
           (mkform "Working days" " Rob " ["Friday"%string]
              (mktime 10 0 0) (mktime 18 0 0))
           (mksession
              [mkperson "u1" "Ann" "Days off" [5; 6] (mktime 8 0 0) (mktime 16 0 0);
               mkperson "u2" "Bob" "Working days" [0] (mktime 9 0 0) (mktime 17 0 0)]
              None)
           "u2" 30
           (mksession
              [mkperson "u1" "Ann" "Days off" [5; 6] (mktime 8 0 0) (mktime 16 0 0);
               mkperson "u2" "Bob" "Working days" [0] (mktime 9 0 0) (mktime 17 0 0)]
              (Some "u2"%string))
           (Some (mkdefaults "Working days" 30 "Bob" ["Monday"%string]
                    (mktime 9 0 0) (mktime 17 0 0)))).
  - discriminate.
  - discriminate.
  - vm_compute. reflexivity.
  - vm_compute. discriminate.
  - vm_compute. discriminate.
  - repeat constructor.
Defined.

(** X11. "Remove" leaves [edit_id] as it is. When the record being edited
    is removed after "Load into form", the next add/update that passes
    validation stores nothing: it neither appends the record built from
    the form nor replaces any record, and it ends the edit. *)
Theorem removed_while_editing_loses_submission uuid4 f s target interval s1 d :
  target <> "(select)"%string -> target <> ""%string ->
  load_into_form target interval s = Loaded s1 d ->
  strip (f_name f) <> ""%string -> f_start_t f <> f_end_t f ->
  Forall (fun x => x ∈ DAYS) (f_days_pick f) ->
  edit_id (remove_person target s1) = Some target /\
  Forall (fun x => p_id x <> target) (people (remove_person target s1)) /\
  add_update uuid4 f (remove_person target s1)
  = Done (mkreply (mksession (people (remove_person target s1)) None) None true).
Proof.
  intros Hsel Hne Hload Hn Ht Hd.
  destruct (load_into_form_Loaded _ _ _ _ _ Hsel Hload) as (-> & _).
  destruct (day_list_days _ Hd) as (days & Hdays & _).
  unfold remove_person. rewrite (proj2 (String.eqb_neq _ _) Hsel). simpl.
  split; [reflexivity|]. split; [apply filter_drops_id|].
  unfold add_update.
  rewrite (proj2 (String.eqb_neq _ _) Hn), bool_decide_false by assumption.
  rewrite Hdays. simpl.
  rewrite replace_first_absent by apply filter_drops_id. reflexivity.
Qed.

Lemma removed_while_editing_loses_submission_witness :
  add_update "u3"
    (mkform "Working days" "Rob" ["Friday"%string] (mktime 10 0 0) (mktime 18 0 0))
    (remove_person "u2"
       (mksession
          [mkperson "u1" "Ann" "Days off" [5; 6] (mktime 8 0 0) (mktime 16 0 0);
           mkperson "u2" "Bob" "Working days" [0] (mktime 9 0 0) (mktime 17 0 0)]
          (Some "u2"%string)))
  = Done (mkreply
            (mksession
               [mkperson "u1" "Ann" "Days off" [5; 6] (mktime 8 0 0) (mktime 16 0 0)]
               None)
            None true).
Proof.
  apply (removed_while_editing_loses_submission "u3"
           (mkform "Working days" "Rob" ["Friday"%string]
              (mktime 10 0 0) (mktime 18 0 0))
           (mksession
              [mkperson "u1" "Ann" "Days off" [5; 6] (mktime 8 0 0) (mktime 16 0 0);
               mkperson "u2" "Bob" "Working days" [0] (mktime 9 0 0) (mktime 17 0 0)]
              None)
           "u2" 30
           (mksession
              [mkperson "u1" "Ann" "Days off" [5; 6] (mktime 8 0 0) (mktime 16 0 0);
               mkperson "u2" "Bob" "Working days" [0] (mktime 9 0 0) (mktime 17 0 0)]
              (Some "u2"%string))
           (Some (mkdefaults "Working days" 30 "Bob" ["Monday"%string]
                    (mktime 9 0 0) (mktime 17 0 0)))).
  - discriminate.
  - discriminate.
  - vm_compute. reflexivity.
  - vm_compute. discriminate.
  - vm_compute. discriminate.
  - repeat constructor.
Defined.

(** ** Ids stay unique *)

Lemma ids_filter_NoDup target (l : list person) :
  NoDup (p_id <$> l) ->
  NoDup (p_id <$> List.filter (fun p => negb (String.eqb (p_id p) target)) l).
Proof.
  induction l as [|x l IH]; [intros; constructor|].
  rewrite fmap_cons, NoDup_cons. intros [Hx Hl]. cbn [List.filter].
  destruct (negb (String.eqb (p_id x) target)); [|auto].
  rewrite fmap_cons, NoDup_cons. split; [|auto].
  intros Hin. apply Hx.
  apply list_elem_of_fmap in Hin as (y & Hy & Hin). apply list_elem_of_fmap.
  exists y. split; [assumption|].
  apply list_elem_of_In. apply list_elem_of_In in Hin.
  apply List.filter_In in Hin. tauto.
Qed.

Lemma ids_filter_subset target (l : list person) i :
  i ∈ p_id <$> List.filter (fun p => negb (String.eqb (p_id p) target)) l ->
  i ∈ p_id <$> l.
Proof.
  intros Hin. apply list_elem_of_fmap in Hin as (y & Hy & Hin).
  apply list_elem_of_fmap. exists y. split; [assumption|].
  apply list_elem_of_In. apply list_elem_of_In in Hin.
  apply List.filter_In in Hin. tauto.
Qed.

(** X12. The ids of the stored records stay pairwise distinct and
    non-empty: if they are so before, they are so after an add/update that
    draws an id that is fresh and not empty, and after a removal. An
    add/update that ends an edit leaves the list of ids as it was. *)
Theorem ids_stay_unique uuid4 s :
  NoDup (ids s) -> ""%string ∉ ids s -> uuid4 ∉ ids s -> uuid4 <> ""%string ->
  (forall f r,
      add_update uuid4 f s = Done r ->
      NoDup (ids (r_state r)) /\ (""%string ∉ ids (r_state r)) /\
      (edit_id s <> None -> ids (r_state r) = ids s)) /\
  (forall target,
      NoDup (ids (remove_person target s)) /\
      (""%string ∉ ids (remove_person target s))).
Proof.
  intros Hnd Hne Hfresh Hu. split.
  - intros f r. unfold add_update.
    destruct (String.eqb (strip (f_name f)) "");
      [intros [= <-]; auto|].
    destruct (bool_decide (f_start_t f = f_end_t f));
      [intros [= <-]; auto|].
    destruct (day_list (f_days_pick f)) as [days| |]; simpl; [|discriminate..].
    destruct (edit_id s) as [id|] eqn:Eid.
    + intros [= <-]. unfold ids; simpl.
      destruct (String.eqb_spec id "") as [->|Hid].
      * rewrite replace_first_absent; [auto|].
        apply Forall_forall. intros x Hx E. apply Hne.
        unfold ids. apply list_elem_of_fmap. exists x. auto.
      * rewrite ids_replace_first by reflexivity. auto.
    + intros [= <-]. unfold ids in *; simpl. rewrite fmap_app. simpl.
      split; [|split; [|congruence]].
      * apply NoDup_app. split; [assumption|]. split; [|apply NoDup_singleton].
        intros x Hx Hx'. apply list_elem_of_singleton in Hx'. subst. auto.
      * rewrite elem_of_app, list_elem_of_singleton. intros [H|H]; auto.
  - intros target. unfold remove_person, ids.
    destruct (String.eqb target "(select)"); [auto|]. simpl. split.
    + apply ids_filter_NoDup. assumption.
    + intros H. apply Hne. eapply ids_filter_subset. eassumption.
Qed.

Lemma ids_stay_unique_witness :
  NoDup
    (ids (mksession
            ([mkperson "u1" "Ann" "Days off" [5; 6] (mktime 8 0 0) (mktime 16 0 0)]
             ++ [mkperson "u2" "Bob" "Working days" [0] (mktime 9 0 0) (mktime 17 0 0)])
            None)).
Proof.
  apply (proj1 (ids_stay_unique "u2"
                  (mksession
                     [mkperson "u1" "Ann" "Days off" [5; 6] (mktime 8 0 0) (mktime 16 0 0)]
                     None)
                  ltac:(apply NoDup_singleton)
                  ltac:(intros H; apply list_elem_of_singleton in H; discriminate)
                  ltac:(intros H; apply list_elem_of_singleton in H; discriminate)
                  ltac:(discriminate))
           (mkform "Working days" "Bob" ["Monday"%string] (mktime 9 0 0) (mktime 17 0 0))
           _ eq_refl).
Defined.

(** ** Stored records can always be projected *)

Lemma stored_ok_valid_person p : stored_ok p -> valid_person p.
Proof.
  intros (_ & _ & Vs & Ve & Hd). split; [assumption|]. split; [assumption|].
  unfold day_indices. destruct (String.eqb (p_mode p) "Working days"); [assumption|].
  apply Forall_forall. intros i Hi. apply list_elem_of_filter in Hi as [_ Hi].
  apply list_elem_of_fmap in Hi as (k & -> & Hk). apply elem_of_seq in Hk.
  unfold weekday. lia.
Qed.

(** X13. If every stored record has a non-empty name, a start different
    from its end, valid times and days in 0..6, then an add/update with
    valid times and days picked among the weekday names returns, the
    records it leaves are again of that kind, and the staffing grid of the
    people it leaves is built for every interval of 1 to 1440 minutes: the
    projector is never run on a shift whose start equals its end. *)
Theorem add_update_keeps_records_projectable uuid4 f s :
  Forall stored_ok (people s) ->
  valid_time (f_start_t f) -> valid_time (f_end_t f) ->
  Forall (fun x => x ∈ DAYS) (f_days_pick f) ->
  exists r,
    add_update uuid4 f s = Done r /\
    Forall stored_ok (people (r_state r)) /\
    forall fuel interval,
      (1440 < fuel)%nat -> 0 < interval <= 1440 ->
      exists g, staffing_grid fuel (people (r_state r)) interval = Done g.
Proof.
  intros Hs Vs Ve Hd.
  assert (Hgrid : forall l, Forall stored_ok l ->
            forall fuel interval, (1440 < fuel)%nat -> 0 < interval <= 1440 ->
              exists g, staffing_grid fuel l interval = Done g).
  { intros l Hl fuel interval Hf [Hi _]. eexists.
    apply staffing_grid_positive; [assumption..|].
    eapply Forall_impl; [exact Hl|]. apply stored_ok_valid_person. }
  unfold add_update.
  destruct (String.eqb_spec (strip (f_name f)) "") as [En|En];
    [eexists; split; [reflexivity|]; split; [exact Hs | apply Hgrid, Hs]|].
  destruct (bool_decide_reflect (f_start_t f = f_end_t f)) as [Et|Et];
    [eexists; split; [reflexivity|]; split; [exact Hs | apply Hgrid, Hs]|].
  destruct (day_list_days _ Hd) as (days & -> & Hdays). simpl.
  assert (Hp : forall id, stored_ok
            (mkperson id (strip (f_name f)) (f_mode f) days (f_start_t f) (f_end_t f))).
  { intros id. unfold stored_ok; simpl.
    split; [assumption|]. split; [assumption|]. split; [assumption|].
    split; [assumption|].
    clear -Hdays. induction Hdays as [|d i ds days [Hi _] _ IH]; constructor; auto. }
  destruct (edit_id s) as [id|]; eexists; (split; [reflexivity|]); simpl.
  - assert (H : Forall stored_ok
               (replace_first id
                  (mkperson (if String.eqb id "" then uuid4 else id)
                     (strip (f_name f)) (f_mode f) days (f_start_t f) (f_end_t f))
                  (people s))) by (apply Forall_replace_first; auto).
    split; [exact H | apply Hgrid, H].
  - assert (H : Forall stored_ok
               (people s
                ++ [mkperson uuid4 (strip (f_name f)) (f_mode f) days
                      (f_start_t f) (f_end_t f)])).
    { apply Forall_app. split; [assumption|]. constructor; [apply Hp | constructor]. }
    split; [exact H | apply Hgrid, H].
Qed.

Lemma add_update_keeps_records_projectable_witness :
  exists r,
    add_update "u2"
      (mkform "Days off" "Bob" ["Monday"%string] (mktime 22 0 0) (mktime 6 0 0))
      (mksession
         [mkperson "u1" "Ann" "Days off" [5; 6] (mktime 8 0 0) (mktime 16 0 0)] None)
    = Done r /\
    Forall stored_ok (people (r_state r)) /\
    forall fuel interval,
      (1440 < fuel)%nat -> 0 < interval <= 1440 ->
      exists g, staffing_grid fuel (people (r_state r)) interval = Done g.
Proof.
  apply (add_update_keeps_records_projectable "u2"
           (mkform "Days off" "Bob" ["Monday"%string] (mktime 22 0 0) (mktime 6 0 0))
           (mksession
              [mkperson "u1" "Ann" "Days off" [5; 6] (mktime 8 0 0) (mktime 16 0 0)]
              None)).
  - repeat constructor; simpl; try discriminate; unfold weekday; simpl; lia.
  - valid_data.
  - valid_data.
  - repeat constructor.
Defined.

(** ** Stripping the name *)

Lemma string_app_nil_r (s : string) : (s ++ "")%string = s.
Proof. induction s as [|c s IH]; simpl; [reflexivity|]. rewrite IH. reflexivity. Qed.

Lemma string_app_assoc (a b c : string) :
  ((a ++ b) ++ c)%string = (a ++ (b ++ c))%string.
Proof. induction a as [|x a IH]; simpl; [reflexivity|]. rewrite IH. reflexivity. Qed.

Lemma string_length_app (a b : string) :
  String.length (a ++ b) = (String.length a + String.length b)%nat.
Proof. induction a as [|x a IH]; simpl; [reflexivity|]. rewrite IH. reflexivity. Qed.

Lemma string_rev_app (a b : string) :
  string_rev (a ++ b) = (string_rev b ++ string_rev a)%string.
Proof.
  induction a as [|x a IH]; simpl.
  - rewrite string_app_nil_r. reflexivity.
  - rewrite IH, string_app_assoc. reflexivity.
Qed.

Lemma string_rev_involutive (s : string) : string_rev (string_rev s) = s.
Proof.
  induction s as [|c s IH]; simpl; [reflexivity|].
  rewrite string_rev_app, IH. reflexivity.
Qed.

Lemma made_of_app W (a b : string) :
  made_of W a -> made_of W b -> made_of W (a ++ b).
Proof.
  induction 1 as [|w a Hw _ IH]; intros Hb; [exact Hb|].
  rewrite string_app_assoc. constructor; auto.
Qed.

Lemma made_of_one W w : w ∈ W -> made_of W w.
Proof.
  intros Hw. rewrite <- (string_app_nil_r w). constructor; [assumption | constructor].
Qed.

Lemma made_of_rev W (s : string) :
  made_of (string_rev <$> W) s -> made_of W (string_rev s).
Proof.
  induction 1 as [|w s Hw _ IH]; [constructor|].
  apply list_elem_of_fmap in Hw as (v & -> & Hv).
  rewrite string_rev_app, string_rev_involutive.
  apply made_of_app; [assumption | apply made_of_one; assumption].
Qed.

Section strip_start_facts.
Context (one : ascii -> bool) (two : ascii -> ascii -> bool)
  (three : ascii -> ascii -> ascii -> bool) (W : list string).
Hypothesis one_in : forall c, one c = true -> String c "" ∈ W.
Hypothesis two_in : forall c1 c2, two c1 c2 = true -> String c1 (String c2 "") ∈ W.
Hypothesis three_in :
  forall c1 c2 c3, three c1 c2 c3 = true -> String c1 (String c2 (String c3 "")) ∈ W.
Hypothesis eats :
  forall w r, w ∈ W -> strip_start one two three (w ++ r) = strip_start one two three r.
Hypothesis not_empty : ""%string ∉ W.

Lemma strip_start_step (s : string) :
  strip_start one two three s = s \/
  exists w r,
    w ∈ W /\ s = (w ++ r)%string /\
    strip_start one two three s = strip_start one two three r.
Proof.
  destruct s as [|c1 s1]; [left; reflexivity|].
  cbn [strip_start]. destruct (one c1) eqn:E1.
  { right. exists (String c1 ""), s1. auto. }
  destruct s1 as [|c2 s2]; [left; reflexivity|].
  destruct (two c1 c2) eqn:E2.
  { right. exists (String c1 (String c2 "")), s2. auto. }
  destruct s2 as [|c3 s3]; [left; reflexivity|].
  destruct (three c1 c2 c3) eqn:E3; [|left; reflexivity].
  right. exists (String c1 (String c2 (String c3 ""))), s3. auto.
Qed.

Lemma word_length w : w ∈ W -> (0 < String.length w)%nat.
Proof.
  intros Hw. destruct w; [contradiction | simpl; lia].
Qed.

Lemma strip_start_split (s : string) :
  exists a, s = (a ++ strip_start one two three s)%string /\ made_of W a.
Proof.
  remember (String.length s) as n eqn:Hn. revert s Hn.
  induction n as [n IH] using lt_wf_ind. intros s ->.
  destruct (strip_start_step s) as [E|(w & r & Hw & -> & E)].
  - exists ""%string. rewrite E. split; [reflexivity | constructor].
  - destruct (IH (String.length r)) with (s := r) as (a & Ha & Hm);
      [rewrite string_length_app; pose proof (word_length w Hw); lia
      |reflexivity|].
    exists (w ++ a)%string. rewrite E. split.
    + rewrite string_app_assoc, <- Ha. reflexivity.
    + constructor; assumption.
Qed.

Lemma strip_start_length (s : string) :
  (String.length (strip_start one two three s) <= String.length s)%nat.
Proof.
  destruct (strip_start_split s) as (a & Ha & _).
  rewrite Ha at 2. rewrite string_length_app. lia.
Qed.

Lemma strip_start_idempotent (s : string) :
  strip_start one two three (strip_start one two three s)
  = strip_start one two three s.
Proof.
  remember (String.length s) as n eqn:Hn. revert s Hn.
  induction n as [n IH] using lt_wf_ind. intros s ->.
  destruct (strip_start_step s) as [E|(w & r & Hw & -> & E)].
  - rewrite E. exact E.
  - rewrite E. apply (IH (String.length r)); [|reflexivity].
    rewrite string_length_app. pose proof (word_length w Hw). lia.
Qed.

Lemma strip_start_no_word (s : string) w r :
  w ∈ W -> strip_start one two three s <> (w ++ r)%string.
Proof.
  intros Hw E. pose proof (strip_start_idempotent s) as H.
  rewrite E, eats in H by assumption.
  pose proof (strip_start_length r) as L. rewrite H, string_length_app in L.
  pose proof (word_length w Hw). lia.
Qed.

Lemma strip_start_made_of (s : string) :
  made_of W s -> strip_start one two three s = ""%string.
Proof.
  induction 1 as [|w s Hw _ IH]; [reflexivity|]. rewrite eats by assumption. exact IH.
Qed.

Lemma strip_start_fixed (s : string) :
  (forall w r, w ∈ W -> s <> (w ++ r)%string) -> strip_start one two three s = s.
Proof.
  intros H. destruct (strip_start_step s) as [E|(w & r & Hw & E & _)]; [exact E|].
  destruct (H w r Hw E).
Qed.

End strip_start_facts.

(** The white space of one, two and three bytes that the model of [strip]
    recognises is the UTF-8 encoding of the code points of [WHITE_SPACE]. *)
Lemma white_space_elem w :
  existsb (String.eqb w) white_space = true -> w ∈ white_space.
Proof.
  intros H. apply existsb_exists in H as (x & Hx & E).
  apply String.eqb_eq in E. subst. apply list_elem_of_In. assumption.
Qed.

Lemma is_space_white c : is_space c = true -> String c "" ∈ white_space.
Proof.
  intros H. apply white_space_elem. revert H.
  destruct c as [[|] [|] [|] [|] [|] [|] [|] [|]]; vm_compute; intros H;
    first [exact H | discriminate H].
Qed.

Ltac fix_byte H :=
  apply Nat.eqb_eq in H; apply (f_equal ascii_of_nat) in H;
  rewrite ascii_nat_embedding in H; subst.

Lemma is_space2_white c1 c2 :
  is_space2 c1 c2 = true -> String c1 (String c2 "") ∈ white_space.
Proof.
  unfold is_space2. intros H. apply andb_prop in H as [H1 H2]. fix_byte H1.
  apply white_space_elem. revert H2.
  destruct c2 as [[|] [|] [|] [|] [|] [|] [|] [|]]; vm_compute; intros H;
    first [exact H | discriminate H].
Qed.

Lemma is_space3_white c1 c2 c3 :
  is_space3 c1 c2 c3 = true -> String c1 (String c2 (String c3 "")) ∈ white_space.
Proof.
  unfold is_space3. intros H. apply white_space_elem.
  repeat (apply orb_prop in H as [H|H]);
    apply andb_prop in H as [H H3]; apply andb_prop in H as [H1 H2];
    fix_byte H1; fix_byte H2; revert H3;
    destruct c3 as [[|] [|] [|] [|] [|] [|] [|] [|]]; vm_compute; intros H;
    first [exact H | discriminate H].
Qed.

Lemma lstrip_eats w r : w ∈ white_space -> lstrip (w ++ r) = lstrip r.
Proof.
  intros H. apply list_elem_of_In in H. vm_compute in H.
  repeat (destruct H as [<-|H]; [reflexivity|]). contradiction.
Qed.

Lemma white_space_not_empty : ""%string ∉ white_space.
Proof.
  intros H. apply list_elem_of_In in H. vm_compute in H.
  repeat (destruct H as [H|H]; [discriminate H|]). contradiction.
Qed.

(** Read from the end, the same white space. *)
Lemma rev_eats w r :
  w ∈ string_rev <$> white_space -> strip_end_rev (w ++ r) = strip_end_rev r.
Proof.
  intros H. apply list_elem_of_In in H. vm_compute in H.
  repeat (destruct H as [<-|H]; [reflexivity|]). contradiction.
Qed.

Lemma rev_not_empty : ""%string ∉ string_rev <$> white_space.
Proof.
  intros H. apply list_elem_of_In in H. vm_compute in H.
  repeat (destruct H as [H|H]; [discriminate H|]). contradiction.
Qed.

Lemma rev_one c : is_space c = true -> String c "" ∈ string_rev <$> white_space.
Proof.
  intros H. apply list_elem_of_fmap. exists (String c ""). split; [reflexivity|].
  apply is_space_white. assumption.
Qed.

Lemma rev_two c2 c1 :
  is_space2 c1 c2 = true -> String c2 (String c1 "") ∈ string_rev <$> white_space.
Proof.
  intros H. apply list_elem_of_fmap. exists (String c1 (String c2 "")).
  split; [reflexivity|]. apply is_space2_white. assumption.
Qed.

Lemma rev_three c3 c2 c1 :
  is_space3 c1 c2 c3 = true ->
  String c3 (String c2 (String c1 "")) ∈ string_rev <$> white_space.
Proof.
  intros H. apply list_elem_of_fmap. exists (String c1 (String c2 (String c3 ""))).
  split; [reflexivity|]. apply is_space3_white. assumption.
Qed.

Lemma lstrip_split (s : string) : exists a, s = (a ++ lstrip s)%string /\ blank a.
Proof.
  apply strip_start_split;
    auto using is_space_white, is_space2_white, is_space3_white, white_space_not_empty.
Qed.

Lemma lstrip_no_white (s : string) w r :
  w ∈ white_space -> lstrip s <> (w ++ r)%string.
Proof.
  apply strip_start_no_word;
    auto using is_space_white, is_space2_white, is_space3_white, white_space_not_empty,
      lstrip_eats.
Qed.

Lemma rstrip_split (s : string) : exists b, s = (rstrip s ++ b)%string /\ blank b.
Proof.
  destruct (strip_start_split _ _ _ _ rev_one rev_two rev_three rev_not_empty
              (string_rev s)) as (a & Ha & Hm).
  exists (string_rev a). split; [|apply made_of_rev; assumption].
  unfold rstrip, strip_end_rev.
  rewrite <- string_rev_app, <- Ha, string_rev_involutive. reflexivity.
Qed.

Lemma rstrip_no_white (s : string) w r :
  w ∈ white_space -> rstrip s <> (r ++ w)%string.
Proof.
  intros Hw E. apply (f_equal string_rev) in E.
  unfold rstrip, strip_end_rev in E.
  rewrite string_rev_involutive, string_rev_app in E.
  revert E.
  apply (strip_start_no_word _ _ _ _ rev_one rev_two rev_three rev_eats rev_not_empty).
  apply list_elem_of_fmap. eauto.
Qed.

(** The shape of [strip s]: [s] is [a ++ strip s ++ b] with [a] and [b]
    white space. *)
Lemma strip_split (s : string) :
  exists a b, s = (a ++ strip s ++ b)%string /\ blank a /\ blank b.
Proof.
  destruct (lstrip_split s) as (a & Ha & Hsa).
  destruct (rstrip_split (lstrip s)) as (b & Hb & Hsb).
  exists a, b. split; [|split; assumption].
  unfold strip. rewrite <- Hb. exact Ha.
Qed.

Lemma strip_no_white (s : string) w r :
  w ∈ white_space -> strip s <> (w ++ r)%string /\ strip s <> (r ++ w)%string.
Proof.
  intros Hw. split; [|apply rstrip_no_white; assumption].
  intros E. destruct (rstrip_split (lstrip s)) as (b & Hb & _).
  fold (strip s) in Hb. rewrite E, string_app_assoc in Hb.
  exact (lstrip_no_white s w (r ++ b) Hw Hb).
Qed.

Lemma strip_empty_iff (s : string) : strip s = ""%string <-> blank s.
Proof.
  split.
  - intros E. destruct (strip_split s) as (a & b & Hs & Ha & Hb).
    rewrite Hs, E. apply made_of_app; assumption.
  - intros H. unfold strip, lstrip.
    rewrite (strip_start_made_of _ _ _ _ lstrip_eats s H). reflexivity.
Qed.

Lemma strip_idempotent (s : string) : strip (strip s) = strip s.
Proof.
  assert (L : lstrip (strip s) = strip s).
  { apply (strip_start_fixed _ _ _ white_space is_space_white is_space2_white
             is_space3_white).
    intros w r Hw. exact (proj1 (strip_no_white s w r Hw)). }
  unfold strip at 1. rewrite L. unfold rstrip, strip_end_rev.
  rewrite (strip_start_fixed _ _ _ (string_rev <$> white_space) rev_one rev_two rev_three).
  - apply string_rev_involutive.
  - intros w r Hw E. apply list_elem_of_fmap in Hw as (v & -> & Hv).
    apply (f_equal string_rev) in E.
    rewrite string_rev_involutive, string_rev_app, string_rev_involutive in E.
    eapply (proj2 (strip_no_white s v (string_rev r) Hv)). exact E.
Qed.

(** For instance an em space (U+2003) before a name and an ideographic
    space (U+3000) after it are removed, a name that is an em space is
    stripped to nothing, and the last byte of the letter U+00E0, which is
    A0, is not taken for a no-break space. *)
Lemma strip_examples :
  strip (utf8 8195 ++ " Zo" ++ utf8 224 ++ utf8 12288) = ("Zo" ++ utf8 224)%string /\
  strip (utf8 8195) = ""%string /\
  strip ("Zo" ++ utf8 224) = ("Zo" ++ utf8 224)%string.
Proof. repeat split; vm_compute; reflexivity. Qed.

(** X14. The name check. White space is what [str.isspace] accepts, the
    code points of [WHITE_SPACE], each in its UTF-8 encoding. An add/update
    is turned down with "Please enter a name." exactly when the name is
    made of white space only (the empty name included). The name that is
    stored otherwise is the name typed without the white space before and
    after it: it neither starts nor ends with a white-space character, and
    stripping it again changes nothing. *)
Theorem name_is_stripped uuid4 f s :
  (blank (f_name f) <->
   add_update uuid4 f s = Done (mkreply s (Some "Please enter a name."%string) false)) /\
  (exists a b,
      f_name f = (a ++ strip (f_name f) ++ b)%string /\ blank a /\ blank b) /\
  (forall w r,
      w ∈ white_space ->
      strip (f_name f) <> (w ++ r)%string /\ strip (f_name f) <> (r ++ w)%string) /\
  strip (strip (f_name f)) = strip (f_name f).
Proof.
  split; [|split; [apply strip_split|split; [|apply strip_idempotent]]].
  - rewrite <- strip_empty_iff. unfold add_update. split.
    + intros ->. reflexivity.
    + destruct (String.eqb_spec (strip (f_name f)) "") as [E|E]; [auto|].
      destruct (bool_decide (f_start_t f = f_end_t f)); [discriminate|].
      destruct (day_list (f_days_pick f)); simpl; [|discriminate..].
      destruct (edit_id s); discriminate.
  - intros w r Hw. apply strip_no_white. assumption.
Qed.

Lemma name_is_stripped_witness :
  strip (utf8 8195 ++ " Bob" ++ utf8 160) <> (utf8 8195 ++ " Bob")%string /\
  strip (utf8 8195 ++ " Bob" ++ utf8 160) <> ("Bob" ++ utf8 160)%string.
Proof.
  pose proof (proj1 (proj2 (proj2 (name_is_stripped "u1"
                (mkform "Working days" (utf8 8195 ++ " Bob" ++ utf8 160) []
                   (mktime 9 0 0) (mktime 17 0 0))
                (mksession [] None))))) as H.
  simpl f_name in H. split.
  - refine (proj1 (H (utf8 8195) " Bob"%string _)).
    apply white_space_elem. vm_compute. reflexivity.
  - refine (proj2 (H (utf8 160) "Bob"%string _)).
    apply white_space_elem. vm_compute. reflexivity.
Defined.

(** ** Times on the 12-hour clock *)

Lemma clock_table :
  forallb (fun h => forallb (clock_ok h) (Z.of_nat <$> seq 0 60))
    (Z.of_nat <$> seq 0 24) = true.
Proof. vm_compute. reflexivity. Qed.

Lemma clock_ok_all h m : 0 <= h < 24 -> 0 <= m < 60 -> clock_ok h m = true.
Proof.
  intros Hh Hm. pose proof clock_table as T.
  rewrite forallb_forall in T. specialize (T h).
  rewrite forallb_forall in T. apply T.
  - apply list_elem_of_In, list_elem_of_fmap. exists (Z.to_nat h).
    split; [lia | apply elem_of_seq; lia].
  - apply list_elem_of_In, list_elem_of_fmap. exists (Z.to_nat m).
    split; [lia | apply elem_of_seq; lia].
Qed.

Lemma strptime_strftime t :
  valid_time t -> strptime_HM (strftime_HM t) = Some (mktime (hour t) (minute t) 0).
Proof.
  intros (Hh & Hm & _). pose proof (clock_ok_all _ _ Hh Hm) as H.
  apply andb_prop in H as [H _]. apply bool_decide_eq_true in H. exact H.
Qed.

Lemma pretty_time_valid t : valid_time t -> pretty_time t = Some (strftime_IMp t).
Proof.
  intros V. unfold pretty_time. rewrite strptime_strftime by assumption. reflexivity.
Qed.

Lemma read_pretty_strftime t :
  valid_time t -> read_pretty (strftime_IMp t) = Some (hour t, minute t).
Proof.
  intros (Hh & Hm & _). pose proof (clock_ok_all _ _ Hh Hm) as H.
  apply andb_prop in H as [_ H]. apply bool_decide_eq_true in H. exact H.
Qed.

(** X15. For every valid time of day, parsing what [%H:%M] printed gives
    the hour and the minute back, so that [pretty_time] raises nothing and
    returns the time formatted by [%I:%M %p], on the 12-hour clock; the
    seconds never show. *)
Theorem pretty_time_is_12_hour_clock t :
  valid_time t ->
  strptime_HM (strftime_HM t) = Some (mktime (hour t) (minute t) 0) /\
  pretty_time t = Some (strftime_IMp t) /\
  pretty_time t = pretty_time (mktime (hour t) (minute t) 0).
Proof.
  intros V. split; [apply strptime_strftime; assumption|]. split.
  - apply pretty_time_valid. assumption.
  - reflexivity.
Qed.

Lemma pretty_time_is_12_hour_clock_witness :
  pretty_time (mktime 12 5 9) = Some "12:05 PM"%string.
Proof.
  apply (proj1 (proj2 (pretty_time_is_12_hour_clock (mktime 12 5 9)
                         ltac:(valid_data)))).
Defined.

Lemma pretty_time_inj t1 t2 :
  valid_time t1 -> valid_time t2 -> pretty_time t1 = pretty_time t2 ->
  hour t1 = hour t2 /\ minute t1 = minute t2.
Proof.
  intros V1 V2 H. rewrite !pretty_time_valid in H by assumption.
  assert (E : Some (hour t1, minute t1) = Some (hour t2, minute t2)).
  { rewrite <- (read_pretty_strftime t1), <- (read_pretty_strftime t2) by assumption.
    congruence. }
  injection E as H1 H2. auto.
Qed.

(** X16. Two valid times with the same 12-hour label have the same hour
    and minute. Hence, for a grid that [build_empty_grid] returned, the
    labels computed for [grid_display] are all there, one for each row, and
    pairwise distinct: no two rows of the table or of the heat map share a
    label. *)
Theorem display_labels_distinct :
  (forall t1 t2,
      valid_time t1 -> valid_time t2 -> pretty_time t1 = pretty_time t2 ->
      hour t1 = hour t2 /\ minute t1 = minute t2) /\
  (forall fuel interval g,
      build_empty_grid fuel interval = Done g ->
      exists labels,
        display_index g = Some labels /\
        length labels = length (rows g) /\ NoDup labels).
Proof.
  split; [exact pretty_time_inj|].
  intros fuel interval g H. apply build_empty_grid_Done in H as [Hs ->].
  assert (Hi : index (zero_frame (slot_times interval) DAYS) = slot_times interval).
  { unfold index, zero_frame; simpl. rewrite <- list_fmap_compose.
    rewrite <- (list_fmap_id (slot_times interval)) at 2.
    apply list_fmap_ext. reflexivity. }
  pose proof (slot_times_whole_minutes interval Hs) as Hw.
  exists (strftime_IMp <$> slot_times interval). split; [|split].
  - unfold display_index. rewrite Hi. apply mapM_Some_2, Forall2_fmap_r.
    apply Forall_Forall2_diag. eapply Forall_impl; [exact Hw|].
    intros t [V _]. apply pretty_time_valid. assumption.
  - unfold zero_frame; simpl. rewrite !length_fmap. reflexivity.
  - apply NoDup_fmap_2_strong; [|apply slot_times_NoDup; assumption].
    intros x y Hx Hy E.
    rewrite Forall_forall in Hw. destruct (Hw x Hx) as [Vx Sx], (Hw y Hy) as [Vy Sy].
    destruct (pretty_time_inj x y Vx Vy) as [Eh Em].
    { rewrite !pretty_time_valid by assumption. f_equal. assumption. }
    destruct x, y; simpl in *. congruence.
Qed.

Lemma display_labels_distinct_witness :
  exists labels,
    display_index (zero_frame (slot_times 60) DAYS) = Some labels /\
    length labels = length (rows (zero_frame (slot_times 60) DAYS)) /\
    NoDup labels.
Proof.
  apply (proj2 display_labels_distinct 25%nat 60 (zero_frame (slot_times 60) DAYS)).
  vm_compute. reflexivity.
Defined.

(** ** The table of people *)

Lemma list_item_weekday i : weekday i -> list_item DAYS i = Some (weekday_name i).
Proof. unfold weekday. intros Hi. each_weekday i; reflexivity. Qed.

Lemma list_item_elem {A : Type} (l : list A) i x : list_item l i = Some x -> x ∈ l.
Proof.
  unfold list_item.
  destruct ((0 <=? i) && (i <? Z.of_nat (length l)));
    [|destruct ((- Z.of_nat (length l) <=? i) && (i <? 0)); [|discriminate]];
    apply list_elem_of_lookup_2.
Qed.

Lemma day_names_weekdays l :
  Forall weekday l -> day_names l = Some (weekday_name <$> l).
Proof.
  induction 1 as [|i l Hi _ IH]; [reflexivity|]. cbn [day_names].
  rewrite list_item_weekday, IH by assumption. reflexivity.
Qed.

Lemma day_names_Some l names :
  day_names l = Some names ->
  length names = length l /\ Forall (fun d => d ∈ DAYS) names.
Proof.
  revert names. induction l as [|i l IH]; intros names; cbn [day_names].
  - intros [= <-]. split; [reflexivity | constructor].
  - destruct (list_item DAYS i) as [d|] eqn:Ed; [|discriminate].
    destruct (day_names l) as [ns|]; [|discriminate]. intros [= <-].
    destruct (IH ns eq_refl) as [Hl Hn]. split; [simpl; lia|].
    constructor; [eapply list_item_elem; eassumption | assumption].
Qed.

Lemma join_head sep c x l : exists r, join sep (String c x :: l) = String c r.
Proof. destruct l; simpl; eauto. Qed.

Lemma join_first sep x l : exists r, join sep (x :: l) = (x ++ r)%string.
Proof.
  destruct l; simpl; [|eauto]. exists ""%string. rewrite string_app_nil_r. reflexivity.
Qed.

Lemma merge_sort_Permutation_eq (l l' : list Z) :
  Permutation l l' -> merge_sort Z.le l = merge_sort Z.le l'.
Proof.
  intros HP. apply (StronglySorted_unique Z.le).
  - apply StronglySorted_merge_sort; apply _.
  - apply StronglySorted_merge_sort; apply _.
  - rewrite !merge_sort_Permutation. assumption.
Qed.

Lemma StronglySorted_filter_list {A : Type} (R : relation A) (P : A -> Prop)
    `{!forall x, Decision (P x)} (l : list A) :
  StronglySorted R l -> StronglySorted R (filter P l).
Proof.
  induction 1 as [|x l _ IH Hx]; [constructor|].
  rewrite filter_cons. destruct (decide (P x)); [|assumption].
  constructor; [assumption|].
  apply Forall_forall. intros y Hy. apply list_elem_of_filter in Hy as [_ Hy].
  rewrite Forall_forall in Hx. auto.
Qed.

Lemma merge_sort_weekdays (days : list Z) :
  Forall weekday days -> NoDup days ->
  merge_sort Z.le days = filter (fun i => i ∈ days) (Z.of_nat <$> seq 0 7).
Proof.
  intros Hw Hnd. apply (StronglySorted_unique Z.le).
  - apply StronglySorted_merge_sort; apply _.
  - apply StronglySorted_filter_list.
    repeat (constructor; [|repeat constructor; simpl; lia]). constructor.
  - apply NoDup_Permutation.
    + rewrite merge_sort_Permutation. assumption.
    + apply NoDup_filter, NoDup_fmap_2; [intros ? ?; lia | apply NoDup_seq].
    + intros x. rewrite merge_sort_Permutation, list_elem_of_filter. split.
      * intros Hx. split; [assumption|]. rewrite Forall_forall in Hw.
        specialize (Hw x Hx). unfold weekday in Hw.
        apply list_elem_of_fmap. exists (Z.to_nat x).
        split; [lia | apply elem_of_seq; lia].
      * tauto.
Qed.

(** X17. The "Days" cell does not depend on the order in which the days
    were selected: permuted lists of days give the same cell. For a
    non-empty list of distinct days in 0..6 the cell is the names of the
    selected weekdays, Monday first, separated by a comma and a space. *)
Theorem days_cell_is_monday_first :
  (forall days days', Permutation days days' -> days_cell days = days_cell days') /\
  (forall days,
      days <> [] -> Forall weekday days -> NoDup days ->
      days_cell days
      = Some (join ", "
                (weekday_name
                   <$> filter (fun i => i ∈ days) (Z.of_nat <$> seq 0 7)))).
Proof.
  split.
  - intros days days' HP. unfold days_cell.
    destruct days as [|d l], days' as [|d' l'].
    + reflexivity.
    + apply Permutation_nil in HP. discriminate.
    + symmetry in HP. apply Permutation_nil in HP. discriminate.
    + rewrite (merge_sort_Permutation_eq _ _ HP). reflexivity.
  - intros days Hne Hw Hnd. unfold days_cell.
    destruct days as [|d l]; [contradiction|].
    rewrite merge_sort_weekdays by assumption.
    rewrite day_names_weekdays; [reflexivity|].
    apply Forall_forall. intros x Hx. apply list_elem_of_filter in Hx as [Hx _].
    rewrite Forall_forall in Hw. auto.
Qed.

Lemma days_cell_is_monday_first_witness :
  days_cell [4; 0; 2] = days_cell [0; 2; 4] /\
  days_cell [4; 0; 2]
  = Some (join ", "
            (weekday_name
               <$> filter (fun i => i ∈ [4; 0; 2]) (Z.of_nat <$> seq 0 7))).
Proof.
  split.
  - apply (proj1 days_cell_is_monday_first [4; 0; 2] [0; 2; 4]).
    apply (perm_trans (l' := [0; 4; 2])); [apply perm_swap|].
    apply perm_skip, perm_swap.
  - apply (proj2 days_cell_is_monday_first [4; 0; 2]).
    + discriminate.
    + repeat constructor; unfold weekday; lia.
    + repeat constructor; intros H; apply list_elem_of_In in H; simpl in H; lia.
Defined.

(** X18. The "Days" cell is never the text [(none)]: for a person with
    no day the characters of that text are joined one by one, which gives
    [(, n, o, n, e, )]; for any other person the cell, when there is one,
    starts with the name of a weekday. *)
Theorem days_cell_never_says_none (days : list Z) :
  days_cell days <> Some "(none)"%string /\
  days_cell [] = Some "(, n, o, n, e, )"%string /\
  (forall cell,
      days <> [] -> days_cell days = Some cell ->
      exists d rest, d ∈ DAYS /\ cell = (d ++ rest)%string).
Proof.
  assert (Hstart : forall cell,
             days <> [] -> days_cell days = Some cell ->
             exists d rest, d ∈ DAYS /\ cell = (d ++ rest)%string).
  { intros cell Hne. unfold days_cell. destruct days as [|d l]; [contradiction|].
    destruct (day_names (merge_sort Z.le (d :: l))) as [names|] eqn:E; [|discriminate].
    apply day_names_Some in E as [Hl Hn].
    pose proof (Permutation_length (merge_sort_Permutation Z.le (d :: l))) as Hp.
    destruct names as [|n ns]; [simpl in *; lia|].
    inversion Hn as [|? ? Hd _]; subst.
    destruct (join_first ", " n ns) as [r Hr].
    intros [= <-]. exists n, r. split; [assumption | exact Hr]. }
  split; [|split; [reflexivity | exact Hstart]].
  destruct days as [|d l]; [discriminate|].
  intros E. destruct (Hstart _ ltac:(discriminate) E) as (w & rest & Hw & Hc).
  apply list_elem_of_In in Hw. simpl in Hw.
  destruct Hw as [<-|[<-|[<-|[<-|[<-|[<-|[<-|[]]]]]]]]; discriminate Hc.
Qed.

Lemma days_cell_never_says_none_witness :
  exists d rest, d ∈ DAYS /\ "Monday, Friday"%string = (d ++ rest)%string.
Proof.
  apply (proj2 (proj2 (days_cell_never_says_none [4; 0])) "Monday, Friday"%string).
  - discriminate.
  - vm_compute. reflexivity.
Defined.

Lemma days_cell_weekdays days :
  Forall weekday days -> exists cell, days_cell days = Some cell.
Proof.
  intros Hw. unfold days_cell. destruct days as [|d l]; [eauto|].
  rewrite day_names_weekdays; [simpl; eauto|].
  eapply Permutation_Forall; [|exact Hw].
  symmetry. apply merge_sort_Permutation.
Qed.

(** X19. The table of people can always be drawn for records as the
    add/update handler stores them (valid times, days in 0..6): building
    the display rows raises nothing and gives one row for each person, in
    the order of the list, with the person's id, name and mode, the "Days"
    cell of the person's days and the 12-hour labels of start and end. *)
Theorem display_rows_of_stored_records people :
  Forall stored_ok people ->
  exists table,
    display_rows people = Some table /\
    Forall2
      (fun p r =>
         row_id r = p_id p /\ row_name r = p_name p /\
         row_interpretation r = p_mode p /\
         days_cell (p_days p) = Some (row_days r) /\
         row_start r = strftime_IMp (p_start p) /\
         row_end r = strftime_IMp (p_end p))
      people table.
Proof.
  intros H. unfold display_rows.
  assert (Hrow : Forall
            (fun p => exists r,
               display_row_of p = Some r /\
               row_id r = p_id p /\ row_name r = p_name p /\
               row_interpretation r = p_mode p /\
               days_cell (p_days p) = Some (row_days r) /\
               row_start r = strftime_IMp (p_start p) /\
               row_end r = strftime_IMp (p_end p))
            people).
  { eapply Forall_impl; [exact H|]. intros p (_ & _ & Vs & Ve & Hw).
    destruct (days_cell_weekdays _ Hw) as [cell Hc].
    unfold display_row_of. rewrite Hc, !pretty_time_valid by assumption.
    eexists. split; [reflexivity|]. simpl. auto 10. }
  clear H. induction Hrow as [|p l (r & Hr & Hp) _ (table & Ht & IH)].
  - exists []. split; [reflexivity | constructor].
  - exists (r :: table). split.
    + apply mapM_Some_2. constructor; [assumption|]. apply mapM_Some_1. assumption.
    + constructor; assumption.
Qed.

Lemma display_rows_of_stored_records_witness :
  exists table,
    display_rows
      [mkperson "u1" "Ann" "Days off" [6; 5] (mktime 8 0 0) (mktime 16 30 0)]
    = Some table /\
    Forall2
      (fun p r =>
         row_id r = p_id p /\ row_name r = p_name p /\
         row_interpretation r = p_mode p /\
         days_cell (p_days p) = Some (row_days r) /\
         row_start r = strftime_IMp (p_start p) /\
         row_end r = strftime_IMp (p_end p))
      [mkperson "u1" "Ann" "Days off" [6; 5] (mktime 8 0 0) (mktime 16 30 0)]
      table.
Proof.
  apply (display_rows_of_stored_records
           [mkperson "u1" "Ann" "Days off" [6; 5] (mktime 8 0 0) (mktime 16 30 0)]).
  repeat constructor; simpl; try discriminate; unfold weekday; simpl; lia.
Defined.

(** ** The total of the grid *)

Lemma sum_to_shift n g : sum_to (S n) g = g O + sum_to n (fun c => g (S c)).
Proof.
  induction n as [|n IH]; [simpl; lia|].
  change (sum_to (S (S n)) g) with (sum_to (S n) g + g (S n)).
  rewrite IH. simpl. lia.
Qed.

Lemma sum_to_ext n g h : (forall c, (c < n)%nat -> g c = h c) -> sum_to n g = sum_to n h.
Proof.
  induction n as [|n IH]; intros E; [reflexivity|]. simpl.
  rewrite IH, E by (intros; auto with lia). reflexivity.
Qed.

Lemma sum_to_scale n g k : sum_to n (fun c => g c * k) = sum_to n g * k.
Proof. induction n as [|n IH]; simpl; [reflexivity|]. rewrite IH. lia. Qed.

Lemma sum_imap (r : list Z) g :
  foldr Z.add 0 (imap (fun c v => v + g c) r)
  = foldr Z.add 0 r + sum_to (length r) g.
Proof.
  revert g. induction r as [|v r IH]; intros g; [reflexivity|].
  rewrite imap_cons. cbn [foldr length]. rewrite sum_to_shift.
  change (imap ((fun c v => v + g c) ∘ S) r)
    with (imap (fun c v => v + g (S c)) r).
  rewrite (IH (fun c => g (S c))). lia.
Qed.

Lemma grid_sum_add_counts f df :
  grid_sum (add_counts f df)
  = grid_sum df
    + foldr (fun row acc => sum_to (length row.2) (f row.1) + acc) 0 (rows df).
Proof.
  unfold grid_sum, add_counts; simpl.
  induction (rows df) as [|[lbl r] l IH]; [reflexivity|].
  rewrite fmap_cons. cbn [foldr fst snd]. rewrite IH, sum_imap. lia.
Qed.

Lemma count_days_columns days :
  Forall weekday days ->
  sum_to 7 (fun c => count_days (fun d => d =? Z.of_nat c) days)
  = Z.of_nat (length days).
Proof.
  induction 1 as [|d days Hd _ IH]; [reflexivity|].
  cbn [count_days length]. simpl in IH |- *. unfold weekday in Hd.
  each_weekday d; simpl; lia.
Qed.

Lemma stepped_aligned_tick t0 t1 s u :
  0 < s -> 0 <= u < 86400 -> t0 mod s = 0 -> u mod s = 0 ->
  bool_to_Z (stepped t0 t1 s (dt_time u))
  = if (t0 <=? u) && (u <? t1) then 1 else 0.
Proof.
  intros Hs Hu Ht0 Hum. unfold stepped.
  rewrite bool_decide_true by apply valid_time_dt_time.
  rewrite combine_dt_time, Z.mod_small by lia.
  assert (E : (u - t0) mod s = 0).
  { apply Z.mod_divide in Ht0 as [a Ha]; [|lia].
    apply Z.mod_divide in Hum as [b Hb]; [|lia].
    replace (u - t0) with ((b - a) * s) by lia. apply Z.mod_mul. lia. }
  rewrite E. simpl. destruct ((t0 <=? u) && (u <? t1)); reflexivity.
Qed.

Lemma sum_stepped_ticks t0 t1 s n u :
  0 < s -> 0 <= u -> t1 <= 86400 -> t0 mod s = 0 -> u mod s = 0 ->
  n = tick_count u 86400 s ->
  sum_over (fun lbl => bool_to_Z (stepped t0 t1 s lbl)) (ticks n u s)
  = Z.of_nat (tick_count (Z.max u t0) t1 s).
Proof.
  intros Hs. revert u. induction n as [|n IH]; intros u Hu Ht1 Ht0 Hum Hn.
  - destruct (Z.lt_ge_cases u 86400) as [Hlt|Hge].
    + rewrite tick_count_step in Hn by lia. discriminate.
    + rewrite tick_count_done by lia. reflexivity.
  - destruct (Z.lt_ge_cases u 86400) as [Hlt|Hge].
    2:{ rewrite tick_count_done in Hn by lia. discriminate. }
    rewrite tick_count_step in Hn by lia. injection Hn as Hn.
    cbn [ticks sum_over].
    rewrite stepped_aligned_tick by (assumption || lia).
    assert (Hus : (u + s) mod s = 0).
    { replace (u + s) with (u + 1 * s) by lia. rewrite Z.mod_add by lia. assumption. }
    rewrite (IH (u + s)) by (assumption || lia).
    destruct (Z.leb_spec t0 u) as [Hle|Hgt]; simpl.
    + rewrite !Z.max_l by lia. destruct (Z.ltb_spec u t1) as [H1|H1].
      * rewrite (tick_count_step u t1 s) by lia. lia.
      * rewrite !tick_count_done by lia. reflexivity.
    + assert (Hgap : u + s <= t0).
      { apply Z.mod_divide in Ht0 as [a Ha]; [|lia].
        apply Z.mod_divide in Hum as [b Hb]; [|lia].
        assert (b < a) by nia. nia. }
      rewrite !Z.max_r by lia. reflexivity.
Qed.

(** X20. For an interval of 1 to 1440 minutes, a shift that ends later than
    it starts and starts a whole number
    of intervals after 00:00 adds to the total of a grid, whose rows are
    the slots of the interval with seven cells each, the number of resolved
    days times the number of intervals from start up to end (the last one
    counted in full when it is cut by the end). *)
Theorem aligned_shift_adds_its_slots fuel df p step_minutes :
  (1440 < fuel)%nat -> 0 < step_minutes <= 1440 -> valid_person p ->
  length (columns df) = 7%nat ->
  Forall (fun r : time * list Z => length r.2 = 7%nat) (rows df) ->
  index df = slot_times step_minutes ->
  combine (p_start p) < combine (p_end p) ->
  combine (p_start p) mod (60 * step_minutes) = 0 ->
  exists df',
    apply_person_to_grid fuel df p step_minutes = Done df' /\
    grid_sum df'
    = grid_sum df
      + Z.of_nat (length (day_indices (p_mode p) (p_days p)))
        * Z.of_nat (tick_count (combine (p_start p)) (combine (p_end p))
                      (60 * step_minutes)).
Proof.
  intros Hf [Hs _] Hv Hc Hrows Hidx Hlt Hal.
  pose proof Hv as (Vs & Ve & Hd).
  pose proof (combine_range _ Vs). pose proof (combine_range _ Ve).
  eexists. split; [apply apply_person_positive; assumption|].
  rewrite grid_sum_add_counts. f_equal.
  set (days := day_indices (p_mode p) (p_days p)) in *.
  set (covered := fun lbl => bool_to_Z (stepped (combine (p_start p)) (combine (p_end p))
                                   (60 * step_minutes) lbl)).
  transitivity
    (foldr (fun (row : time * list Z) acc =>
              sum_to (length row.2)
                (fun c => count_days (fun d => d =? Z.of_nat c) days) * covered row.1 + acc)
       0 (rows df)).
  { generalize (rows df). intros l.
    induction l as [|row l IH]; [reflexivity|]. cbn [foldr].
    rewrite IH. f_equal. rewrite <- sum_to_scale. apply sum_to_ext.
    intros c _. apply person_count_same_day. assumption. }
  transitivity (Z.of_nat (length days) * sum_over covered (index df)).
  { unfold index. clear Hidx. induction Hrows as [|[lbl r] l Hr _ IH]; [simpl; lia|].
    rewrite fmap_cons. cbn [foldr sum_over fst snd]. simpl in Hr.
    rewrite IH, Hr, count_days_columns by assumption. lia. }
  f_equal. rewrite Hidx, <- ticks_slot_times by assumption. unfold covered.
  rewrite (sum_stepped_ticks _ _ _ _ 0) by (reflexivity || lia).
  rewrite Z.max_r by lia. reflexivity.
Qed.

Lemma aligned_shift_adds_its_slots_witness :
  exists df',
    apply_person_to_grid 1441%nat (zero_frame (slot_times 30) DAYS)
      (mkperson "id" "Ann" "Days off" [5; 6] (mktime 9 0 0) (mktime 17 0 0)) 30
    = Done df' /\
    grid_sum df'
    = grid_sum (zero_frame (slot_times 30) DAYS)
      + Z.of_nat (length (day_indices "Days off" [5; 6]))
        * Z.of_nat (tick_count 32400 61200 (60 * 30)).
Proof.
  apply (aligned_shift_adds_its_slots 1441%nat (zero_frame (slot_times 30) DAYS)
           (mkperson "id" "Ann" "Days off" [5; 6] (mktime 9 0 0) (mktime 17 0 0)) 30).
  - lia.
  - lia.
  - valid_data.
  - reflexivity.
  - vm_compute. repeat constructor.
  - vm_compute. reflexivity.
  - vm_compute. reflexivity.
  - vm_compute. reflexivity.
Defined.
